(** * The Anthropic-to-LiteLLM proxy of [server.py]

  A shallow embedding of the protocol translator of [server.py]:
    - [parse_tool_result_content], the content normalizer;
    - [convert_anthropic_to_litellm], the request mapper;
    - [convert_litellm_to_anthropic], the response mapper;
    - [handle_streaming], the streaming transcoder;
    - the validators [validate_model] of the model name and
      [update_models], which set the models;
    - the endpoints [create_message], up to the call of the downstream,
      and [count_tokens], up to the call of [token_counter], with the
      request history.

  Python values are modelled by the type [pyval]; a Python [str] is a Rocq
  [string] read as a sequence of code points below 256.  The calls into the
  Python runtime and its standard library ([json.dumps], [json.loads],
  [str]) are the fields of the class [PyLib]; every theorem holds for every
  instance of the class, and [ref_lib] is an executable instance on which
  the examples run. *)

From Stdlib Require Import String Ascii List Bool ZArith Lia Arith DecimalString
  Permutation.
Import ListNotations.
Local Open Scope string_scope.
Local Open Scope list_scope.

Set Implicit Arguments.
Set Warnings "-register-all".

(** [s +++ t] is the Python string concatenation [s + t]. *)
Infix "+++" := String.append (right associativity, at level 60).

(** ** Python strings *)

Module PyStr.

(** [str.isspace] on code points below 256: TAB, LF, VT, FF, CR, the
    separators FS, GS, RS, US, the space, NEL and the no-break space. *)
Definition is_space (c : ascii) : bool :=
  let n := nat_of_ascii c in
  (((9 <=? n) && (n <=? 13)) || ((28 <=? n) && (n <=? 32))
   || (n =? 133) || (n =? 160))%nat.

Definition is_empty (s : string) : bool :=
  match s with EmptyString => true | String _ _ => false end.

(** [s.lstrip()] *)
Fixpoint lstrip (s : string) : string :=
  match s with
  | EmptyString => EmptyString
  | String c r => if is_space c then lstrip r else s
  end.

(** [s.rstrip()] *)
Fixpoint rstrip (s : string) : string :=
  match s with
  | EmptyString => EmptyString
  | String c r =>
      let r' := rstrip r in
      if is_space c && is_empty r' then EmptyString else String c r'
  end.

(** [s.strip()] *)
Definition strip (s : string) : string := lstrip (rstrip s).

(** the last code point of [s] is white space *)
Fixpoint ends_with_space (s : string) : bool :=
  match s with
  | EmptyString => false
  | String c EmptyString => is_space c
  | String _ r => ends_with_space r
  end.

(** the first code point of [s] is white space *)
Definition starts_with_space (s : string) : bool :=
  match s with
  | EmptyString => false
  | String c _ => is_space c
  end.

(** [s.startswith(p)] *)
Definition startswith (s p : string) : bool := String.prefix p s.

(** [s[n:]] *)
Fixpoint drop (n : nat) (s : string) : string :=
  match n, s with
  | O, _ => s
  | S _, EmptyString => EmptyString
  | S m, String _ r => drop m r
  end.

(** [p in s] *)
Fixpoint contains (p s : string) : bool :=
  String.prefix p s
  || match s with
     | EmptyString => false
     | String _ r => contains p r
     end.

(** truth value of a string: [bool(s)] *)
Definition truthy (s : string) : bool := negb (is_empty s).

(** [c.lower()] on code points below 256, and [s.lower()]: the letters
    A to Z, and the capital letters from 192 to 222 but for the
    multiplication sign, 215. *)
Definition lower_char (c : ascii) : ascii :=
  let n := nat_of_ascii c in
  if (((65 <=? n) && (n <=? 90))
      || ((192 <=? n) && (n <=? 222) && negb (n =? 215)))%nat
  then ascii_of_nat (n + 32) else c.

Fixpoint lower (s : string) : string :=
  match s with
  | EmptyString => EmptyString
  | String c r => String (lower_char c) (lower r)
  end.

End PyStr.

(** ** Python values *)

(** The values that reach the translator: the JSON values of a request or
  response body, and [PObj r] for an object of any other type, described
  by what [str()] and [repr()] return on it ([None]: they raise). A float
  is given by its [repr], as in [PFloat "0.5"]. A [dict] keeps its
  insertion order. *)
Inductive pyval : Type :=
| PNone
| PBool (b : bool)
| PInt (z : Z)
| PFloat (repr : string)
| PStr (s : string)
| PList (l : list pyval)
| PDict (d : list (string * pyval))
| PObj (r : option string).

(** [d.get(k)], [None] when the key is missing *)
Fixpoint dict_lookup (d : list (string * pyval)) (k : string) : option pyval :=
match d with
| [] => None
| (k', v) :: r => if String.eqb k' k then Some v else dict_lookup r k
end.

(** [d.get(k, default)] *)
Definition dict_get (d : list (string * pyval)) (k : string) (default : pyval)
: pyval :=
match dict_lookup d k with Some v => v | None => default end.

(** [k in d] *)
Definition dict_has (d : list (string * pyval)) (k : string) : bool :=
match dict_lookup d k with Some _ => true | None => false end.

(** [v == s] for a string literal [s] *)
Definition eq_str (v : pyval) (s : string) : bool :=
match v with PStr t => String.eqb t s | _ => false end.

(** [d.get("type") == "text"] *)
Definition type_is_text (d : list (string * pyval)) : bool :=
eq_str (dict_get d "type" PNone) "text".

(** The result of a call: a value, or an exception. *)
Inductive result (A : Type) : Type :=
| Return (a : A)
| Raise.
Arguments Raise {A}.

(** the line feed, ["\n"] *)
Definition NL : string := String (ascii_of_nat 10) EmptyString.

(** [v + "\n"]: a [TypeError] unless [v] is a string *)
Definition add_newline (v : pyval) : result string :=
match v with
| PStr s => Return (s +++ NL)
| _ => Raise
end.

(** ** The Python runtime *)

(** What [json.loads(s)] does: it returns a value, it raises
    [json.JSONDecodeError], or it raises another exception, which no
    [except json.JSONDecodeError] catches: a [RecursionError] on a
    document nested too deep, a [ValueError] on an integer of more digits
    than [int] converts. *)
Inductive Loads : Type :=
| Loaded (v : pyval)
| JSONDecodeError
| OtherException.

Class PyLib : Type := {
(** [json.dumps(v)]; [None]: the call raises *)
json_dumps : pyval -> option string;
(** [json.dumps(v, indent=2)] *)
json_dumps_indent : pyval -> option string;
(** [json.loads(s)] *)
json_loads : string -> Loads;
(** [str(v)]; [None]: the call raises *)
py_str : pyval -> option string
}.

(** A field of a dict, or an attribute of an object: it is missing, it
    is there with [None], or it is there with a value. [d.get(k, default)]
    and [getattr(o, k, default)] give the default for a missing field
    only. *)
Inductive Field (A : Type) : Type :=
| Missing
| Null
| Given (a : A).
Arguments Missing {A}.
Arguments Null {A}.

(** ** ContentNormalizer: [parse_tool_result_content] *)

Section Normalizer.

Context {L : PyLib}.

(** One iteration of the loop over a list content: what is appended to
    [result], or an exception. *)
Definition normalize_item (item : pyval) : result string :=
  match item with
  | PDict d =>
      if type_is_text d then add_newline (dict_get d "text" (PStr EmptyString))
      else if dict_has d "text" then add_newline (dict_get d "text" (PStr EmptyString))
      else
        match json_dumps item with
        | Some s => Return (s +++ NL)
        | None =>
            match py_str item with
            | Some s => Return (s +++ NL)
            | None => Raise
            end
        end
  | PStr s => Return (s +++ NL)
  | _ =>
      match py_str item with
      | Some s => Return (s +++ NL)
      | None => Return ("Unparseable content" +++ NL)
      end
  end.

(** [for item in content: result += ...] *)
Fixpoint normalize_items (content : list pyval) (acc : string)
  : result string :=
  match content with
  | [] => Return acc
  | item :: rest =>
      match normalize_item item with
      | Return s => normalize_items rest (acc +++ s)
      | Raise => Raise
      end
  end.

Definition parse_tool_result_content (content : pyval) : result pyval :=
  match content with
  | PNone => Return (PStr "No content provided")
  | PStr s => Return (PStr s)
  | PList l =>
      match normalize_items l EmptyString with
      | Return r => Return (PStr (PyStr.strip r))
      | Raise => Raise
      end
  | PDict d =>
      if type_is_text d then Return (dict_get d "text" (PStr EmptyString))
      else
        match json_dumps content with
        | Some s => Return (PStr s)
        | None =>
            match py_str content with
            | Some s => Return (PStr s)
            | None => Raise
            end
        end
  | _ =>
      match py_str content with
      | Some s => Return (PStr s)
      | None => Return (PStr "Unparseable content")
      end
  end.

End Normalizer.

(** ** RequestMapper: [convert_anthropic_to_litellm] *)

(** *** The request, as pydantic validated it *)

(** [ContentBlockText], [ContentBlockImage], [ContentBlockToolUse] and
    [ContentBlockToolResult]: the tag is the field [type]. *)
Inductive ContentBlock : Type :=
| ContentBlockText (text : string)
| ContentBlockImage (source : pyval)
| ContentBlockToolUse (id name : string) (input : pyval)
| ContentBlockToolResult (tool_use_id : string) (content : pyval).

(** [Literal["user", "assistant"]] *)
Inductive Role : Type := user | assistant.

Definition role_name (r : Role) : string :=
  match r with user => "user" | assistant => "assistant" end.

(** [Union[str, List[ContentBlock...]]] *)
Inductive MessageContent : Type :=
| ContentStr (s : string)
| ContentBlocks (blocks : list ContentBlock).

Record Message : Type := {
  role : Role;
  content : MessageContent
}.

(** [Optional[Union[str, List[SystemContent]]]]; a [SystemContent] is its
    field [text], its [type] being the literal ["text"]. *)
Inductive SystemField : Type :=
| SystemStr (s : string)
| SystemBlocks (texts : list string).

Record Tool : Type := {
  tool_name : string;
  tool_description : option string;
  input_schema : pyval
}.

Record MessagesRequest : Type := {
  model : string;
  max_tokens : Z;
  messages : list Message;
  system : option SystemField;
  stop_sequences : option (list string);
  stream : option bool;
  temperature : option pyval;
  top_p : option pyval;
  top_k : option Z;
  tools : option (list Tool);
  tool_choice : option (list (string * pyval));
  reasoning_effort : option string
}.

(** *** The downstream request: the dict [litellm_request] *)

(** The value under ["content"] of a downstream message: a string, or the
    list [processed_content]. *)
Inductive OutContent : Type :=
| OutStr (s : string)
| OutParts (parts : list pyval).

Record OutMessage : Type := {
  out_role : string;
  out_content : OutContent
}.

(** [{"type": "function", "function": {"name", "description", "parameters"}}];
    a missing description is [None] in [tool.dict()]. *)
Record OpenAITool : Type := {
  fn_name : string;
  fn_description : option string;
  fn_parameters : pyval
}.

Inductive OutToolChoice : Type :=
| ChoiceStr (s : string)
| ChoiceFunction (name : pyval).

(** A key that may be missing from the dict is an [option] field. *)
Record LiteLLMRequest : Type := {
  lr_model : string;
  lr_messages : list OutMessage;
  lr_max_tokens : Z;
  lr_temperature : option pyval;
  lr_stream : option bool;
  lr_reasoning_effort : option string;
  lr_stop : option (list string);
  lr_top_p : option pyval;
  lr_top_k : option Z;
  lr_tools : option (list OpenAITool);
  lr_tool_choice : option OutToolChoice
}.

(** Truth value of a Python value, as [if v:] reads it. *)
Definition truthy (v : pyval) : bool :=
  match v with
  | PNone => false
  | PBool b => b
  | PInt z => negb (Z.eqb z 0)
  | PFloat r => negb (String.eqb r "0.0" || String.eqb r "-0.0")
  | PStr s => PyStr.truthy s
  | PList l => match l with [] => false | _ => true end
  | PDict d => match d with [] => false | _ => true end
  | PObj _ => true
  end.

Definition is_tool_result (b : ContentBlock) : bool :=
  match b with ContentBlockToolResult _ _ => true | _ => false end.

(** [{"type": "text", "text": s}] *)
Definition text_part (s : pyval) : pyval :=
  PDict [("type", PStr "text"); ("text", s)].

Section RequestMapper.

Context {L : PyLib}.

(** The system prompt: the messages the list starts with. *)
Definition system_messages (sys : option SystemField) : list OutMessage :=
  match sys with
  | None => []
  | Some (SystemStr s) =>
      if PyStr.truthy s
      then [ {| out_role := "system"; out_content := OutStr s |} ]
      else []
  | Some (SystemBlocks texts) =>
      let system_text :=
        fold_left (fun acc text => acc +++ text +++ NL +++ NL) texts EmptyString in
      if PyStr.truthy system_text
      then [ {| out_role := "system";
                out_content := OutStr (PyStr.strip system_text) |} ]
      else []
  end.

(** One iteration over a list [block.content] of a tool result: what is
    appended to [result_content]. Items that are no dict are passed over. *)
Definition result_content_item (content_block : pyval) : result string :=
  match content_block with
  | PDict d =>
      if type_is_text d then add_newline (dict_get d "text" (PStr EmptyString))
      else if dict_has d "text"
      then add_newline (dict_get d "text" (PStr EmptyString))
      else
        match json_dumps content_block with
        | Some s => Return (s +++ NL)
        | None =>
            match py_str content_block with
            | Some s => Return (s +++ NL)
            | None => Raise
            end
        end
  | _ => Return EmptyString
  end.

Fixpoint result_content_items (l : list pyval) (acc : string) : result string :=
  match l with
  | [] => Return acc
  | content_block :: rest =>
      match result_content_item content_block with
      | Return s => result_content_items rest (acc +++ s)
      | Raise => Raise
      end
  end.

(** [result_content] of a [tool_result] block, a value: the [text] of a
    dict tagged ["text"] is taken as it is. *)
Definition result_content (block_content : pyval) : result pyval :=
  match block_content with
  | PStr s => Return (PStr s)
  | PList l =>
      match result_content_items l EmptyString with
      | Return s => Return (PStr s)
      | Raise => Raise
      end
  | PDict d =>
      if type_is_text d then Return (dict_get d "text" (PStr EmptyString))
      else
        match json_dumps block_content with
        | Some s => Return (PStr s)
        | None =>
            match py_str block_content with
            | Some s => Return (PStr s)
            | None => Raise
            end
        end
  | _ =>
      match py_str block_content with
      | Some s => Return (PStr s)
      | None => Return (PStr "Unparseable content")
      end
  end.

(** [f"{v}"]: a string as it is, any other value through [str]. *)
Definition format_value (v : pyval) : result string :=
  match v with
  | PStr s => Return s
  | _ => match py_str v with Some s => Return s | None => Raise end
  end.

(** One iteration of the loop over the blocks of a user message that holds
    a tool result: what is appended to [text_content]. *)
Definition tool_result_fragment (block : ContentBlock) : result string :=
  match block with
  | ContentBlockText text => Return (text +++ NL)
  | ContentBlockToolResult tool_id block_content =>
      match result_content block_content with
      | Return rc =>
          match format_value rc with
          | Return s =>
              Return ("Tool result for " +++ tool_id +++ ":" +++ NL +++ s +++ NL)
          | Raise => Raise
          end
      | Raise => Raise
      end
  | _ => Return EmptyString
  end.

Fixpoint tool_result_text (blocks : list ContentBlock) (text_content : string)
  : result string :=
  match blocks with
  | [] => Return text_content
  | block :: rest =>
      match tool_result_fragment block with
      | Return s => tool_result_text rest (text_content +++ s)
      | Raise => Raise
      end
  end.

(** One iteration of the regular loop: the part appended to
    [processed_content]. *)
Definition processed_block (block : ContentBlock) : result pyval :=
  match block with
  | ContentBlockText text => Return (text_part (PStr text))
  | ContentBlockImage source =>
      Return (PDict [("type", PStr "image"); ("source", source)])
  | ContentBlockToolUse id name input =>
      Return (PDict [("type", PStr "tool_use"); ("id", PStr id);
                     ("name", PStr name); ("input", input)])
  | ContentBlockToolResult tool_use_id block_content =>
      let head := [("type", PStr "tool_result"); ("tool_use_id", PStr tool_use_id)] in
      match block_content with
      | PStr s =>
          Return (PDict (head ++ [("content", PList [text_part (PStr s)])]))
      | PList l => Return (PDict (head ++ [("content", PList l)]))
      | _ =>
          match py_str block_content with
          | Some s =>
              Return (PDict (head ++ [("content", PList [text_part (PStr s)])]))
          | None => Raise
          end
      end
  end.

Fixpoint processed_blocks (blocks : list ContentBlock) (acc : list pyval)
  : result (list pyval) :=
  match blocks with
  | [] => Return acc
  | block :: rest =>
      match processed_block block with
      | Return p => processed_blocks rest (acc ++ [p])
      | Raise => Raise
      end
  end.

(** The body of the loop over the messages: [messages] after the
    iteration on [msg]. *)
Definition convert_message (msgs : list OutMessage) (msg : Message)
  : result (list OutMessage) :=
  match content msg with
  | ContentStr s =>
      Return (msgs ++ [ {| out_role := role_name (role msg);
                           out_content := OutStr s |} ])
  | ContentBlocks blocks =>
      match role msg with
      | user =>
          if existsb is_tool_result blocks then
            match tool_result_text blocks EmptyString with
            | Return text_content =>
                Return (msgs ++ [ {| out_role := "user";
                                     out_content := OutStr (PyStr.strip text_content) |} ])
            | Raise => Raise
            end
          else
            match processed_blocks blocks [] with
            | Return parts =>
                Return (msgs ++ [ {| out_role := role_name (role msg);
                                     out_content := OutParts parts |} ])
            | Raise => Raise
            end
      | assistant =>
          match processed_blocks blocks [] with
          | Return parts =>
              Return (msgs ++ [ {| out_role := role_name (role msg);
                                   out_content := OutParts parts |} ])
          | Raise => Raise
          end
      end
  end.

Fixpoint convert_messages (l : list Message) (msgs : list OutMessage)
  : result (list OutMessage) :=
  match l with
  | [] => Return msgs
  | msg :: rest =>
      match convert_message msgs msg with
      | Return msgs' => convert_messages rest msgs'
      | Raise => Raise
      end
  end.

(** [clean_model]: the model name without its provider prefix. *)
Definition clean_model_of (m : string) : string :=
  if PyStr.startswith m "anthropic/" then PyStr.drop (String.length "anthropic/") m
  else if PyStr.startswith m "openai/" then PyStr.drop (String.length "openai/") m
  else m.

(** The cap on [max_tokens]; [USE_OPENAI_MODELS] is the module's global. *)
Definition capped_max_tokens (USE_OPENAI_MODELS : bool) (req : MessagesRequest) : Z :=
  if PyStr.startswith (model req) "openai/" || USE_OPENAI_MODELS
  then Z.min (max_tokens req) 16384
  else max_tokens req.

(** The key ["reasoning_effort"] of the request dict. *)
Definition reasoning_effort_of (req : MessagesRequest) : option string :=
  let clean_model := clean_model_of (model req) in
  match reasoning_effort req with
  | Some r =>
      if PyStr.truthy r then Some r
      else if PyStr.contains "o3-" clean_model || PyStr.contains "o1" clean_model
      then Some "high" else None
  | None =>
      if PyStr.contains "o3-" clean_model || PyStr.contains "o1" clean_model
      then Some "high" else None
  end.

Definition convert_tool (tool : Tool) : OpenAITool :=
  {| fn_name := tool_name tool;
     fn_description := tool_description tool;
     fn_parameters := input_schema tool |}.

Definition convert_tool_choice (tool_choice_dict : list (string * pyval))
  : OutToolChoice :=
  let choice_type := dict_get tool_choice_dict "type" PNone in
  if eq_str choice_type "auto" then ChoiceStr "auto"
  else if eq_str choice_type "any" then ChoiceStr "any"
  else if eq_str choice_type "tool" && dict_has tool_choice_dict "name"
  then ChoiceFunction (dict_get tool_choice_dict "name" PNone)
  else ChoiceStr "auto".

Definition when {A : Type} (b : bool) (a : A) : option A :=
  if b then Some a else None.

Definition convert_anthropic_to_litellm (USE_OPENAI_MODELS : bool)
  (anthropic_request : MessagesRequest) : result LiteLLMRequest :=
  match convert_messages (messages anthropic_request)
          (system_messages (system anthropic_request)) with
  | Raise => Raise
  | Return msgs =>
      Return
        {| lr_model := model anthropic_request;
           lr_messages := msgs;
           lr_max_tokens := capped_max_tokens USE_OPENAI_MODELS anthropic_request;
           lr_temperature := temperature anthropic_request;
           lr_stream := stream anthropic_request;
           lr_reasoning_effort := reasoning_effort_of anthropic_request;
           lr_stop :=
             match stop_sequences anthropic_request with
             | Some (s :: l) => Some (s :: l)
             | _ => None
             end;
           lr_top_p :=
             match top_p anthropic_request with
             | Some p => when (truthy p) p
             | None => None
             end;
           lr_top_k :=
             match top_k anthropic_request with
             | Some k => when (negb (Z.eqb k 0)) k
             | None => None
             end;
           lr_tools :=
             match tools anthropic_request with
             | Some (t :: l) => Some (map convert_tool (t :: l))
             | _ => None
             end;
           lr_tool_choice :=
             match tool_choice anthropic_request with
             | Some (kv :: d) => Some (convert_tool_choice (kv :: d))
             | _ => None
             end |}
  end.

End RequestMapper.

(** ** ResponseMapper: [convert_litellm_to_anthropic] *)

(** *** The downstream response *)

(** A tool call of the response, a dict or an object: its [id], the
    [name] of its [function] and the [arguments] of its [function]
    ([None]: the field is missing, and [Some PNone]: it is [None]). A
    tool call without [function] has neither. *)
Record ToolCall : Type := {
  tc_id : Field string;
  tc_function_name : Field string;
  tc_function_arguments : option pyval
}.

(** [rm_content]: the text, or [None] when it is [None] or missing, which
    the mapper treats alike. *)
Record ResponseMessage : Type := {
  rm_content : option string;
  rm_tool_calls : list ToolCall
}.

(** [ch_finish_reason]: the finish reason, or [None] when it is [None];
    a missing one counts as ["stop"]. *)
Record Choice : Type := {
  ch_message : ResponseMessage;
  ch_finish_reason : option string
}.

(** The usage of a response or of a chunk: a count that is there is an
    integer, as in the [Usage] of the downstream library; [None]: it is
    missing. *)
Record UsageInfo : Type := {
  prompt_tokens : option Z;
  completion_tokens : option Z
}.

(** The two shapes the mapper probes: a [ModelResponse] object with
    [choices] and [usage], or a dict. *)
Inductive ResponseShape : Type := TypedResponse | DictResponse.

Record LiteLLMResponse : Type := {
  shape : ResponseShape;
  resp_id : Field string;
  choices : list Choice;
  usage : UsageInfo
}.

(** *** The response served: [MessagesResponse] *)

(** An identifier: one the downstream gave, a fresh
    [f"{prefix}{uuid.uuid4()}"], or [None], which the downstream gave in
    place of one. *)
Inductive Ident : Type :=
| GivenId (s : string)
| FreshId (prefix : string)
| NoneId.

(** A block of [content], as the dict the mapper builds: the [name] of a
    [tool_use] block is a string or [None]. *)
Inductive ResponseBlock : Type :=
| TextBlock (text : string)
| ToolUseBlock (id : Ident) (name : option string) (input : pyval).

Record MessagesResponse : Type := {
  mr_id : Ident;
  mr_model : string;
  mr_content : list ResponseBlock;
  mr_stop_reason : string;
  mr_input_tokens : Z;
  mr_output_tokens : Z
}.

(** [d.get("id", f"{prefix}{uuid.uuid4()}")] *)
Definition ident_or_fresh (prefix : string) (i : Field string) : Ident :=
  match i with
  | Given s => GivenId s
  | Null => NoneId
  | Missing => FreshId prefix
  end.

(** [function.get("name", "")] *)
Definition name_or_empty (name : Field string) : option string :=
  match name with
  | Given s => Some s
  | Null => None
  | Missing => Some EmptyString
  end.

Definition default {A : Type} (d : A) (o : option A) : A :=
  match o with Some a => a | None => d end.

(** What the first lines extract: [content_text], [tool_calls] and
    [finish_reason]. A dict response without choices raises an
    [IndexError] at [choices[0]]. *)
Definition extract (r : LiteLLMResponse)
  : result (option string * list ToolCall * option string) :=
  match shape r, choices r with
  | TypedResponse, [] => Return (Some EmptyString, [], Some "stop")
  | DictResponse, [] => Raise
  | _, c :: _ =>
      Return (rm_content (ch_message c), rm_tool_calls (ch_message c),
              ch_finish_reason c)
  end.

(** [stop_reason], from the comparison chain of the response mapper. *)
Definition stop_reason_of_finish (finish_reason : option string) : string :=
  match finish_reason with
  | Some fr =>
      if String.eqb fr "stop" then "end_turn"
      else if String.eqb fr "length" then "max_tokens"
      else if String.eqb fr "tool_calls" then "tool_use"
      else "end_turn"
  | None => "end_turn"
  end.

(** pydantic's check of a block of [content]: the [id] and the [name] of
    a [tool_use] block are strings, and its [input] is a dict. *)
Definition valid_block (b : ResponseBlock) : bool :=
  match b with
  | TextBlock _ => true
  | ToolUseBlock NoneId _ _ => false
  | ToolUseBlock _ None _ => false
  | ToolUseBlock _ (Some _) (PDict _) => true
  | ToolUseBlock _ (Some _) _ => false
  end.

(** pydantic's check of the [id] of the response: a string. *)
Definition valid_id (i : Ident) : bool :=
  match i with
  | NoneId => false
  | _ => true
  end.

Section ResponseMapper.

Context {L : PyLib}.

(** [arguments] after the conversion of a string to a dict: an exception
    of [json.loads] other than [json.JSONDecodeError] is not caught. *)
Definition parse_arguments (arguments : pyval) : result pyval :=
  match arguments with
  | PStr s =>
      match json_loads s with
      | Loaded v => Return v
      | JSONDecodeError => Return (PDict [("raw", PStr s)])
      | OtherException => Raise
      end
  | _ => Return arguments
  end.

(** The [tool_use] block of one tool call, for a Claude model. *)
Definition tool_use_block (tool_call : ToolCall) : result ResponseBlock :=
  let tool_id := ident_or_fresh "tool_" (tc_id tool_call) in
  let name := name_or_empty (tc_function_name tool_call) in
  let arguments := default (PStr "{}") (tc_function_arguments tool_call) in
  match parse_arguments arguments with
  | Return arguments => Return (ToolUseBlock tool_id name arguments)
  | Raise => Raise
  end.

(** The loop over the tool calls of a Claude model: [content] after it. *)
Fixpoint append_tool_use (tool_calls : list ToolCall) (content : list ResponseBlock)
  : result (list ResponseBlock) :=
  match tool_calls with
  | [] => Return content
  | tool_call :: rest =>
      match tool_use_block tool_call with
      | Return block => append_tool_use rest (content ++ [block])
      | Raise => Raise
      end
  end.

(** [f"{name}"] *)
Definition format_name (name : option string) : string :=
  match name with
  | Some s => s
  | None => "None"
  end.

(** [arguments_str] of one tool call, for the other models. *)
Definition arguments_str (arguments : pyval) : result string :=
  match arguments with
  | PStr s =>
      match json_loads s with
      | Loaded args_dict =>
          match json_dumps_indent args_dict with
          | Some t => Return t
          | None => Raise
          end
      | JSONDecodeError => Return s
      | OtherException => Raise
      end
  | _ =>
      match json_dumps_indent arguments with
      | Some t => Return t
      | None => Raise
      end
  end.

Fixpoint tool_text_of (tool_calls : list ToolCall) (tool_text : string)
  : result string :=
  match tool_calls with
  | [] => Return tool_text
  | tool_call :: rest =>
      let name := format_name (name_or_empty (tc_function_name tool_call)) in
      let arguments := default (PStr "{}") (tc_function_arguments tool_call) in
      match arguments_str arguments with
      | Return s =>
          tool_text_of rest
            (tool_text +++ "Tool: " +++ name +++ NL +++ "Arguments: " +++ s
               +++ NL +++ NL)
      | Raise => Raise
      end
  end.

(** [content] once the text and the tool calls are in. *)
Definition response_content (is_claude_model : bool)
  (content_text : option string) (tool_calls : list ToolCall)
  : result (list ResponseBlock) :=
  let content :=
    match content_text with
    | Some t => if PyStr.truthy t then [TextBlock t] else []
    | None => []
    end in
  match tool_calls with
  | [] => Return content
  | _ :: _ =>
      if is_claude_model then append_tool_use tool_calls content
      else
        match tool_text_of tool_calls (NL +++ NL +++ "Tool usage:" +++ NL) with
        | Return tool_text =>
            match content with
            | TextBlock t :: rest => Return (TextBlock (t +++ tool_text) :: rest)
            | _ => Return (content ++ [TextBlock tool_text])
            end
        | Raise => Raise
        end
  end.

(** [Raise] is the [HTTPException] the handler of the function raises in
    place of any exception of its body, that of the validation of
    [MessagesResponse] included. *)
Definition convert_litellm_to_anthropic (litellm_response : LiteLLMResponse)
  (original_request : MessagesRequest) : result MessagesResponse :=
  let clean_model := clean_model_of (model original_request) in
  let is_claude_model := PyStr.startswith clean_model "claude-" in
  match extract litellm_response with
  | Raise => Raise
  | Return (content_text, tool_calls, finish_reason) =>
      match response_content is_claude_model content_text tool_calls with
      | Raise => Raise
      | Return content0 =>
          let usage_info := usage litellm_response in
          let response_id := ident_or_fresh "msg_" (resp_id litellm_response) in
          let stop_reason := stop_reason_of_finish finish_reason in
          let content1 :=
            match content0 with
            | [] => [TextBlock EmptyString]
            | _ => content0
            end in
          if valid_id response_id && forallb valid_block content1 then
            Return
              {| mr_id := response_id;
                 mr_model := model original_request;
                 mr_content := content1;
                 mr_stop_reason := stop_reason;
                 mr_input_tokens := default 0%Z (prompt_tokens usage_info);
                 mr_output_tokens := default 0%Z (completion_tokens usage_info) |}
          else Raise
      end
  end.

End ResponseMapper.

(** ** StreamTranscoder: [handle_streaming] *)

(** *** The downstream chunks *)

(** One entry of [delta.tool_calls], a dict or an object: its [index],
    its [id], the [name] of its [function], and the [arguments] of its
    [function] when they are a string ([None]: they are missing or
    [None], which the loop treats alike). *)
Record ToolCallDelta : Type := {
  tcd_index : Field Z;
  tcd_id : Field string;
  tcd_name : Field string;
  tcd_arguments : option string
}.

(** [delta.content]: missing or [None], a string, or a value of another
    type, which [accumulated_text += delta_content] refuses with a
    [TypeError]. *)
Inductive DeltaContent : Type :=
| NoContent
| StrContent (s : string)
| OtherContent.

Record Delta : Type := {
  d_content : DeltaContent;
  d_tool_calls : list ToolCallDelta
}.

Record StreamChoice : Type := {
  sc_delta : Delta;
  sc_finish_reason : option string
}.

(** [chunk.choices]: missing, a value without a length ([len] raises a
    [TypeError]), or a list. *)
Inductive ChoicesField : Type :=
| ChoicesMissing
| ChoicesUnsized
| ChoicesList (l : list StreamChoice).

Record Chunk : Type := {
  ck_usage : option UsageInfo;
  ck_choices : ChoicesField
}.

(** How the downstream iterator ends: it is exhausted, or it raises an
    exception, given by its [str]. *)
Inductive StreamEnd : Type :=
| Exhausted
| Failed (error : string).

(** *** The events served *)

(** The [content_block] of a [content_block_start]: the [name] of a
    [tool_use] block is a string, or [None], which is served as [null]. *)
Inductive StartedBlock : Type :=
| StartText
| StartToolUse (id : Ident) (name : option string).

Inductive BlockDelta : Type :=
| TextDelta (text : string)
| InputJsonDelta (partial_json : string).

(** The frames the generator yields, by their event and [data]. *)
Inductive Event : Type :=
| MessageStart (model : string)
| ContentBlockStart (index : nat) (content_block : StartedBlock)
| Ping
| ContentBlockDelta (index : nat) (delta : BlockDelta)
| ContentBlockStop (index : nat)
| MessageDelta (stop_reason : string) (error_message : option string)
    (output_tokens : Z)
| MessageStop
| Done.

(** *** The local variables of the generator *)

Record StreamState : Type := {
  (** [None] until the first tool call, and after a tool call whose
      [index] is [None] *)
  tool_index : option Z;
  current_tool_call : option ToolCallDelta;
  tool_content : string;
  accumulated_text : string;
  text_sent : bool;
  text_block_closed : bool;
  input_tokens : Z;
  output_tokens : Z;
  has_sent_stop_reason : bool;
  last_tool_index : nat;
  (** unbound until the first tool call *)
  anthropic_tool_index : option nat
}.

Definition initial_state : StreamState :=
  {| tool_index := None;
     current_tool_call := None;
     tool_content := EmptyString;
     accumulated_text := EmptyString;
     text_sent := false;
     text_block_closed := false;
     input_tokens := 0%Z;
     output_tokens := 0%Z;
     has_sent_stop_reason := false;
     last_tool_index := 0;
     anthropic_tool_index := None |}.

(** *** The generator monad

    A piece of the generator's body runs from a state to the events it
    yields, the state it leaves, and how it ends: it goes on with a value,
    it raises, or it executes [return]. What was yielded and assigned
    before an exception stays yielded and assigned. *)

Inductive Flow (A : Type) : Type :=
| Next (a : A)
| Raised
| Returned.
Arguments Raised {A}.
Arguments Returned {A}.

Definition Gen (A : Type) : Type :=
  StreamState -> list Event * StreamState * Flow A.

Definition ret {A : Type} (a : A) : Gen A := fun st => ([], st, Next a).

Definition bind {A B : Type} (m : Gen A) (f : A -> Gen B) : Gen B :=
  fun st =>
    match m st with
    | (evs, st1, Next a) =>
        match f a st1 with
        | (evs', st2, fl) => (evs ++ evs', st2, fl)
        end
    | (evs, st1, Raised) => (evs, st1, Raised)
    | (evs, st1, Returned) => (evs, st1, Returned)
    end.

Definition yield (e : Event) : Gen unit := fun st => ([e], st, Next tt).
Definition get : Gen StreamState := fun st => ([], st, Next st).
Definition modify (f : StreamState -> StreamState) : Gen unit :=
  fun st => ([], f st, Next tt).
Definition raise {A : Type} : Gen A := fun st => ([], st, Raised).
Definition return_ {A : Type} : Gen A := fun st => ([], st, Returned).

Declare Scope gen_scope.
Delimit Scope gen_scope with gen.
Notation "x <- m ;; k" := (bind m (fun x => k))
  (at level 61, m at next level, right associativity) : gen_scope.
Notation "m ;; k" := (bind m (fun _ => k))
  (at level 61, right associativity) : gen_scope.
Local Open Scope gen_scope.

(** [for x in l: body] *)
Fixpoint for_each {A : Type} (l : list A) (body : A -> Gen unit) : Gen unit :=
  match l with
  | [] => ret tt
  | x :: r => body x ;; for_each r body
  end.

Definition when_ (b : bool) (m : Gen unit) : Gen unit :=
  if b then m else ret tt.

(** Assignments to the local variables. *)
Definition set_tool_index (v : option Z) (st : StreamState) : StreamState :=
  {| tool_index := v;
     current_tool_call := current_tool_call st;
     tool_content := tool_content st;
     accumulated_text := accumulated_text st;
     text_sent := text_sent st;
     text_block_closed := text_block_closed st;
     input_tokens := input_tokens st;
     output_tokens := output_tokens st;
     has_sent_stop_reason := has_sent_stop_reason st;
     last_tool_index := last_tool_index st;
     anthropic_tool_index := anthropic_tool_index st |}.

Definition set_current_tool_call (v : option ToolCallDelta) (st : StreamState)
  : StreamState :=
  {| tool_index := tool_index st;
     current_tool_call := v;
     tool_content := tool_content st;
     accumulated_text := accumulated_text st;
     text_sent := text_sent st;
     text_block_closed := text_block_closed st;
     input_tokens := input_tokens st;
     output_tokens := output_tokens st;
     has_sent_stop_reason := has_sent_stop_reason st;
     last_tool_index := last_tool_index st;
     anthropic_tool_index := anthropic_tool_index st |}.

Definition set_tool_content (v : string) (st : StreamState) : StreamState :=
  {| tool_index := tool_index st;
     current_tool_call := current_tool_call st;
     tool_content := v;
     accumulated_text := accumulated_text st;
     text_sent := text_sent st;
     text_block_closed := text_block_closed st;
     input_tokens := input_tokens st;
     output_tokens := output_tokens st;
     has_sent_stop_reason := has_sent_stop_reason st;
     last_tool_index := last_tool_index st;
     anthropic_tool_index := anthropic_tool_index st |}.

Definition set_accumulated_text (v : string) (st : StreamState) : StreamState :=
  {| tool_index := tool_index st;
     current_tool_call := current_tool_call st;
     tool_content := tool_content st;
     accumulated_text := v;
     text_sent := text_sent st;
     text_block_closed := text_block_closed st;
     input_tokens := input_tokens st;
     output_tokens := output_tokens st;
     has_sent_stop_reason := has_sent_stop_reason st;
     last_tool_index := last_tool_index st;
     anthropic_tool_index := anthropic_tool_index st |}.

Definition set_text_sent (v : bool) (st : StreamState) : StreamState :=
  {| tool_index := tool_index st;
     current_tool_call := current_tool_call st;
     tool_content := tool_content st;
     accumulated_text := accumulated_text st;
     text_sent := v;
     text_block_closed := text_block_closed st;
     input_tokens := input_tokens st;
     output_tokens := output_tokens st;
     has_sent_stop_reason := has_sent_stop_reason st;
     last_tool_index := last_tool_index st;
     anthropic_tool_index := anthropic_tool_index st |}.

Definition set_text_block_closed (v : bool) (st : StreamState) : StreamState :=
  {| tool_index := tool_index st;
     current_tool_call := current_tool_call st;
     tool_content := tool_content st;
     accumulated_text := accumulated_text st;
     text_sent := text_sent st;
     text_block_closed := v;
     input_tokens := input_tokens st;
     output_tokens := output_tokens st;
     has_sent_stop_reason := has_sent_stop_reason st;
     last_tool_index := last_tool_index st;
     anthropic_tool_index := anthropic_tool_index st |}.

Definition set_input_tokens (v : Z) (st : StreamState) : StreamState :=
  {| tool_index := tool_index st;
     current_tool_call := current_tool_call st;
     tool_content := tool_content st;
     accumulated_text := accumulated_text st;
     text_sent := text_sent st;
     text_block_closed := text_block_closed st;
     input_tokens := v;
     output_tokens := output_tokens st;
     has_sent_stop_reason := has_sent_stop_reason st;
     last_tool_index := last_tool_index st;
     anthropic_tool_index := anthropic_tool_index st |}.

Definition set_output_tokens (v : Z) (st : StreamState) : StreamState :=
  {| tool_index := tool_index st;
     current_tool_call := current_tool_call st;
     tool_content := tool_content st;
     accumulated_text := accumulated_text st;
     text_sent := text_sent st;
     text_block_closed := text_block_closed st;
     input_tokens := input_tokens st;
     output_tokens := v;
     has_sent_stop_reason := has_sent_stop_reason st;
     last_tool_index := last_tool_index st;
     anthropic_tool_index := anthropic_tool_index st |}.

Definition set_has_sent_stop_reason (v : bool) (st : StreamState) : StreamState :=
  {| tool_index := tool_index st;
     current_tool_call := current_tool_call st;
     tool_content := tool_content st;
     accumulated_text := accumulated_text st;
     text_sent := text_sent st;
     text_block_closed := text_block_closed st;
     input_tokens := input_tokens st;
     output_tokens := output_tokens st;
     has_sent_stop_reason := v;
     last_tool_index := last_tool_index st;
     anthropic_tool_index := anthropic_tool_index st |}.

Definition set_last_tool_index (v : nat) (st : StreamState) : StreamState :=
  {| tool_index := tool_index st;
     current_tool_call := current_tool_call st;
     tool_content := tool_content st;
     accumulated_text := accumulated_text st;
     text_sent := text_sent st;
     text_block_closed := text_block_closed st;
     input_tokens := input_tokens st;
     output_tokens := output_tokens st;
     has_sent_stop_reason := has_sent_stop_reason st;
     last_tool_index := v;
     anthropic_tool_index := anthropic_tool_index st |}.

Definition set_anthropic_tool_index (v : option nat) (st : StreamState)
  : StreamState :=
  {| tool_index := tool_index st;
     current_tool_call := current_tool_call st;
     tool_content := tool_content st;
     accumulated_text := accumulated_text st;
     text_sent := text_sent st;
     text_block_closed := text_block_closed st;
     input_tokens := input_tokens st;
     output_tokens := output_tokens st;
     has_sent_stop_reason := has_sent_stop_reason st;
     last_tool_index := last_tool_index st;
     anthropic_tool_index := v |}.

(** *** The body of the loop over the chunks *)

Section StreamTranscoder.

Context {L : PyLib}.

Definition is_none {A : Type} (o : option A) : bool :=
  match o with None => true | Some _ => false end.

(** The usage data of a chunk. *)
Definition update_usage (chunk : Chunk) : Gen unit :=
  match ck_usage chunk with
  | None => ret tt
  | Some u =>
      match prompt_tokens u with
      | Some n => modify (set_input_tokens n)
      | None => ret tt
      end ;;
      match completion_tokens u with
      | Some n => modify (set_output_tokens n)
      | None => ret tt
      end
  end.

(** The text of a chunk: accumulated, and sent while no tool call has
    started and the text block is open. *)
Definition handle_text (delta_content : DeltaContent) : Gen unit :=
  match delta_content with
  | NoContent => ret tt
  | StrContent s =>
      when_ (PyStr.truthy s)
        (modify (fun st => set_accumulated_text (accumulated_text st +++ s) st) ;;
         st <- get ;;
         when_ (is_none (tool_index st) && negb (text_block_closed st))
           (modify (set_text_sent true) ;;
            yield (ContentBlockDelta 0 (TextDelta s))))
  | OtherContent => raise
  end.

(** The first tool call seen: the text block is closed. *)
Definition close_text_block : Gen unit :=
  st <- get ;;
  if text_sent st && negb (text_block_closed st) then
    modify (set_text_block_closed true) ;;
    yield (ContentBlockStop 0)
  else if PyStr.truthy (accumulated_text st) && negb (text_sent st)
          && negb (text_block_closed st) then
    modify (set_text_sent true) ;;
    yield (ContentBlockDelta 0 (TextDelta (accumulated_text st))) ;;
    modify (set_text_block_closed true) ;;
    yield (ContentBlockStop 0)
  else if negb (text_block_closed st) then
    modify (set_text_block_closed true) ;;
    yield (ContentBlockStop 0)
  else ret tt.

(** [current_index]: 0 for a tool call without [index]. *)
Definition index_of (tool_call : ToolCallDelta) : option Z :=
  match tcd_index tool_call with
  | Given i => Some i
  | Null => None
  | Missing => Some 0%Z
  end.

(** [tool_index is None or current_index != tool_index] *)
Definition is_new_tool (tool_index current_index : option Z) : bool :=
  match tool_index, current_index with
  | None, _ => true
  | Some _, None => true
  | Some i, Some c => negb (Z.eqb c i)
  end.

(** A new tool call: the next [tool_use] block is started, under the
    [id] and the [name] of the call. *)
Definition start_tool_block (tool_call : ToolCallDelta)
  (current_index : option Z) : Gen unit :=
  modify (set_tool_index current_index) ;;
  modify (fun st => set_last_tool_index (S (last_tool_index st)) st) ;;
  modify (fun st => set_anthropic_tool_index (Some (last_tool_index st)) st) ;;
  st1 <- get ;;
  yield (ContentBlockStart (last_tool_index st1)
           (StartToolUse (ident_or_fresh "toolu_" (tcd_id tool_call))
              (name_or_empty (tcd_name tool_call)))) ;;
  modify (set_current_tool_call (Some tool_call)) ;;
  modify (set_tool_content EmptyString).

(** The arguments of a tool call, when there are some: they go to the
    block of [anthropic_tool_index]. The [json.loads] that probes them
    has its [json.JSONDecodeError] caught; another exception of it
    leaves the chunk. *)
Definition send_arguments (tool_call : ToolCallDelta) : Gen unit :=
  match tcd_arguments tool_call with
  | Some arguments =>
      when_ (PyStr.truthy arguments)
        (match json_loads arguments with
         | OtherException => raise
         | _ => ret tt
         end ;;
         modify (fun st => set_tool_content (tool_content st +++ arguments) st) ;;
         st2 <- get ;;
         match anthropic_tool_index st2 with
         | Some i => yield (ContentBlockDelta i (InputJsonDelta arguments))
         | None => raise
         end)
  | None => ret tt
  end.

(** One iteration of the loop over the tool calls of a chunk. *)
Definition handle_tool_call (tool_call : ToolCallDelta) : Gen unit :=
  let current_index := index_of tool_call in
  st <- get ;;
  when_ (is_new_tool (tool_index st) current_index)
    (start_tool_block tool_call current_index) ;;
  send_arguments tool_call.

Definition handle_tool_calls (delta_tool_calls : list ToolCallDelta) : Gen unit :=
  match delta_tool_calls with
  | [] => ret tt
  | _ :: _ =>
      st <- get ;;
      when_ (is_none (tool_index st)) close_text_block ;;
      for_each delta_tool_calls handle_tool_call
  end.

(** [for i in range(1, last_tool_index + 1)]: the tool blocks are closed. *)
Definition close_tool_blocks : Gen unit :=
  st <- get ;;
  when_ (negb (is_none (tool_index st)))
    (for_each (seq 1 (last_tool_index st)) (fun i => yield (ContentBlockStop i))).

(** [stop_reason], from the comparison chain of the transcoder. *)
Definition stream_stop_reason (finish_reason : string) : string :=
  if String.eqb finish_reason "length" then "max_tokens"
  else if String.eqb finish_reason "tool_calls" then "tool_use"
  else if String.eqb finish_reason "stop" then "end_turn"
  else "end_turn".

(** The finish reason of a chunk: the stream is closed and the generator
    returns. *)
Definition handle_finish (finish_reason : option string) : Gen unit :=
  st <- get ;;
  match finish_reason with
  | Some fr =>
      if PyStr.truthy fr && negb (has_sent_stop_reason st) then
        modify (set_has_sent_stop_reason true) ;;
        close_tool_blocks ;;
        when_ (negb (text_block_closed st))
          (when_ (PyStr.truthy (accumulated_text st) && negb (text_sent st))
             (yield (ContentBlockDelta 0 (TextDelta (accumulated_text st)))) ;;
           yield (ContentBlockStop 0)) ;;
        yield (MessageDelta (stream_stop_reason fr) None (output_tokens st)) ;;
        yield MessageStop ;;
        yield Done ;;
        return_
      else ret tt
  | None => ret tt
  end.

(** The body of [try:] for one chunk. *)
Definition process_chunk (chunk : Chunk) : Gen unit :=
  update_usage chunk ;;
  match ck_choices chunk with
  | ChoicesMissing => ret tt
  | ChoicesUnsized => raise
  | ChoicesList [] => ret tt
  | ChoicesList (choice :: _) =>
      handle_text (d_content (sc_delta choice)) ;;
      handle_tool_calls (d_tool_calls (sc_delta choice)) ;;
      handle_finish (sc_finish_reason choice)
  end.

(** After the loop, when no finish reason was seen. *)
Definition close_stream : Gen unit :=
  st <- get ;;
  when_ (negb (has_sent_stop_reason st))
    (close_tool_blocks ;;
     yield (ContentBlockStop 0) ;;
     yield (MessageDelta "end_turn" None (output_tokens st)) ;;
     yield MessageStop ;;
     yield Done).

(** [user_message] of the handler of the generator, from [str(e)]. *)
Definition user_message_of (e : string) : string :=
  let error_str := PyStr.lower e in
  if PyStr.contains "overloaded" error_str then
    "Anthropic API is currently overloaded. Please try again in a few minutes."
  else if PyStr.contains "rate limit" error_str
          || PyStr.contains "rate_limit" error_str
          || PyStr.contains "429" error_str then
    "Rate limit exceeded. Please try again in a few minutes."
  else if PyStr.contains "timeout" error_str
          || PyStr.contains "timed out" error_str then
    "The request timed out. The API server may be experiencing high load. Please try again."
  else if PyStr.contains "connectivity" error_str
          || PyStr.contains "connection" error_str then
    "Connection issue detected. Please check your internet connection and try again."
  else if PyStr.contains "auth" error_str
          || PyStr.contains "authentication" error_str
          || (PyStr.contains "key" error_str && PyStr.contains "invalid" error_str) then
    "Authentication error. Please check your API key configuration."
  else "Error in streaming: " +++ e.

(** What the handler of the generator yields. *)
Definition error_events (e : string) : list Event :=
  [ MessageDelta "error" (Some (user_message_of e)) 0%Z; MessageStop; Done ].

(** The loop over the chunks and what follows it: an exception of a chunk
    is logged and the loop goes on, [return] ends the generator. *)
Fixpoint consume (chunks : list Chunk) (finally : StreamEnd) (st : StreamState)
  : list Event :=
  match chunks with
  | [] =>
      match finally with
      | Exhausted => fst (fst (close_stream st))
      | Failed e => error_events e
      end
  | chunk :: rest =>
      match process_chunk chunk st with
      | (evs, _, Returned) => evs
      | (evs, st1, _) => evs ++ consume rest finally st1
      end
  end.

(** The events the generator yields over a downstream iterator that gives
    [chunks] and then ends as [finally] says. *)
Definition handle_streaming (chunks : list Chunk) (finally : StreamEnd)
  (original_request : MessagesRequest) : list Event :=
  [ MessageStart (model original_request);
    ContentBlockStart 0 StartText;
    Ping ]
  ++ consume chunks finally initial_state.

(** The state the loop is in after [chunks], unless the generator has
    returned. *)
Fixpoint state_after (chunks : list Chunk) (st : StreamState) : option StreamState :=
  match chunks with
  | [] => Some st
  | chunk :: rest =>
      match process_chunk chunk st with
      | (_, _, Returned) => None
      | (_, st1, _) => state_after rest st1
      end
  end.

End StreamTranscoder.

(** ** Model selection: [validate_model] and [update_models] *)

(** The globals [BIG_MODEL], [SMALL_MODEL] and [USE_OPENAI_MODELS] of the
    module, which [update_models] assigns. *)
Record Settings : Type := {
  BIG_MODEL : string;
  SMALL_MODEL : string;
  USE_OPENAI_MODELS : bool
}.

(** [ANTHROPIC_API_KEY] and [OPENAI_API_KEY], read once from the
    environment: [os.environ.get] gives [None] for an unset variable. *)
Record Environment : Type := {
  ANTHROPIC_API_KEY : option string;
  OPENAI_API_KEY : option string
}.

(** [not KEY] *)
Definition key_missing (key : option string) : bool :=
  match key with
  | None => true
  | Some s => negb (PyStr.truthy s)
  end.

(** The flag as the module computes it when it is loaded, and again in
    [update_models]. *)
Definition use_openai_models (big_model small_model : string) : bool :=
  if PyStr.contains "claude" (PyStr.lower big_model)
     && PyStr.contains "claude" (PyStr.lower small_model)
  then false
  else true.

(** The settings once the module is loaded. *)
Definition initial_settings : Settings :=
  {| BIG_MODEL := "o3-mini";
     SMALL_MODEL := "claude-3-haiku-20240307";
     USE_OPENAI_MODELS := use_openai_models "o3-mini" "claude-3-haiku-20240307" |}.

(** The field validator of [MessagesRequest.model]: the model name of the
    request body is replaced by what it returns. *)
Definition MessagesRequest_validate_model (cfg : Settings) (v : string) : string :=
  let original_model := v in
  if USE_OPENAI_MODELS cfg then
    let v := if PyStr.startswith v "anthropic/" then PyStr.drop 10 v else v in
    if PyStr.contains "haiku" (PyStr.lower v) then
      if PyStr.startswith (SMALL_MODEL cfg) "claude" then
        if negb (PyStr.startswith original_model "anthropic/")
        then "anthropic/" +++ v
        else original_model
      else "openai/" +++ SMALL_MODEL cfg
    else if PyStr.contains "sonnet" (PyStr.lower v) then
      if PyStr.startswith (BIG_MODEL cfg) "claude" then
        if negb (PyStr.startswith original_model "anthropic/")
        then "anthropic/" +++ v
        else original_model
      else "openai/" +++ BIG_MODEL cfg
    else if negb (PyStr.startswith v "openai/")
            && negb (PyStr.startswith v "anthropic/")
    then "openai/" +++ v
    else v
  else
    if negb (PyStr.startswith v "anthropic/") then "anthropic/" +++ v
    else v.

(** The field validator of [TokenCountRequest.model]. *)
Definition TokenCountRequest_validate_model (cfg : Settings) (v : string) : string :=
  let original_model := v in
  if USE_OPENAI_MODELS cfg then
    let v := if PyStr.startswith v "anthropic/" then PyStr.drop 10 v else v in
    if PyStr.contains "haiku" (PyStr.lower v) then
      if PyStr.startswith (SMALL_MODEL cfg) "claude" then
        if negb (PyStr.startswith original_model "anthropic/")
        then "anthropic/" +++ v
        else original_model
      else "openai/" +++ SMALL_MODEL cfg
    else if PyStr.contains "sonnet" (PyStr.lower v) then
      if PyStr.startswith (BIG_MODEL cfg) "claude" then
        if negb (PyStr.startswith original_model "anthropic/")
        then "anthropic/" +++ v
        else original_model
      else "openai/" +++ BIG_MODEL cfg
    else if negb (PyStr.startswith v "openai/")
            && negb (PyStr.startswith v "anthropic/")
    then "openai/" +++ v
    else v
  else
    if negb (PyStr.startswith v "anthropic/") then "anthropic/" +++ v
    else v.

(** The dict [update_models] returns. *)
Inductive UpdateResponse : Type :=
| UpdateError (message : string)
| UpdateSuccess (big_model small_model : string) (use_openai_models : bool).

(** [update_models]: the settings after the call, and the response. *)
Definition update_models (env : Environment) (cfg : Settings)
  (big_model small_model : string) : Settings * UpdateResponse :=
  if (PyStr.contains "claude" (PyStr.lower big_model)
      || PyStr.contains "claude" (PyStr.lower small_model))
     && key_missing (ANTHROPIC_API_KEY env)
  then (cfg, UpdateError
    "Missing Anthropic API key. Please set ANTHROPIC_API_KEY in your environment variables.")
  else if (PyStr.startswith big_model "openai/"
           || PyStr.startswith small_model "openai/"
           || negb (PyStr.startswith big_model "anthropic/")
           || negb (PyStr.startswith small_model "anthropic/"))
          && key_missing (OPENAI_API_KEY env)
  then (cfg, UpdateError
    "Missing OpenAI API key. Please set OPENAI_API_KEY in your environment variables.")
  else
    let cfg' :=
      {| BIG_MODEL := big_model;
         SMALL_MODEL := small_model;
         USE_OPENAI_MODELS := use_openai_models big_model small_model |} in
    (cfg', UpdateSuccess (BIG_MODEL cfg') (SMALL_MODEL cfg') (USE_OPENAI_MODELS cfg')).

(** ** The request history *)

Definition MAX_HISTORY : nat := 50.

(** [REQUEST_HISTORY.insert(0, request_info)], then the cut to
    [MAX_HISTORY] entries: the history after the three places that record
    a request ([create_message], and the handlers of the exceptions of
    [create_message] and [convert_litellm_to_anthropic]). *)
Definition record_request {A : Type} (request_info : A) (REQUEST_HISTORY : list A)
  : list A :=
  let REQUEST_HISTORY := request_info :: REQUEST_HISTORY in
  if (MAX_HISTORY <? List.length REQUEST_HISTORY)%nat
  then firstn MAX_HISTORY REQUEST_HISTORY
  else REQUEST_HISTORY.

(** ** The endpoints: [create_message] and [count_tokens] *)

(** [for x in l: text += f(x)]: the text after the loop, or the exception
    of the first iteration that raises. *)
Fixpoint append_each {A : Type} (f : A -> result string) (l : list A)
  (text : string) : result string :=
  match l with
  | [] => Return text
  | x :: rest =>
      match f x with
      | Return s => append_each f rest (text +++ s)
      | Raise => Raise
      end
  end.

(** [for x in l: ... f(x) ...], a list being built: the exception of the
    first iteration that raises. *)
Fixpoint map_result {A B : Type} (f : A -> result B) (l : list A)
  : result (list B) :=
  match l with
  | [] => Return []
  | x :: rest =>
      match f x with
      | Return y =>
          match map_result f rest with
          | Return ys => Return (y :: ys)
          | Raise => Raise
          end
      | Raise => Raise
      end
  end.

(** [isinstance(block, dict) and block.get("type") == "tool_result"] *)
Definition is_tool_result_part (block : pyval) : bool :=
  match block with
  | PDict d => eq_str (dict_get d "type" PNone) "tool_result"
  | _ => false
  end.

Section Endpoints.

Context {L : PyLib}.

(** [try: text += json.dumps(v) + "\n"  except: text += str(v) + "\n"] *)
Definition dumps_or_str (v : pyval) : result string :=
  match json_dumps v with
  | Some s => Return (s +++ NL)
  | None =>
      match py_str v with
      | Some s => Return (s +++ NL)
      | None => Raise
      end
  end.

(** *** A message that holds tool results only *)

(** One item of a list [result_content]: what is appended to [all_text].
    [json.dumps(item)], the default of [item.get], is evaluated whether
    the key is there or not; the bare [except] catches its exception and
    the [TypeError] of a text that is no string. *)
Definition only_tool_result_item (item : pyval) : result string :=
  match item with
  | PDict d =>
      if type_is_text d
      then add_newline (dict_get d "text" (PStr EmptyString))
      else
        match json_dumps item with
        | Some dumped =>
            match add_newline (dict_get d "text" (PStr dumped)) with
            | Return s => Return s
            | Raise =>
                match py_str item with
                | Some s => Return (s +++ NL)
                | None => Raise
                end
            end
        | None =>
            match py_str item with
            | Some s => Return (s +++ NL)
            | None => Raise
            end
        end
  | _ => Return EmptyString
  end.

(** One block of the message: what is appended to [all_text]. *)
Definition only_tool_result_block (block : pyval) : result string :=
  match block with
  | PDict d =>
      let head := "Tool Result:" +++ NL in
      match dict_get d "content" (PList []) with
      | PList items => append_each only_tool_result_item items head
      | PStr s => Return (head +++ s +++ NL)
      | result_content =>
          match dumps_or_str result_content with
          | Return s => Return (head +++ s)
          | Raise => Raise
          end
      end
  | _ => Raise
  end.

(** *** The regular case *)

(** One item of a list [result_content] of a [tool_result] block. *)
Definition openai_result_item (item : pyval) : result string :=
  match item with
  | PDict d =>
      if type_is_text d
      then add_newline (dict_get d "text" (PStr EmptyString))
      else if dict_has d "text"
      then add_newline (dict_get d "text" (PStr EmptyString))
      else dumps_or_str item
  | _ => Return EmptyString
  end.

(** One block of the content: what is appended to [text_content]. *)
Definition openai_block_text (block : pyval) : result string :=
  match block with
  | PDict d =>
      let type := dict_get d "type" PNone in
      if eq_str type "text"
      then add_newline (dict_get d "text" (PStr EmptyString))
      else if eq_str type "tool_result" then
        match format_value (dict_get d "tool_use_id" (PStr "unknown")) with
        | Raise => Raise
        | Return tool_id =>
            let head := "[Tool Result ID: " +++ tool_id +++ "]" +++ NL in
            match dict_get d "content" (PList []) with
            | PList items => append_each openai_result_item items head
            | PDict rc =>
                if type_is_text rc then
                  match add_newline (dict_get rc "text" (PStr EmptyString)) with
                  | Return s => Return (head +++ s)
                  | Raise => Raise
                  end
                else
                  match dumps_or_str (PDict rc) with
                  | Return s => Return (head +++ s)
                  | Raise => Raise
                  end
            | PStr s => Return (head +++ s +++ NL)
            | result_content =>
                match dumps_or_str result_content with
                | Return s => Return (head +++ s)
                | Raise => Raise
                end
            end
        end
      else if eq_str type "tool_use" then
        match json_dumps (dict_get d "input" (PDict [])),
              format_value (dict_get d "name" (PStr "unknown")),
              format_value (dict_get d "id" (PStr "unknown")) with
        | Some tool_input, Return tool_name, Return tool_id =>
            Return ("[Tool: " +++ tool_name +++ " (ID: " +++ tool_id +++ ")]" +++ NL
                    +++ "Input: " +++ tool_input +++ NL +++ NL)
        | _, _, _ => Raise
        end
      else if eq_str type "image"
      then Return ("[Image content - not displayed in text format]" +++ NL)
      else Return EmptyString
  | _ => Return EmptyString
  end.

(** The first loop over the messages of a request for an OpenAI model, on
    one message. A downstream message has the keys [role] and [content]
    only: the second step of the loop, which deletes the other keys,
    finds none. *)
Definition openai_message (msg : OutMessage) : result OutMessage :=
  match out_content msg with
  | OutParts parts =>
      if forallb is_tool_result_part parts
         && (0 <? List.length parts)%nat
      then
        match append_each only_tool_result_block parts EmptyString with
        | Return all_text =>
            Return {| out_role := out_role msg;
                      out_content :=
                        OutStr (if PyStr.truthy (PyStr.strip all_text)
                                then PyStr.strip all_text else "...") |}
        | Raise => Raise
        end
      else
        match append_each openai_block_text parts EmptyString with
        | Return text_content =>
            let text_content :=
              if negb (PyStr.truthy (PyStr.strip text_content)) then "..."
              else text_content in
            Return {| out_role := out_role msg;
                      out_content := OutStr (PyStr.strip text_content) |}
        | Raise => Raise
        end
  | OutStr _ => Return msg
  end.

(** The last loop, on one message: a content that is still a list is
    replaced by its JSON text. *)
Definition final_validation (msg : OutMessage) : result OutMessage :=
  match out_content msg with
  | OutParts parts =>
      match json_dumps (PList parts) with
      | Some s => Return {| out_role := out_role msg; out_content := OutStr s |}
      | None => Raise
      end
  | OutStr _ => Return msg
  end.

(** The messages of a request for an OpenAI model after the two loops. *)
Definition openai_messages (msgs : list OutMessage) : result (list OutMessage) :=
  match map_result openai_message msgs with
  | Return msgs' => map_result final_validation msgs'
  | Raise => Raise
  end.

(** What [create_message] comes to before the call of the downstream:
    the [HTTPException] that its handler raises for the one of a missing
    key, with the same status code and the [str] of that exception in
    its detail; another exception of the [try] block, which the handler
    turns into an [HTTPException] too; or the arguments of
    [litellm.completion] (of [litellm.acompletion] for a stream). *)
Inductive Attempt : Type :=
| HTTPException (status_code : Z) (detail : string)
| Exception
| Completion (api_key : string) (litellm_request : LiteLLMRequest).

(** [create_message], from the validated request to the call of the
    downstream. The entry it adds to the history is [record_request]. *)
Definition create_message (USE_OPENAI_MODELS : bool) (env : Environment)
  (request : MessagesRequest) : Attempt :=
  match convert_anthropic_to_litellm USE_OPENAI_MODELS request with
  | Raise => Exception
  | Return litellm_request =>
      let (key, detail) :=
        if PyStr.startswith (model request) "openai/"
        then (OPENAI_API_KEY env,
              "Error: 401: Missing OpenAI API key. Please set OPENAI_API_KEY in your environment variables.")
        else (ANTHROPIC_API_KEY env,
              "Error: 401: Missing Anthropic API key. Please set ANTHROPIC_API_KEY in your environment variables.") in
      match key with
      | None => HTTPException 401 detail
      | Some api_key =>
          if negb (PyStr.truthy api_key) then HTTPException 401 detail else
          if PyStr.contains "openai" (lr_model litellm_request) then
            match openai_messages (lr_messages litellm_request) with
            | Raise => Exception
            | Return msgs =>
                Completion api_key
                  {| lr_model := lr_model litellm_request;
                     lr_messages := msgs;
                     lr_max_tokens := lr_max_tokens litellm_request;
                     lr_temperature := lr_temperature litellm_request;
                     lr_stream := lr_stream litellm_request;
                     lr_reasoning_effort := lr_reasoning_effort litellm_request;
                     lr_stop := lr_stop litellm_request;
                     lr_top_p := lr_top_p litellm_request;
                     lr_top_k := lr_top_k litellm_request;
                     lr_tools := lr_tools litellm_request;
                     lr_tool_choice := lr_tool_choice litellm_request |}
            end
          else Completion api_key litellm_request
      end
  end.

(** [TokenCountRequest], as pydantic validated it. *)
Record TokenCountRequest : Type := {
  tc_model : string;
  tc_messages : list Message;
  tc_system : option SystemField;
  tc_tools : option (list Tool);
  tc_tool_choice : option (list (string * pyval))
}.

(** [count_tokens], up to the call of [token_counter]: its arguments
    [model] and [messages]. The [MessagesRequest] it builds goes through
    the validator of its model once more, with the defaults of the class
    for the fields that are not given. *)
Definition count_tokens (cfg : Settings) (request : TokenCountRequest)
  : result (string * list OutMessage) :=
  match
    convert_anthropic_to_litellm (USE_OPENAI_MODELS cfg)
      {| model := MessagesRequest_validate_model cfg (tc_model request);
         max_tokens := 100;
         messages := tc_messages request;
         system := tc_system request;
         stop_sequences := None;
         stream := Some false;
         temperature := Some (PFloat "1.0");
         top_p := None;
         top_k := None;
         tools := tc_tools request;
         tool_choice := tc_tool_choice request;
         reasoning_effort := None |}
  with
  | Return converted_request =>
      Return (lr_model converted_request, lr_messages converted_request)
  | Raise => Raise
  end.

End Endpoints.

(** ** A reference runtime

    An executable [PyLib], after CPython's [json] module and [str]. It
    reads and writes the values of the model; a [\u] escape above 255
    is outside the model and refused. *)

Module CPython.

Definition string_of_Z (z : Z) : string := NilZero.string_of_int (Z.to_int z).

(** [sys.get_int_max_str_digits()]: [str] and [int] convert no integer
    of more digits. *)
Definition int_max_str_digits : nat := 4300.

(** [str(z)] of an integer; [None]: a [ValueError], the integer has too
    many digits. *)
Definition str_of_int (z : Z) : option string :=
  if (int_max_str_digits <? String.length (string_of_Z (Z.abs z)))%nat then None
  else Some (string_of_Z z).

Definition dquote : ascii := ascii_of_nat 34.
Definition squote : ascii := ascii_of_nat 39.
Definition backslash : ascii := ascii_of_nat 92.
Definition str1 (c : ascii) : string := String c EmptyString.

Definition hex_digit (n : nat) : ascii :=
  nth n (list_ascii_of_string "0123456789abcdef") "0"%char.

Definition hex2 (n : nat) : string :=
  String (hex_digit (n / 16)) (String (hex_digit (n mod 16)) EmptyString).

Fixpoint concat_map (f : ascii -> string) (s : string) : string :=
  match s with
  | EmptyString => EmptyString
  | String c r => f c +++ concat_map f r
  end.

(** *** [json.dumps] *)

Definition json_escape (c : ascii) : string :=
  let n := nat_of_ascii c in
  if (n =? 34)%nat then str1 backslash +++ str1 dquote
  else if (n =? 92)%nat then str1 backslash +++ str1 backslash
  else if (n =? 10)%nat then "\n"
  else if (n =? 13)%nat then "\r"
  else if (n =? 9)%nat then "\t"
  else if (n =? 8)%nat then "\b"
  else if (n =? 12)%nat then "\f"
  else if ((n <? 32) || (126 <? n))%nat then "\u00" +++ hex2 n
  else str1 c.

Definition json_string (s : string) : string :=
  str1 dquote +++ concat_map json_escape s +++ str1 dquote.

Definition json_float (r : string) : string :=
  if String.eqb r "nan" then "NaN"
  else if String.eqb r "inf" then "Infinity"
  else if String.eqb r "-inf" then "-Infinity"
  else r.

Definition sequence {A : Type} (l : list (option A)) : option (list A) :=
  fold_right
    (fun o acc =>
       match o, acc with
       | Some a, Some r => Some (a :: r)
       | _, _ => None
       end)
    (Some []) l.

Fixpoint json_dumps (v : pyval) : option string :=
  match v with
  | PNone => Some "null"
  | PBool true => Some "true"
  | PBool false => Some "false"
  | PInt z => str_of_int z
  | PFloat r => Some (json_float r)
  | PStr s => Some (json_string s)
  | PList l =>
      match sequence (map json_dumps l) with
      | Some items => Some ("[" +++ String.concat ", " items +++ "]")
      | None => None
      end
  | PDict d =>
      match
        sequence
          (map (fun kv =>
                  match json_dumps (snd kv) with
                  | Some s => Some (json_string (fst kv) +++ ": " +++ s)
                  | None => None
                  end) d)
      with
      | Some items => Some ("{" +++ String.concat ", " items +++ "}")
      | None => None
      end
  | PObj _ => None
  end.

Fixpoint spaces (n : nat) : string :=
  match n with O => EmptyString | S m => " " +++ spaces m end.

(** [json.dumps(v, indent=2)], [level] containers deep *)
Fixpoint json_dumps_at (level : nat) (v : pyval) : option string :=
  let pad := NL +++ spaces (2 * S level) in
  match v with
  | PList (x :: l) =>
      match sequence (map (json_dumps_at (S level)) (x :: l)) with
      | Some items =>
          Some ("[" +++ pad +++ String.concat ("," +++ pad) items
                    +++ NL +++ spaces (2 * level) +++ "]")
      | None => None
      end
  | PDict (kv0 :: d) =>
      match
        sequence
          (map (fun kv =>
                  match json_dumps_at (S level) (snd kv) with
                  | Some s => Some (json_string (fst kv) +++ ": " +++ s)
                  | None => None
                  end) (kv0 :: d))
      with
      | Some items =>
          Some ("{" +++ pad +++ String.concat ("," +++ pad) items
                    +++ NL +++ spaces (2 * level) +++ "}")
      | None => None
      end
  | _ => json_dumps v
  end.

(** *** [str] and [repr] *)

Definition repr_escape (quote : ascii) (c : ascii) : string :=
  let n := nat_of_ascii c in
  if Ascii.eqb c quote || Ascii.eqb c backslash then str1 backslash +++ str1 c
  else if (n =? 10)%nat then "\n"
  else if (n =? 13)%nat then "\r"
  else if (n =? 9)%nat then "\t"
  else if ((n <? 32) || (n =? 127) || ((128 <=? n) && (n <=? 160)) || (n =? 173))%nat
  then "\x" +++ hex2 n
  else str1 c.

Definition repr_str (s : string) : string :=
  let quote :=
    if PyStr.contains (str1 squote) s && negb (PyStr.contains (str1 dquote) s)
    then dquote else squote in
  str1 quote +++ concat_map (repr_escape quote) s +++ str1 quote.

Fixpoint py_repr (v : pyval) : option string :=
  match v with
  | PNone => Some "None"
  | PBool true => Some "True"
  | PBool false => Some "False"
  | PInt z => str_of_int z
  | PFloat r => Some r
  | PStr s => Some (repr_str s)
  | PList l =>
      match sequence (map py_repr l) with
      | Some items => Some ("[" +++ String.concat ", " items +++ "]")
      | None => None
      end
  | PDict d =>
      match
        sequence
          (map (fun kv =>
                  match py_repr (snd kv) with
                  | Some s => Some (repr_str (fst kv) +++ ": " +++ s)
                  | None => None
                  end) d)
      with
      | Some items => Some ("{" +++ String.concat ", " items +++ "}")
      | None => None
      end
  | PObj r => r
  end.

Definition py_str (v : pyval) : option string :=
  match v with
  | PStr s => Some s
  | _ => py_repr v
  end.

(** *** [json.loads] *)

Definition is_json_space (c : ascii) : bool :=
  let n := nat_of_ascii c in
  ((n =? 32) || (n =? 9) || (n =? 10) || (n =? 13))%nat.

Fixpoint skip_space (s : string) : string :=
  match s with
  | EmptyString => EmptyString
  | String c r => if is_json_space c then skip_space r else s
  end.

Definition is_digit (c : ascii) : bool :=
  let n := nat_of_ascii c in ((48 <=? n) && (n <=? 57))%nat.

(** the digits [s] starts with, and what follows them *)
Fixpoint span_digits (s : string) : string * string :=
  match s with
  | EmptyString => (EmptyString, EmptyString)
  | String c r =>
      if is_digit c
      then let (ds, rest) := span_digits r in (String c ds, rest)
      else (EmptyString, s)
  end.

Definition hex_value (c : ascii) : option nat :=
  let n := nat_of_ascii c in
  if ((48 <=? n) && (n <=? 57))%nat then Some (n - 48)
  else if ((97 <=? n) && (n <=? 102))%nat then Some (n - 87)
  else if ((65 <=? n) && (n <=? 70))%nat then Some (n - 55)
  else None.

(** the character an escape letter stands for *)
Definition unescape (c : ascii) : option ascii :=
  let n := nat_of_ascii c in
  if ((n =? 34) || (n =? 92) || (n =? 47))%nat then Some c
  else if (n =? 98)%nat then Some (ascii_of_nat 8)
  else if (n =? 102)%nat then Some (ascii_of_nat 12)
  else if (n =? 110)%nat then Some (ascii_of_nat 10)
  else if (n =? 114)%nat then Some (ascii_of_nat 13)
  else if (n =? 116)%nat then Some (ascii_of_nat 9)
  else None.

(** A string, from the character after its opening quote: its content and
    what follows the closing quote. *)
Fixpoint scan_string (s : string) : option (string * string) :=
  match s with
  | EmptyString => None
  | String c r =>
      if Ascii.eqb c dquote then Some (EmptyString, r)
      else if Ascii.eqb c backslash then
        match r with
        | String e r1 =>
            if Ascii.eqb e "u"%char then
              match r1 with
              | String h1 (String h2 (String h3 (String h4 r2))) =>
                  match hex_value h1, hex_value h2, hex_value h3, hex_value h4 with
                  | Some 0, Some 0, Some a, Some b =>
                      match scan_string r2 with
                      | Some (t, rest) => Some (String (ascii_of_nat (16 * a + b)) t, rest)
                      | None => None
                      end
                  | _, _, _, _ => None
                  end
              | _ => None
              end
            else
              match unescape e with
              | Some d =>
                  match scan_string r1 with
                  | Some (t, rest) => Some (String d t, rest)
                  | None => None
                  end
              | None => None
              end
        | EmptyString => None
        end
      else if (nat_of_ascii c <? 32)%nat then None
      else
        match scan_string r with
        | Some (t, rest) => Some (String c t, rest)
        | None => None
        end
  end.

Definition Z_of_digits (s : string) : Z :=
  match NilZero.int_of_string s with
  | Some i => Z.of_int i
  | None => 0%Z
  end.

(** What a scanner does at the start of a string: it reads a value and
    leaves the rest, it finds no value ([json.JSONDecodeError]), or it
    raises another exception. *)
Inductive Scan (A : Type) : Type :=
| Scanned (a : A) (rest : string)
| Malformed
| Failure.
Arguments Malformed {A}.
Arguments Failure {A}.

(** *** The float of a literal, and its [repr] *)

(** The float nearest to [n / m], for [n] and [m] above 0, ties to the
    even mantissa: its mantissa [q], below [2 ^ 53], and its exponent
    [e], from -1074; the float is [q * 2 ^ e]. *)
Definition nearest_float (n m : Z) : Z * Z :=
  (let scaled e := (n * 2 ^ Z.max (- e) 0, m * 2 ^ Z.max e 0) in
   let e0 := Z.log2 n - Z.log2 m - 52 in
   let e1 := if (let (a, b) := scaled e0 in a / b) <? 2 ^ 52 then e0 - 1 else e0 in
   let e := Z.max e1 (-1074) in
   let (a, b) := scaled e in
   let q := a / b in
   let r := a mod b in
   let q := if (b <? 2 * r) || ((2 * r =? b) && Z.odd q) then q + 1 else q in
   if q =? 2 ^ 53 then (2 ^ 52, e + 1) else (q, e))%Z.

(** The shortest decimal that is read as the float [q * 2 ^ e], and the
    nearest to it among those of its length, which [repr] prints: its
    digits [d] and its exponent [k] of ten; the decimal is
    [d * 10 ^ k]. *)
Definition shortest_decimal (q e : Z) : Z * Z :=
  (let below := if (q =? 2 ^ 52) && (-1074 <? e) then 1 else 2 in
   let units c := c * 2 ^ Z.max (e - 2) 0 in
   let den := 2 ^ Z.max (2 - e) 0 in
   let x := units (4 * q) in
   let low := units (4 * q - below) in
   let high := units (4 * q + 2) in
   let reaches t :=
     if 0 <=? t then 10 ^ t * den <=? x else den <=? x * 10 ^ (- t) in
   let t0 := (Z.log2 q + e) * 30103 / 100000 in
   let t1 :=
     if reaches (t0 + 1) then t0 + 1 else if reaches t0 then t0 else t0 - 1 in
   let t :=
     if reaches (t1 + 1) then t1 + 1 else if reaches t1 then t1 else t1 - 1 in
   let try n :=
     let k := t + 1 - n in
     let p := 10 ^ Z.max k 0 * den in
     let s := 10 ^ Z.max (- k) 0 in
     let inside d :=
       if Z.even q then (low * s <=? d * p) && (d * p <=? high * s)
       else (low * s <? d * p) && (d * p <? high * s) in
     let d := x * s / p in
     match inside d, inside (d + 1) with
     | true, true =>
         let under := x * s - d * p in
         let over := (d + 1) * p - x * s in
         if (under <? over) || ((under =? over) && Z.even d) then Some (d, k)
         else Some (d + 1, k)
     | true, false => Some (d, k)
     | false, true => Some (d + 1, k)
     | false, false => None
     end in
   let fix search (fuel : nat) (n : Z) : Z * Z :=
     match fuel with
     | O => (x / den, 0)
     | S fuel' =>
         match try n with
         | Some r => r
         | None => search fuel' (n + 1)
         end
     end in
   search 17%nat 1)%Z.

Fixpoint strip_zeros (s : string) : string :=
  match s with
  | String "0"%char r => strip_zeros r
  | _ => s
  end.

Fixpoint rev_string (s : string) (acc : string) : string :=
  match s with
  | EmptyString => acc
  | String c r => rev_string r (String c acc)
  end.

Fixpoint zeros (n : nat) : string :=
  match n with O => EmptyString | S m => String "0"%char (zeros m) end.

Definition take (n : nat) (s : string) : string := String.substring 0 n s.

(** [repr] of the float of [digits], which neither start nor end with a
    zero, with the decimal point [decpt] places after their start: the
    exponent form unless [-4 < decpt <= 16]. *)
Definition float_repr (sign : string) (digits : string) (decpt : Z) : string :=
  let n := Z.of_nat (String.length digits) in
  match digits with
  | EmptyString => sign +++ "0.0"
  | String d ds =>
      if ((decpt <=? -4) || (16 <? decpt))%Z then
        let e := (decpt - 1)%Z in
        let ee := string_of_Z (Z.abs e) in
        sign +++ str1 d
          +++ (if PyStr.is_empty ds then EmptyString else "." +++ ds)
          +++ "e" +++ (if (e <? 0)%Z then "-" else "+")
          +++ (if (String.length ee <? 2)%nat then "0" +++ ee else ee)
      else if (decpt <=? 0)%Z then
        sign +++ "0." +++ zeros (Z.to_nat (- decpt)) +++ digits
      else if (n <=? decpt)%Z then
        sign +++ digits +++ zeros (Z.to_nat (decpt - n)) +++ ".0"
      else
        sign +++ take (Z.to_nat decpt) digits +++ "."
          +++ PyStr.drop (Z.to_nat decpt) digits
  end.

(** The float of the literal [int_part.frac] with the exponent [exp]: a
    literal beyond the floats either way is read as an infinity or as
    zero. *)
Definition float_of_literal (sign int_part frac : string) (exp : Z) : pyval :=
  let all := strip_zeros (int_part +++ frac) in
  let d := Z_of_digits ("0" +++ all) in
  let e10 := (exp - Z.of_nat (String.length frac))%Z in
  let magnitude := (Z.of_nat (String.length all) + e10)%Z in
  if (d =? 0)%Z then PFloat (sign +++ "0.0")
  else if (310 <? magnitude)%Z then PFloat (sign +++ "inf")
  else if (magnitude <? -330)%Z then PFloat (sign +++ "0.0")
  else
    let (q, e) :=
      nearest_float (d * 10 ^ Z.max e10 0)%Z (10 ^ Z.max (- e10) 0)%Z in
    if (q =? 0)%Z then PFloat (sign +++ "0.0")
    else if (971 <? e)%Z then PFloat (sign +++ "inf")
    else
      let (digits, k) := shortest_decimal q e in
      let text := string_of_Z digits in
      let significant :=
        rev_string (strip_zeros (rev_string text EmptyString)) EmptyString in
      PFloat (float_repr sign significant (Z.of_nat (String.length text) + k)%Z).

(** A number: a sign, an integer part without leading zeros, and then
    a fraction, an exponent, or both. An integer of more than
    [int_max_str_digits] digits is a [ValueError]. *)
Definition scan_number (s : string) : Scan pyval :=
  let (sign, s1) :=
    match s with
    | String "-"%char r => ("-", r)
    | _ => (EmptyString, s)
    end in
  match s1 with
  | EmptyString => Malformed
  | String c r =>
      if negb (is_digit c) then Malformed
      else
        let (int_part, r1) :=
          if Ascii.eqb c "0"%char then ("0", r) else span_digits s1 in
        let '(frac, has_frac, r2) :=
          match r1 with
          | String "."%char r' =>
              match span_digits r' with
              | (EmptyString, _) => (EmptyString, false, r1)
              | (ds, rest) => (ds, true, rest)
              end
          | _ => (EmptyString, false, r1)
          end in
        let '(exp, has_exp, r3) :=
          match r2 with
          | String e r' =>
              if Ascii.eqb e "e"%char || Ascii.eqb e "E"%char then
                let (esign, r'') :=
                  match r' with
                  | String "+"%char t => (EmptyString, t)
                  | String "-"%char t => ("-", t)
                  | _ => (EmptyString, r')
                  end in
                match span_digits r'' with
                | (EmptyString, _) => (0%Z, false, r2)
                | (ds, rest) => (Z_of_digits (esign +++ ds), true, rest)
                end
              else (0%Z, false, r2)
          | EmptyString => (0%Z, false, r2)
          end in
        if negb has_frac && negb has_exp then
          if (int_max_str_digits <? String.length int_part)%nat then Failure
          else Scanned (PInt (Z_of_digits (sign +++ int_part))) r3
        else Scanned (float_of_literal sign int_part frac exp) r3
  end.

(** [d[k] = v] *)
Fixpoint dict_set (d : list (string * pyval)) (k : string) (v : pyval)
  : list (string * pyval) :=
  match d with
  | [] => [(k, v)]
  | (k', v') :: r =>
      if String.eqb k' k then (k', v) :: r else (k', v') :: dict_set r k v
  end.

Definition literal (name : string) (v : pyval) (s : string) : Scan pyval :=
  if String.prefix name s then Scanned v (PyStr.drop (String.length name) s)
  else Malformed.

(** How deep the scanner goes into lists and dicts before it raises a
    [RecursionError]: the recursion limit of the interpreter, 1000, less
    the frames in use when [json.loads] is called, here from the top
    level of a script; inside the server, more frames are in use. *)
Definition max_depth : nat := 994.

(** A value at the start of [s], inside [depth] lists and dicts;
    [parse_elements] and [parse_members] read the rest of a list and of a
    dict. [fuel] bounds the calls, and the length of [s] bounds what they
    need. *)
Fixpoint parse_value (fuel : nat) (depth : nat) (s : string) : Scan pyval :=
  match fuel with
  | O => Malformed
  | S fuel' =>
      match s with
      | EmptyString => Malformed
      | String c r =>
          if Ascii.eqb c dquote then
            match scan_string r with
            | Some (t, rest) => Scanned (PStr t) rest
            | None => Malformed
            end
          else if Ascii.eqb c "{"%char then
            if (max_depth <=? depth)%nat then Failure
            else
              match skip_space r with
              | String "}"%char rest => Scanned (PDict []) rest
              | r1 => parse_members fuel' (S depth) r1 []
              end
          else if Ascii.eqb c "["%char then
            if (max_depth <=? depth)%nat then Failure
            else
              match skip_space r with
              | String "]"%char rest => Scanned (PList []) rest
              | r1 => parse_elements fuel' (S depth) r1 []
              end
          else if Ascii.eqb c "n"%char then literal "null" PNone s
          else if Ascii.eqb c "t"%char then literal "true" (PBool true) s
          else if Ascii.eqb c "f"%char then literal "false" (PBool false) s
          else if Ascii.eqb c "N"%char then literal "NaN" (PFloat "nan") s
          else if Ascii.eqb c "I"%char then literal "Infinity" (PFloat "inf") s
          else if String.prefix "-Infinity" s then literal "-Infinity" (PFloat "-inf") s
          else scan_number s
      end
  end
with parse_elements (fuel : nat) (depth : nat) (s : string) (acc : list pyval)
  : Scan pyval :=
  match fuel with
  | O => Malformed
  | S fuel' =>
      match parse_value fuel' depth s with
      | Scanned v r =>
          match skip_space r with
          | String "]"%char rest => Scanned (PList (acc ++ [v])) rest
          | String ","%char rest =>
              parse_elements fuel' depth (skip_space rest) (acc ++ [v])
          | _ => Malformed
          end
      | Malformed => Malformed
      | Failure => Failure
      end
  end
with parse_members (fuel : nat) (depth : nat) (s : string)
  (acc : list (string * pyval)) : Scan pyval :=
  match fuel with
  | O => Malformed
  | S fuel' =>
      match s with
      | EmptyString => Malformed
      | String c r =>
          if negb (Ascii.eqb c dquote) then Malformed
          else
            match scan_string r with
            | Some (k, r1) =>
                match skip_space r1 with
                | String ":"%char r2 =>
                    match parse_value fuel' depth (skip_space r2) with
                    | Scanned v r3 =>
                        match skip_space r3 with
                        | String "}"%char rest =>
                            Scanned (PDict (dict_set acc k v)) rest
                        | String ","%char rest =>
                            parse_members fuel' depth (skip_space rest)
                              (dict_set acc k v)
                        | _ => Malformed
                        end
                    | Malformed => Malformed
                    | Failure => Failure
                    end
                | _ => Malformed
                end
            | None => Malformed
            end
      end
  end.

Definition json_loads (s : string) : Loads :=
  match parse_value (2 + 2 * String.length s) 0 (skip_space s) with
  | Scanned v rest =>
      if PyStr.is_empty (skip_space rest) then Loaded v else JSONDecodeError
  | Malformed => JSONDecodeError
  | Failure => OtherException
  end.

End CPython.

Definition ref_lib : PyLib :=
  {| json_dumps := CPython.json_dumps;
     json_dumps_indent := CPython.json_dumps_at 0;
     json_loads := CPython.json_loads;
     py_str := CPython.py_str |}.

(** ** The notions the statements use *)

Definition is_some {A : Type} (o : option A) : bool := negb (is_none o).

Definition is_str (v : pyval) : bool :=
  match v with PStr _ => true | _ => false end.

(** The [text] of a dict, where the normalizer reads it, is a string. *)
Definition text_is_str (d : list (string * pyval)) : bool :=
  is_str (dict_get d "text" (PStr EmptyString)).

Section Normalizable.

Context {L : PyLib}.

(** [json.dumps] or [str] prints the value. *)
Definition printable (v : pyval) : bool :=
  is_some (json_dumps v) || is_some (py_str v).

(** An item of a list content on which the loop of the normalizer goes
    on: its [text], when the loop reads it, is a string, and a dict
    without [text] can be printed. *)
Definition item_ok (item : pyval) : bool :=
  match item with
  | PDict d =>
      if type_is_text d || dict_has d "text" then text_is_str d
      else printable item
  | _ => true
  end.

(** The contents the normalizer turns into a string. *)
Definition normalizable (content : pyval) : bool :=
  match content with
  | PList l => forallb item_ok l
  | PDict d => if type_is_text d then text_is_str d else printable content
  | _ => true
  end.

End Normalizable.


(** ["".join(l)] *)
Fixpoint join (l : list string) : string :=
  match l with
  | [] => EmptyString
  | s :: r => s +++ join r
  end.

Section Fragments.

Context {L : PyLib}.

(** C6 as amended, in its words.

    What an item of a list content adds to the text of a tool result:
    the [text] of a dict that is tagged [text] or has the key [text],
    and a line feed; another dict as [json.dumps] prints it, or else
    [str], and a line feed; an item that is no dict, nothing. [None]:
    the conversion fails, on a [text] that is no string and on a dict
    that neither prints. *)
Definition rendered_item (item : pyval) : option string :=
  match item with
  | PDict d =>
      if type_is_text d || dict_has d "text" then
        match dict_get d "text" (PStr EmptyString) with
        | PStr text => Some (text +++ NL)
        | _ => None
        end
      else
        match json_dumps item, py_str item with
        | Some s, _ => Some (s +++ NL)
        | None, Some s => Some (s +++ NL)
        | None, None => None
        end
  | _ => Some EmptyString
  end.

Fixpoint rendered_items (items : list pyval) : option string :=
  match items with
  | [] => Some EmptyString
  | item :: rest =>
      match rendered_item item, rendered_items rest with
      | Some s, Some t => Some (s +++ t)
      | _, _ => None
      end
  end.

(** The text of a tool result: a string as it is; a list by its items;
    a dict tagged [text] by its [text], through [str] when it is no
    string; another dict as [json.dumps] prints it, or else [str]; any
    other value through [str], and ["Unparseable content"] when [str]
    raises. [None]: the conversion fails. *)
Definition rendered_result (block_content : pyval) : option string :=
  match block_content with
  | PStr s => Some s
  | PList items => rendered_items items
  | PDict d =>
      if type_is_text d then
        match dict_get d "text" (PStr EmptyString) with
        | PStr text => Some text
        | text => py_str text
        end
      else
        match json_dumps block_content, py_str block_content with
        | Some s, _ => Some s
        | None, Some s => Some s
        | None, None => None
        end
  | _ =>
      match py_str block_content with
      | Some s => Some s
      | None => Some "Unparseable content"
      end
  end.

(** What a block gives: a text block its text and a line feed; a tool
    result ["Tool result for {id}:\n{text}\n"]; a block of another
    type, nothing. *)
Definition rendered_block (block : ContentBlock) : option string :=
  match block with
  | ContentBlockText text => Some (text +++ NL)
  | ContentBlockToolResult tool_use_id block_content =>
      match rendered_result block_content with
      | Some text =>
          Some ("Tool result for " +++ tool_use_id +++ ":" +++ NL +++ text +++ NL)
      | None => None
      end
  | _ => Some EmptyString
  end.

Fixpoint rendered_blocks (blocks : list ContentBlock) : option string :=
  match blocks with
  | [] => Some EmptyString
  | block :: rest =>
      match rendered_block block, rendered_blocks rest with
      | Some s, Some t => Some (s +++ t)
      | _, _ => None
      end
  end.

(** The [type] of a block. *)
Definition block_type (block : ContentBlock) : string :=
  match block with
  | ContentBlockText _ => "text"
  | ContentBlockImage _ => "image"
  | ContentBlockToolUse _ _ _ => "tool_use"
  | ContentBlockToolResult _ _ => "tool_result"
  end.

(** The part is a dict of the [type] of the block. *)
Definition part_for (block : ContentBlock) (part : pyval) : Prop :=
  exists d, part = PDict d /\ dict_get d "type" PNone = PStr (block_type block).

(** The downstream message [out] is the one of the message [msg]: it
    has its role; a string content is passed on; the blocks of a user
    message with a tool result become one string, what the blocks give,
    stripped; any other blocks become a list of one part for each block,
    in order. *)
Definition converted (msg : Message) (out : OutMessage) : Prop :=
  out_role out = role_name (role msg)
  /\ match content msg with
     | ContentStr s => out_content out = OutStr s
     | ContentBlocks blocks =>
         match role msg, existsb is_tool_result blocks with
         | user, true =>
             exists text, rendered_blocks blocks = Some text
                          /\ out_content out = OutStr (PyStr.strip text)
         | _, _ =>
             exists parts, out_content out = OutParts parts
                           /\ Forall2 part_for blocks parts
         end
     end.

(** C6 in the words of the claim: a text block gives its text, a tool
    result the fragment ["Tool result for {id}:\n{text}"], and the content
    is their concatenation. *)
Definition claimed_fragment (block : ContentBlock) : result string :=
  match block with
  | ContentBlockText text => Return text
  | ContentBlockToolResult tool_id block_content =>
      match result_content block_content with
      | Return rc =>
          match format_value rc with
          | Return s => Return ("Tool result for " +++ tool_id +++ ":" +++ NL +++ s)
          | Raise => Raise
          end
      | Raise => Raise
      end
  | _ => Return EmptyString
  end.

Fixpoint claimed_content (blocks : list ContentBlock) : result string :=
  match blocks with
  | [] => Return EmptyString
  | block :: rest =>
      match claimed_fragment block, claimed_content rest with
      | Return s, Return t => Return (s +++ t)
      | _, _ => Raise
      end
  end.

End Fragments.

Definition user_text (s : string) : OutMessage :=
  {| out_role := "user"; out_content := OutStr s |}.

(** *** Sample inputs *)

(** A request for [model] with [max_tokens], [messages] and
    [reasoning_effort], and nothing else. *)
Definition request_of (m : string) (n : Z) (msgs : list Message)
  (effort : option string) : MessagesRequest :=
  {| model := m;
     max_tokens := n;
     messages := msgs;
     system := None;
     stop_sequences := None;
     stream := None;
     temperature := None;
     top_p := None;
     top_k := None;
     tools := None;
     tool_choice := None;
     reasoning_effort := effort |}.

(** The user message of one block [tool_result{tool_use_id: "t1",
    content: "42"}]. *)
Definition tool_result_42 : Message :=
  {| role := user;
     content := ContentBlocks [ContentBlockToolResult "t1" (PStr "42")] |}.

(** A user message of a text block and a tool result. *)
Definition text_and_tool_result : Message :=
  {| role := user;
     content := ContentBlocks [ContentBlockText "a";
                               ContentBlockToolResult "t1" (PStr "42")] |}.

(** The finish-reason table, in the words of the specification:
    [stop] gives [end_turn], [length] gives [max_tokens], [tool_calls]
    gives [tool_use], anything else [end_turn]. *)
Definition finish_reason_table (finish_reason : string) : string :=
  if String.eqb finish_reason "stop" then "end_turn"
  else if String.eqb finish_reason "length" then "max_tokens"
  else if String.eqb finish_reason "tool_calls" then "tool_use"
  else "end_turn".

(** The text block a response starts with, if it has a text. *)
Definition leading_text (content_text : option string) : list ResponseBlock :=
  match content_text with
  | Some t => if PyStr.truthy t then [TextBlock t] else []
  | None => []
  end.

(** A response of one choice, with [text] and [tool_calls]. *)
Definition response_of (text : option string) (tool_calls : list ToolCall)
  (finish_reason : option string) : LiteLLMResponse :=
  {| shape := TypedResponse;
     resp_id := Given "chatcmpl-1";
     choices := [ {| ch_message := {| rm_content := text;
                                      rm_tool_calls := tool_calls |};
                     ch_finish_reason := finish_reason |} ];
     usage := {| prompt_tokens := Some 10%Z; completion_tokens := Some 5%Z |} |}.

(** [n] times the character [c] *)
Fixpoint repeat_char (c : ascii) (n : nat) : string :=
  match n with
  | O => EmptyString
  | S m => String c (repeat_char c m)
  end.

(** The tool call [search] whose arguments are 1000 opening brackets. *)
Definition deep_json_call : ToolCall :=
  {| tc_id := Given "call_1";
     tc_function_name := Given "search";
     tc_function_arguments := Some (PStr (repeat_char "["%char 1000)) |}.

(** The tool call [search] with the arguments ["{bad json"]. *)
Definition bad_json_call : ToolCall :=
  {| tc_id := Given "call_1";
     tc_function_name := Given "search";
     tc_function_arguments := Some (PStr "{bad json") |}.

(** *** Events and runs of the generator *)

Definition events_of {A : Type} (r : list Event * StreamState * Flow A)
  : list Event := fst (fst r).
Definition state_of {A : Type} (r : list Event * StreamState * Flow A)
  : StreamState := snd (fst r).
Definition flow_of {A : Type} (r : list Event * StreamState * Flow A)
  : Flow A := snd r.

Definition is_block_start (e : Event) : bool :=
  match e with ContentBlockStart _ _ => true | _ => false end.
Definition is_block_stop (e : Event) : bool :=
  match e with ContentBlockStop _ => true | _ => false end.
Definition is_message_stop (e : Event) : bool :=
  match e with MessageStop => true | _ => false end.
Definition is_done (e : Event) : bool :=
  match e with Done => true | _ => false end.
Definition is_text_delta (e : Event) : bool :=
  match e with ContentBlockDelta _ (TextDelta _) => true | _ => false end.
Definition is_terminal (e : Event) : bool := is_message_stop e || is_done e.

(** the number of events of a kind *)
Definition count (p : Event -> bool) (evs : list Event) : nat :=
  length (filter p evs).

(** the number of [content_block_stop] events of index [i] *)
Definition stops_of (i : nat) (evs : list Event) : nat :=
  count (fun e => match e with ContentBlockStop j => Nat.eqb i j | _ => false end) evs.

(** The [content_block_stop] events of the tool blocks, as both closing
    sequences yield them. *)
Definition tool_stops (st : StreamState) : list Event :=
  if is_none (tool_index st) then []
  else map ContentBlockStop (seq 1 (last_tool_index st)).

(** What the finish reason yields for the text block. *)
Definition text_flush (st : StreamState) : list Event :=
  if text_block_closed st then []
  else
    (if PyStr.truthy (accumulated_text st) && negb (text_sent st)
     then [ContentBlockDelta 0 (TextDelta (accumulated_text st))]
     else [])
    ++ [ContentBlockStop 0].

(** A piece of the generator keeps the invariant [I] of its variables,
    yields only events in [P], and goes on with values in [Q]. *)
Definition triple {A : Type} (I : StreamState -> Prop) (P : Event -> Prop)
  (m : Gen A) (Q : A -> Prop) : Prop :=
  forall st, I st ->
    Forall P (events_of (m st))
    /\ I (state_of (m st))
    /\ (forall a, flow_of (m st) = Next a -> Q a).

(** A piece of the generator that does not execute [return]. *)
Definition goes_on {A : Type} (m : Gen A) : Prop :=
  forall st, flow_of (m st) <> Returned.

Definition anything {A : Type} (a : A) : Prop := True.

(** No finish reason was processed yet. *)
Definition not_sent (st : StreamState) : Prop := has_sent_stop_reason st = false.

(** The event is neither [message_stop] nor the sentinel. *)
Definition not_terminal (e : Event) : Prop := is_terminal e = false.

(** The events end with a [message_delta], [message_stop] and the
    sentinel, and have no other [message_stop] or sentinel. *)
Definition terminated (evs : list Event) : Prop :=
  exists pre stop_reason error_message output_tokens,
    evs = pre ++ [MessageDelta stop_reason error_message output_tokens;
                  MessageStop; Done]
    /\ Forall not_terminal pre.

(** A piece of the generator that, run before any finish reason, either
    closes the stream and returns, or yields no terminal event and
    leaves the stream open. *)
Definition closes_at_most_once {A : Type} (m : Gen A) : Prop :=
  forall st, not_sent st ->
    match flow_of (m st) with
    | Returned => terminated (events_of (m st))
    | _ => Forall not_terminal (events_of (m st)) /\ not_sent (state_of (m st))
    end.

(** The run [r], after the events [evs]. *)
Definition prepend {A : Type} (evs : list Event)
  (r : list Event * StreamState * Flow A) : list Event * StreamState * Flow A :=
  (evs ++ events_of r, state_of r, flow_of r).

(** A piece of the generator that neither raises nor returns. *)
Definition runs (m : Gen unit) : Prop :=
  forall st, flow_of (m st) = Next tt.

(** The text block is closed. *)
Definition closed (st : StreamState) : Prop := text_block_closed st = true.

(** The event is no [text_delta]. *)
Definition not_text_delta (e : Event) : Prop := is_text_delta e = false.

(** Once a tool call has started, the text block is closed. *)
Definition closed_by_tools (st : StreamState) : Prop :=
  is_none (tool_index st) = false -> text_block_closed st = true.







Section StreamNotions.

Context {L : PyLib}.

(** The stream of [chunks] from [st] ends without a finish reason, with
    the text block already closed. *)
Definition closes_text_twice (chunks : list Chunk) (st : StreamState) : bool :=
  match state_after chunks st with
  | Some st' => text_block_closed st'
  | None => false
  end.

(** The variables of the loop over [chunks] from [st] when the loop is
    left, at the [return] of a finish reason or after the last chunk. *)
Fixpoint final_state (chunks : list Chunk) (st : StreamState) : StreamState :=
  match chunks with
  | [] => st
  | chunk :: rest =>
      match process_chunk chunk st with
      | (_, st1, Returned) => st1
      | (_, st1, _) => final_state rest st1
      end
  end.

(** The closing sequence of the stream stops the tool blocks: the tool
    call handled last had an index other than [None]. *)
Definition stops_tools (chunks : list Chunk) (st : StreamState) : bool :=
  negb (is_none (tool_index (final_state chunks st))).

End StreamNotions.

(** The first choice of the chunk carries tool calls, and its text, if
    any, is a string: the loop reaches the tool calls. *)
Definition carries_tool_calls (chunk : Chunk) : bool :=
  match ck_choices chunk with
  | ChoicesList (choice :: _) =>
      match d_content (sc_delta choice), d_tool_calls (sc_delta choice) with
      | OtherContent, _ => false
      | _, [] => false
      | _, _ :: _ => true
      end
  | _ => false
  end.

(** The text of the first choice of the chunk, when it is a string that
    is not empty. *)
Definition chunk_text (chunk : Chunk) : option string :=
  match ck_choices chunk with
  | ChoicesList (choice :: _) =>
      match d_content (sc_delta choice) with
      | StrContent s => if PyStr.truthy s then Some s else None
      | _ => None
      end
  | _ => None
  end.

(** *** Sample chunks *)

Definition chunk_of (text : DeltaContent) (tool_calls : list ToolCallDelta)
  (finish_reason : option string) : Chunk :=
  {| ck_usage := None;
     ck_choices :=
       ChoicesList [ {| sc_delta := {| d_content := text;
                                       d_tool_calls := tool_calls |};
                        sc_finish_reason := finish_reason |} ] |}.

Definition text_chunk (s : string) : Chunk := chunk_of (StrContent s) [] None.

Definition finish_chunk (finish_reason : string) : Chunk :=
  chunk_of NoContent [] (Some finish_reason).

Definition tool_chunk (index : Z) (id name : Field string) (arguments : string)
  : Chunk :=
  chunk_of NoContent
    [ {| tcd_index := Given index; tcd_id := id; tcd_name := name;
         tcd_arguments := Some arguments |} ]
    None.

(** *** Settings, endpoints and the text of a stream *)

Definition resolved (m : string) : bool :=
  PyStr.startswith m "claude"
  || negb (PyStr.contains "haiku" (PyStr.lower m)
           || PyStr.contains "sonnet" (PyStr.lower m)).

Definition submit (env : Environment) (cfg : Settings) (form : string * string)
  : Settings :=
  fst (update_models env cfg (fst form) (snd form)).

Definition settings_after (env : Environment) (forms : list (string * string))
  : Settings :=
  fold_left (submit env) forms initial_settings.

Definition both_claude (cfg : Settings) : bool :=
  PyStr.contains "claude" (PyStr.lower (BIG_MODEL cfg))
  && PyStr.contains "claude" (PyStr.lower (SMALL_MODEL cfg)).

Definition history_after {A : Type} (infos : list A) : list A :=
  fold_left (fun history request_info => record_request request_info history)
    infos [].

Definition is_text_content (m : OutMessage) : bool :=
  match out_content m with OutStr _ => true | OutParts _ => false end.

(** What [openai_messages] does to one message: the role stays, a string
    stays, and a list becomes a string that is not empty and has no white
    space at either end. *)
Definition flattened (m o : OutMessage) : Prop :=
  out_role o = out_role m
  /\ match out_content m with
     | OutStr s => out_content o = OutStr s
     | OutParts _ =>
         exists t, out_content o = OutStr t
                   /\ PyStr.truthy t = true
                   /\ PyStr.starts_with_space t = false
                   /\ PyStr.ends_with_space t = false
     end.







(** The [text] of the item, where the loop over a list content of a tool
    result reads it, is no string. *)
Definition text_not_str (item : pyval) : bool :=
  match item with
  | PDict d =>
      (type_is_text d || dict_has d "text")
      && negb (is_str (dict_get d "text" (PStr EmptyString)))
  | _ => false
  end.

(** The block is a tool result whose list content holds an item with a
    [text] that is no string. *)
Definition bad_tool_result (block : ContentBlock) : bool :=
  match block with
  | ContentBlockToolResult _ (PList items) => existsb text_not_str items
  | _ => false
  end.

(** The user message holds such a tool result. *)
Definition bad_user_message (msg : Message) : bool :=
  match role msg, content msg with
  | user, ContentBlocks blocks => existsb bad_tool_result blocks
  | _, _ => false
  end.

Section EndpointNotions.

Context {L : PyLib}.

(** What a block that is no tool result adds to the text an OpenAI model
    receives. *)
Definition openai_rendering (block : ContentBlock) : result string :=
  match block with
  | ContentBlockText text => Return (text +++ NL)
  | ContentBlockImage _ =>
      Return ("[Image content - not displayed in text format]" +++ NL)
  | ContentBlockToolUse id name input =>
      match json_dumps input with
      | Some tool_input =>
          Return ("[Tool: " +++ name +++ " (ID: " +++ id +++ ")]" +++ NL
                  +++ "Input: " +++ tool_input +++ NL +++ NL)
      | None => Raise
      end
  | ContentBlockToolResult _ _ => Return EmptyString
  end.

Definition part_of (block : ContentBlock) : pyval :=
  match processed_block block with
  | Return p => p
  | Raise => PNone
  end.





End EndpointNotions.

(** *** The protocol of the content blocks *)

(** The two kinds of content block. *)
Inductive Kind : Type := TextKind | ToolKind.

Definition kind_eqb (k k' : Kind) : bool :=
  match k, k' with
  | TextKind, TextKind => true
  | ToolKind, ToolKind => true
  | _, _ => false
  end.

Definition kind_of_block (content_block : StartedBlock) : Kind :=
  match content_block with
  | StartText => TextKind
  | StartToolUse _ _ => ToolKind
  end.

Definition kind_of_delta (delta : BlockDelta) : Kind :=
  match delta with
  | TextDelta _ => TextKind
  | InputJsonDelta _ => ToolKind
  end.

(** The blocks that are started and not yet stopped, in the order of
    their start, with the index the next block takes. *)
Definition Blocks : Type := nat * list (nat * Kind).

Definition has_index (i : nat) (open : list (nat * Kind)) : bool :=
  existsb (fun p => Nat.eqb (fst p) i) open.

Definition is_open (i : nat) (k : Kind) (open : list (nat * Kind)) : bool :=
  existsb (fun p => Nat.eqb (fst p) i && kind_eqb (snd p) k) open.

Definition close_index (i : nat) (open : list (nat * Kind)) : list (nat * Kind) :=
  filter (fun p => negb (Nat.eqb (fst p) i)) open.

(** The events read one by one: a block starts with the next index; a
    delta goes to an open block of its kind, a text to a text block and
    a piece of JSON to a tool block; a stop closes an open block; at
    [message_stop] no block is open. [None]: an event breaks a rule. *)
Fixpoint run (blocks : Blocks) (evs : list Event) : option Blocks :=
  match evs with
  | [] => Some blocks
  | e :: rest =>
      let (next, open) := blocks in
      match e with
      | ContentBlockStart i content_block =>
          if Nat.eqb i next
          then run (S next, open ++ [(i, kind_of_block content_block)]) rest
          else None
      | ContentBlockDelta i delta =>
          if is_open i (kind_of_delta delta) open then run blocks rest else None
      | ContentBlockStop i =>
          if has_index i open then run (next, close_index i open) rest else None
      | MessageStop =>
          match open with
          | [] => run blocks rest
          | _ :: _ => None
          end
      | _ => run blocks rest
      end
  end.


(** The blocks the state of the loop stands for. *)
Definition tool_blocks (n : nat) : list (nat * Kind) :=
  map (fun i => (i, ToolKind)) (seq 1 n).

Definition blocks_of (st : StreamState) : Blocks :=
  (S (last_tool_index st),
   (if text_block_closed st then [] else [(0, TextKind)])
   ++ tool_blocks (last_tool_index st)).

(** The variables of the loop agree: while the text block is open no
    tool call was handled; once one was, [anthropic_tool_index] is the
    block started last; and [tool_index] is set by a tool call only. *)
Definition agree (st : StreamState) : Prop :=
  (text_block_closed st = false ->
   is_none (tool_index st) = true /\ last_tool_index st = 0)
  /\ (1 <= last_tool_index st ->
      anthropic_tool_index st = Some (last_tool_index st))
  /\ (is_none (tool_index st) = false -> 1 <= last_tool_index st)
  /\ has_sent_stop_reason st = false.

(** Between two chunks: the text block is closed by a tool call, which
    has started a block. *)
Definition between (st : StreamState) : Prop :=
  agree st /\ (text_block_closed st = true -> 1 <= last_tool_index st).

(** In the loop over the tool calls of a chunk. *)
Definition in_tools (st : StreamState) : Prop :=
  agree st /\ text_block_closed st = true.

(** The events of a run take the blocks of the state before to the
    blocks of the state after. *)
Definition follows_at {A : Type} (st : StreamState)
  (r : list Event * StreamState * Flow A) : Prop :=
  run (blocks_of st) (events_of r) = Some (blocks_of (state_of r)).

Definition follows {A : Type} (J : StreamState -> Prop) (m : Gen A) : Prop :=
  forall st, J st -> follows_at st (m st) /\ J (state_of (m st)).

(** In the loop over the tool calls, after the start of a block. *)
Definition in_call (st : StreamState) : Prop :=
  in_tools st /\ 1 <= last_tool_index st.

(** What the start of a tool block yields and assigns. *)
Definition started (tool_call : ToolCallDelta) (st : StreamState) : StreamState :=
  set_tool_content EmptyString
    (set_current_tool_call (Some tool_call)
       (set_anthropic_tool_index (Some (S (last_tool_index st)))
          (set_last_tool_index (S (last_tool_index st))
             (set_tool_index (index_of tool_call) st)))).



(** *** The tool calls of a stream *)

(** The events of the tool blocks: their starts and their pieces of
    JSON. *)
Definition is_tool_event (e : Event) : bool :=
  match e with
  | ContentBlockStart _ (StartToolUse _ _) => true
  | ContentBlockDelta _ (InputJsonDelta _) => true
  | _ => false
  end.

(** The index of a tool call: as given, 0 when the call has none, and
    [None] when it is [None]. *)
Definition call_index (tool_call : ToolCallDelta) : option Z :=
  match tcd_index tool_call with
  | Given i => Some i
  | Missing => Some 0%Z
  | Null => None
  end.

(** The tool call starts a block: it is the first, its index is not the
    index of the call before it, or one of the two has the index
    [None]. *)
Definition changes (current : option Z) (tool_call : ToolCallDelta) : bool :=
  match current, call_index tool_call with
  | Some i, Some j => negb (Z.eqb j i)
  | _, _ => true
  end.

(** The index of the call before and the number of blocks started, after
    the calls. *)
Fixpoint routing (current : option Z) (n : nat) (calls : list ToolCallDelta)
  : option Z * nat :=
  match calls with
  | [] => (current, n)
  | tool_call :: rest =>
      routing (call_index tool_call)
        (if changes current tool_call then S n else n) rest
  end.

(** The [id] and the [name] a tool block starts under: those of the
    call, [None] included; a fresh [id] and the empty [name] for a call
    without. *)
Definition started_block (tool_call : ToolCallDelta) : StartedBlock :=
  StartToolUse
    (match tcd_id tool_call with
     | Given id => GivenId id
     | Null => NoneId
     | Missing => FreshId "toolu_"
     end)
    (match tcd_name tool_call with
     | Given name => Some name
     | Null => None
     | Missing => Some EmptyString
     end).

Section StreamCalls.

Context {L : PyLib}.

(** The tool call ends its chunk: [json.loads] raises on its arguments
    an exception other than [json.JSONDecodeError]. *)
Definition breaks (tool_call : ToolCallDelta) : bool :=
  match tcd_arguments tool_call with
  | Some arguments =>
      PyStr.truthy arguments
      && match json_loads arguments with
         | OtherException => true
         | _ => false
         end
  | None => false
  end.

(** The calls that the loop over the tool calls reaches: those up to
    the first that [breaks], that one included. *)
Fixpoint reached (calls : list ToolCallDelta) : list ToolCallDelta :=
  match calls with
  | [] => []
  | tool_call :: rest => tool_call :: (if breaks tool_call then [] else reached rest)
  end.

(** The events of the calls, [n] tool blocks being started and [current]
    being the index of the call before: a call that [changes] the index
    starts the block after the last one, under its [id] and [name]; the
    arguments of a call, when not empty, go to the block started last,
    unless the call [breaks]. *)
Fixpoint routed (current : option Z) (n : nat) (calls : list ToolCallDelta)
  : list Event :=
  match calls with
  | [] => []
  | tool_call :: rest =>
      let n' := if changes current tool_call then S n else n in
      (if changes current tool_call
       then [ContentBlockStart n' (started_block tool_call)]
       else [])
      ++ match tcd_arguments tool_call with
         | Some arguments =>
             if PyStr.truthy arguments && negb (breaks tool_call)
             then [ContentBlockDelta n' (InputJsonDelta arguments)]
             else []
         | None => []
         end
      ++ routed (call_index tool_call) n' rest
  end.

(** The tool calls of the chunk that the loop reaches. *)
Definition chunk_calls (chunk : Chunk) : list ToolCallDelta :=
  match ck_choices chunk with
  | ChoicesList (choice :: _) =>
      match d_content (sc_delta choice) with
      | OtherContent => []
      | _ => reached (d_tool_calls (sc_delta choice))
      end
  | _ => []
  end.

(** The finish reason of the chunk, when the loop reaches it: the text
    of the chunk, if any, is a string, and none of its tool calls
    [breaks]. *)
Definition chunk_finish_reason (chunk : Chunk) : option string :=
  match ck_choices chunk with
  | ChoicesList (choice :: _) =>
      match d_content (sc_delta choice), sc_finish_reason choice with
      | OtherContent, _ => None
      | _, Some fr =>
          if PyStr.truthy fr
             && negb (existsb breaks (d_tool_calls (sc_delta choice)))
          then Some fr
          else None
      | _, None => None
      end
  | _ => None
  end.

(** The chunk carries a finish reason that the loop reaches. *)
Definition finishes (chunk : Chunk) : bool := is_some (chunk_finish_reason chunk).

(** The tool calls of the chunks, up to the first finish reason. *)
Fixpoint calls_received (chunks : list Chunk) : list ToolCallDelta :=
  match chunks with
  | [] => []
  | chunk :: rest =>
      chunk_calls chunk ++ (if finishes chunk then [] else calls_received rest)
  end.




End StreamCalls.

(** The state stands at the end of the routing of some calls. *)
Definition routed_to (st : StreamState) (r : option Z * nat) : Prop :=
  (tool_index st, last_tool_index st) = r.

(** The [stop_reason] of the [message_delta] events. *)
Definition stop_reasons (evs : list Event) : list string :=
  flat_map (fun e => match e with
                     | MessageDelta stop_reason _ _ => [stop_reason]
                     | _ => []
                     end) evs.

(** *** The usage of a stream *)




Section StreamUsage.

Context {L : PyLib}.



End StreamUsage.

(** * Properties *)

Unset Implicit Arguments.

(** ** Python strings *)

Lemma rstrip_no_trailing_space (s : string) :
  PyStr.ends_with_space (PyStr.rstrip s) = false.
Proof.
  induction s as [|c r IH]; simpl; [reflexivity|].
  destruct (PyStr.is_space c) eqn:Hc; simpl.
  - destruct (PyStr.rstrip r) as [|c' r'] eqn:Hr; simpl; [reflexivity|].
    exact IH.
  - destruct (PyStr.rstrip r) as [|c' r'] eqn:Hr; simpl; [exact Hc|].
    exact IH.
Qed.

Lemma lstrip_keeps_end (s : string) :
  PyStr.ends_with_space s = false ->
  PyStr.ends_with_space (PyStr.lstrip s) = false.
Proof.
  induction s as [|c r IH]; intros Hs; [reflexivity|].
  cbn [PyStr.lstrip]. destruct (PyStr.is_space c) eqn:Hc.
  - apply IH. destruct r as [|c' r']; [reflexivity|exact Hs].
  - exact Hs.
Qed.

Lemma lstrip_no_leading_space (s : string) :
  PyStr.starts_with_space (PyStr.lstrip s) = false.
Proof.
  induction s as [|c r IH]; simpl; [reflexivity|].
  destruct (PyStr.is_space c) eqn:Hc; [exact IH|].
  simpl. exact Hc.
Qed.

Lemma strip_no_trailing_space (s : string) :
  PyStr.ends_with_space (PyStr.strip s) = false.
Proof.
  unfold PyStr.strip. apply lstrip_keeps_end, rstrip_no_trailing_space.
Qed.

Lemma strip_no_leading_space (s : string) :
  PyStr.starts_with_space (PyStr.strip s) = false.
Proof.
  unfold PyStr.strip. apply lstrip_no_leading_space.
Qed.

(** ** ContentNormalizer *)

Section NormalizerProperties.

Context {L : PyLib}.






(** The normalizer is idempotent wherever it returns a string. *)
Lemma parse_tool_result_content_twice (content : pyval) (s : string) :
  parse_tool_result_content content = Return (PStr s) ->
  parse_tool_result_content (PStr s) = parse_tool_result_content content.
Proof. intros Hs. rewrite Hs. reflexivity. Qed.

(** C9, at the content [{"type": "text", "text": None}]. The normalizer
    returns the [text] of a dict tagged ["text"] as it is, here [None],
    which is no string; normalized again, [None] gives the string
    ["No content provided"]: the second result differs from the first. *)
Theorem parse_tool_result_content_not_idempotent :
  let content := PDict [("type", PStr "text"); ("text", PNone)] in
  parse_tool_result_content content = Return PNone
  /\ parse_tool_result_content PNone = Return (PStr "No content provided")
  /\ (forall r1 r2,
        parse_tool_result_content content = Return r1 ->
        parse_tool_result_content r1 = Return r2 ->
        r2 <> r1).
Proof.
  cbv zeta. repeat split.
  intros r1 r2 H1 H2. cbn in H1. injection H1 as <-.
  cbn in H2. injection H2 as <-. discriminate.
Qed.

End NormalizerProperties.



(** A dict without [text] that neither [json.dumps] nor [str] prints is
    not [normalizable]: the normalizer raises on it. *)
Example parse_tool_result_content_unprintable :
  parse_tool_result_content (L := ref_lib) (PDict [("a", PObj None)]) = Raise
  /\ normalizable (L := ref_lib) (PDict [("a", PObj None)]) = false.
Proof. split; reflexivity. Qed.

(** ** RequestMapper *)

Lemma append_assoc (a b c : string) : (a +++ b) +++ c = a +++ b +++ c.
Proof. induction a as [|x a IH]; simpl; [reflexivity|]. now rewrite IH. Qed.

Lemma append_empty_r (a : string) : a +++ EmptyString = a.
Proof. induction a as [|x a IH]; simpl; [reflexivity|]. now rewrite IH. Qed.

Section RequestMapperProperties.

Context {L : PyLib}.

Lemma result_content_item_rendered (item : pyval) :
  result_content_item item
  = match rendered_item item with
    | Some s => Return s
    | None => Raise
    end.
Proof.
  destruct item as [| b | z | r | s | l | d | o]; try reflexivity.
  unfold result_content_item, rendered_item.
  destruct (type_is_text d); cbn [orb].
  - destruct (dict_get d "text" (PStr EmptyString)); reflexivity.
  - destruct (dict_has d "text").
    + destruct (dict_get d "text" (PStr EmptyString)); reflexivity.
    + destruct (json_dumps (PDict d)); [reflexivity|].
      destruct (py_str (PDict d)); reflexivity.
Qed.

Lemma result_content_items_rendered (items : list pyval) :
  forall acc : string,
    result_content_items items acc
    = match rendered_items items with
      | Some t => Return (acc +++ t)
      | None => Raise
      end.
Proof.
  induction items as [|item rest IH]; intros acc; cbn [result_content_items
    rendered_items].
  - now rewrite append_empty_r.
  - rewrite result_content_item_rendered.
    destruct (rendered_item item) as [s|]; [|reflexivity].
    rewrite IH. destruct (rendered_items rest) as [t|]; [|reflexivity].
    now rewrite append_assoc.
Qed.

(** The text of a tool result, as the mapper computes it and puts it
    into the fragment, is [rendered_result]. *)
Lemma result_content_rendered (block_content : pyval) :
  match result_content block_content with
  | Return rc => format_value rc
  | Raise => Raise
  end
  = match rendered_result block_content with
    | Some text => Return text
    | None => Raise
    end.
Proof.
  destruct block_content as [| b | z | r | s | l | d | o];
    cbn [result_content rendered_result];
    try (destruct (py_str _); reflexivity); try reflexivity.
  - rewrite result_content_items_rendered.
    destruct (rendered_items l); reflexivity.
  - destruct (type_is_text d).
    + destruct (dict_get d "text" (PStr EmptyString)); reflexivity.
    + destruct (json_dumps (PDict d)); [reflexivity|].
      destruct (py_str (PDict d)); reflexivity.
Qed.

Lemma tool_result_fragment_rendered (block : ContentBlock) :
  tool_result_fragment block
  = match rendered_block block with
    | Some s => Return s
    | None => Raise
    end.
Proof.
  destruct block as [text|source|id name input|tool_id block_content];
    try reflexivity.
  cbn [tool_result_fragment rendered_block].
  pose proof (result_content_rendered block_content) as H.
  destruct (result_content block_content) as [rc|].
  - rewrite H. destruct (rendered_result block_content); reflexivity.
  - destruct (rendered_result block_content); [discriminate H|reflexivity].
Qed.

(** The loop that accumulates [text_content] appends what the blocks
    give, in their order, and raises when a block does. *)
Lemma tool_result_text_rendered (blocks : list ContentBlock) :
  forall acc : string,
    tool_result_text blocks acc
    = match rendered_blocks blocks with
      | Some t => Return (acc +++ t)
      | None => Raise
      end.
Proof.
  induction blocks as [|block rest IH]; intros acc;
    cbn [tool_result_text rendered_blocks].
  - now rewrite append_empty_r.
  - rewrite tool_result_fragment_rendered.
    destruct (rendered_block block) as [s|]; [|reflexivity].
    rewrite IH. destruct (rendered_blocks rest) as [t|]; [|reflexivity].
    now rewrite append_assoc.
Qed.

(** C6, as amended. A user message with block content that holds a tool
    result adds exactly one downstream message, of role [user], unless
    the conversion fails. Its content is the concatenation, stripped of
    the white space at both ends, of what the blocks give in their
    order: a text block its text and a line feed; a tool result
    ["Tool result for {id}:\n{text}\n"], whatever its content, with
    the text of [rendered_result]; a block of another type nothing. The
    conversion fails exactly when a tool result has no such text. *)
Theorem tool_result_message (msgs : list OutMessage) (msg : Message)
  (blocks : list ContentBlock) :
  role msg = user ->
  content msg = ContentBlocks blocks ->
  existsb is_tool_result blocks = true ->
  convert_message msgs msg
  = match rendered_blocks blocks with
    | Some text => Return (msgs ++ [user_text (PyStr.strip text)])
    | None => Raise
    end.
Proof.
  intros Hrole Hcontent Hany.
  unfold convert_message. rewrite Hcontent, Hrole, Hany.
  rewrite tool_result_text_rendered.
  destruct (rendered_blocks blocks); reflexivity.
Qed.

(** The conversion of the request returns when that of its messages does. *)
Lemma convert_returns (USE_OPENAI_MODELS : bool) (req : MessagesRequest)
  (msgs : list OutMessage) :
  convert_messages (messages req) (system_messages (system req)) = Return msgs ->
  exists out,
    convert_anthropic_to_litellm USE_OPENAI_MODELS req = Return out
    /\ lr_messages out = msgs
    /\ lr_max_tokens out = capped_max_tokens USE_OPENAI_MODELS req
    /\ lr_reasoning_effort out = reasoning_effort_of req.
Proof.
  intros Hm. unfold convert_anthropic_to_litellm. rewrite Hm.
  eexists. repeat split.
Qed.

(** C7. For a model of the OpenAI family the downstream [max_tokens] is
    the minimum of the requested one and 16384: at most 16384 passes, and
    100000 gives 16384. *)
Theorem max_tokens_capped (USE_OPENAI_MODELS : bool) (req : MessagesRequest)
  (msgs : list OutMessage) :
  PyStr.startswith (model req) "openai/" = true ->
  convert_messages (messages req) (system_messages (system req)) = Return msgs ->
  exists out,
    convert_anthropic_to_litellm USE_OPENAI_MODELS req = Return out
    /\ lr_max_tokens out = Z.min (max_tokens req) 16384
    /\ ((max_tokens req <= 16384)%Z -> lr_max_tokens out = max_tokens req)
    /\ (max_tokens req = 100000%Z -> lr_max_tokens out = 16384%Z).
Proof.
  intros Hmodel Hm.
  destruct (convert_returns USE_OPENAI_MODELS req msgs Hm) as [out [Hout [_ [Hcap _]]]].
  exists out. split; [exact Hout|].
  unfold capped_max_tokens in Hcap. rewrite Hmodel in Hcap. simpl in Hcap.
  rewrite Hcap. repeat split; lia.
Qed.

(** C8, as amended. A reasoning effort of the caller that is not the
    empty string is copied as it is; without one, or with the empty
    string, the request gets ["high"] if and only if the model name
    without its provider prefix contains ["o3-"] or ["o1"], and no
    reasoning effort otherwise. *)
Theorem reasoning_effort_forwarded (USE_OPENAI_MODELS : bool)
  (req : MessagesRequest) (msgs : list OutMessage) :
  convert_messages (messages req) (system_messages (system req)) = Return msgs ->
  exists out,
    convert_anthropic_to_litellm USE_OPENAI_MODELS req = Return out
    /\ (forall v, reasoning_effort req = Some v -> v <> EmptyString ->
          lr_reasoning_effort out = Some v)
    /\ (reasoning_effort req = None \/ reasoning_effort req = Some EmptyString ->
        let clean_model := clean_model_of (model req) in
        lr_reasoning_effort out
        = if PyStr.contains "o3-" clean_model || PyStr.contains "o1" clean_model
          then Some "high" else None).
Proof.
  intros Hm.
  destruct (convert_returns USE_OPENAI_MODELS req msgs Hm) as [out [Hout [_ [_ Heff]]]].
  exists out. split; [exact Hout|]. rewrite Heff. unfold reasoning_effort_of.
  split.
  - intros v Hv Hne. rewrite Hv. destruct v; [contradiction|reflexivity].
  - intros [Hnone|Hempty]; [rewrite Hnone|rewrite Hempty]; simpl;
      destruct (_ || _); reflexivity.
Qed.

End RequestMapperProperties.

(** Scenario C: the request of the one user message [tool_result_42]
    gives one downstream message, of content ["Tool result for t1:\n42"]. *)
Example scenario_C :
  exists out,
    convert_anthropic_to_litellm (L := ref_lib) true
      (request_of "openai/gpt-4o" 1024 [tool_result_42] None) = Return out
    /\ lr_messages out = [user_text ("Tool result for t1:" +++ NL +++ "42")].
Proof. eexists. split; reflexivity. Qed.

(** The amended C6 on the message [tool_result_42]. *)
Lemma tool_result_message_witness :
  convert_message (L := ref_lib) [] tool_result_42
  = Return [user_text ("Tool result for t1:" +++ NL +++ "42")].
Proof.
  exact (tool_result_message (L := ref_lib) [] tool_result_42
           [ContentBlockToolResult "t1" (PStr "42")]
           eq_refl eq_refl eq_refl).
Defined.

(** The amended C6 on tool results whose content is no string: a list
    of a text item, a string and a dict; a number; and [None]. *)
Example tool_results_of_other_types :
  convert_message (L := ref_lib) []
    {| role := user;
       content :=
         ContentBlocks
           [ContentBlockToolResult "t1"
              (PList [PDict [("type", PStr "text"); ("text", PStr "a")];
                      PStr "skipped"; PDict [("k", PInt 1)]]);
            ContentBlockToolResult "t2" (PInt 42);
            ContentBlockToolResult "t3" PNone] |}
  = Return
      [user_text ("Tool result for t1:" +++ NL +++ "a" +++ NL
                  +++ "{" +++ CPython.str1 CPython.dquote +++ "k"
                  +++ CPython.str1 CPython.dquote +++ ": 1}" +++ NL +++ NL
                  +++ "Tool result for t2:" +++ NL +++ "42" +++ NL
                  +++ "Tool result for t3:" +++ NL +++ "None")].
Proof. reflexivity. Qed.

(** C6, as stated, fails on the message of the text block ["a"] and the
    tool result of ["t1"]: the content served separates the two by a line
    feed, which the concatenation of the claim does not have. *)
Lemma tool_result_message_not_plain_concatenation :
  convert_message (L := ref_lib) [] text_and_tool_result
  = Return [user_text ("a" +++ NL +++ "Tool result for t1:" +++ NL +++ "42")]
  /\ claimed_content (L := ref_lib)
       [ContentBlockText "a"; ContentBlockToolResult "t1" (PStr "42")]
     = Return ("a" +++ "Tool result for t1:" +++ NL +++ "42")
  /\ ~ (forall (L : PyLib) (msgs : list OutMessage) (msg : Message)
               (blocks : list ContentBlock) (text : string),
          role msg = user ->
          content msg = ContentBlocks blocks ->
          existsb is_tool_result blocks = true ->
          claimed_content blocks = Return text ->
          convert_message msgs msg = Return (msgs ++ [user_text text])).
Proof.
  repeat split.
  intros Hall.
  specialize (Hall ref_lib [] text_and_tool_result _ _
                eq_refl eq_refl eq_refl eq_refl).
  vm_compute in Hall. discriminate Hall.
Qed.

(** Scenario D: [max_tokens] 100000 for an OpenAI model gives 16384. *)
Lemma max_tokens_capped_witness :
  exists out,
    convert_anthropic_to_litellm (L := ref_lib) false
      (request_of "openai/gpt-4o" 100000 [tool_result_42] None) = Return out
    /\ lr_max_tokens out = 16384%Z.
Proof.
  destruct (max_tokens_capped (L := ref_lib) false
              (request_of "openai/gpt-4o" 100000 [tool_result_42] None)
              _ eq_refl eq_refl) as [out [Hout [_ [_ Hcap]]]].
  exists out. split; [exact Hout|]. exact (Hcap eq_refl).
Defined.

(** The amended C8 on a request for [openai/gpt-4o] with the reasoning
    effort ["low"]. *)
Lemma reasoning_effort_forwarded_witness :
  exists out,
    convert_anthropic_to_litellm (L := ref_lib) true
      (request_of "openai/gpt-4o" 1024 [] (Some "low")) = Return out
    /\ lr_reasoning_effort out = Some "low".
Proof.
  destruct (reasoning_effort_forwarded (L := ref_lib) true
              (request_of "openai/gpt-4o" 1024 [] (Some "low")) _ eq_refl)
    as [out [Hout [Hcopy _]]].
  exists out. split; [exact Hout|].
  apply Hcopy; [reflexivity|discriminate].
Defined.

(** C8, as stated, fails on the empty reasoning effort: for the model
    [openai/o1-mini] the request gets ["high"], not the value of the
    caller. *)
Lemma empty_reasoning_effort_not_forwarded :
  (exists out,
     convert_anthropic_to_litellm (L := ref_lib) true
       (request_of "openai/o1-mini" 1024 [] (Some EmptyString)) = Return out
     /\ lr_reasoning_effort out = Some "high")
  /\ ~ (forall (L : PyLib) (USE_OPENAI_MODELS : bool) (req : MessagesRequest)
               (v : string) (out : LiteLLMRequest),
          reasoning_effort req = Some v ->
          convert_anthropic_to_litellm USE_OPENAI_MODELS req = Return out ->
          lr_reasoning_effort out = Some v).
Proof.
  split.
  - eexists. split; reflexivity.
  - intros Hall.
    specialize (Hall ref_lib true
                  (request_of "openai/o1-mini" 1024 [] (Some EmptyString))
                  EmptyString _ eq_refl eq_refl).
    discriminate Hall.
Qed.

(** The models the default reasoning effort is for. *)
Example reasoning_models :
  reasoning_effort_of (request_of "openai/o3-mini" 1 [] None) = Some "high"
  /\ reasoning_effort_of (request_of "openai/o1" 1 [] None) = Some "high"
  /\ reasoning_effort_of (request_of "openai/gpt-4o" 1 [] None) = None
  /\ reasoning_effort_of (request_of "anthropic/claude-3-haiku" 1 [] None) = None.
Proof. repeat split. Qed.

(** ** ResponseMapper *)

Section ResponseMapperProperties.

Context {L : PyLib}.














End ResponseMapperProperties.


(** The whole response of scenario E. *)
Example scenario_E :
  convert_litellm_to_anthropic (L := ref_lib)
    (response_of None [bad_json_call] (Some "tool_calls"))
    (request_of "anthropic/claude-3-opus-20240229" 1024 [] None)
  = Return
      {| mr_id := GivenId "chatcmpl-1";
         mr_model := "anthropic/claude-3-opus-20240229";
         mr_content := [ToolUseBlock (GivenId "call_1") (Some "search")
                          (PDict [("raw", PStr "{bad json")])];
         mr_stop_reason := "tool_use";
         mr_input_tokens := 10;
         mr_output_tokens := 5 |}.
Proof. reflexivity. Qed.

(** C5, as stated, fails on arguments that are no JSON document and make
    [json.loads] raise an exception other than [json.JSONDecodeError]:
    on 1000 opening brackets the scanner raises a [RecursionError],
    which the mapper does not catch, and the conversion fails. *)
Lemma deep_arguments_not_kept :
  @json_loads ref_lib (repeat_char "["%char 1000) = OtherException
  /\ convert_litellm_to_anthropic (L := ref_lib)
       (response_of None [deep_json_call] (Some "tool_calls"))
       (request_of "anthropic/claude-3-opus-20240229" 1024 [] None)
     = Raise
  /\ ~ (forall (L : PyLib) (resp : LiteLLMResponse) (req : MessagesRequest)
               (c : Choice) (rest : list Choice) (i : nat) (tc : ToolCall)
               (s : string),
          PyStr.startswith (clean_model_of (model req)) "claude-" = true ->
          choices resp = c :: rest ->
          nth_error (rm_tool_calls (ch_message c)) i = Some tc ->
          tc_function_arguments tc = Some (PStr s) ->
          (forall v, json_loads s <> Loaded v) ->
          exists out id name,
            convert_litellm_to_anthropic resp req = Return out
            /\ In (ToolUseBlock id name (PDict [("raw", PStr s)]))
                 (mr_content out)).
Proof.
  assert (Hloads : @json_loads ref_lib (repeat_char "["%char 1000)
                   = OtherException) by (vm_compute; reflexivity).
  assert (Hraise : convert_litellm_to_anthropic (L := ref_lib)
                     (response_of None [deep_json_call] (Some "tool_calls"))
                     (request_of "anthropic/claude-3-opus-20240229" 1024 [] None)
                   = Raise) by (vm_compute; reflexivity).
  split; [exact Hloads|]. split; [exact Hraise|].
  intros Hall.
  destruct (Hall ref_lib
              (response_of None [deep_json_call] (Some "tool_calls"))
              (request_of "anthropic/claude-3-opus-20240229" 1024 [] None)
              _ [] 0 deep_json_call (repeat_char "["%char 1000)
              eq_refl eq_refl eq_refl eq_refl)
    as (out & id & name & Hout & _).
  - intros v Hv. rewrite Hloads in Hv. discriminate Hv.
  - rewrite Hraise in Hout. discriminate Hout.
Qed.

(** ** StreamTranscoder *)

(** *** Rules for the pieces of the generator *)

Section Transcoder1.

Context {L : PyLib}.

Section GenRules.

Variable I : StreamState -> Prop.
Variable P : Event -> Prop.

Lemma triple_ret {A : Type} (a : A) (Q : A -> Prop) :
  Q a -> triple I P (ret a) Q.
Proof.
  intros Ha st Hst. repeat split; simpl; auto.
  intros b Hb. injection Hb as <-. exact Ha.
Qed.

Lemma triple_bind {A B : Type} (m : Gen A) (f : A -> Gen B)
  (Q : A -> Prop) (R : B -> Prop) :
  triple I P m Q ->
  (forall a, Q a -> triple I P (f a) R) ->
  triple I P (bind m f) R.
Proof.
  intros Hm Hf st Hst. unfold bind.
  destruct (Hm st Hst) as [Hev [Hinv Hval]].
  destruct (m st) as [[evs st1] fl]. simpl in Hev, Hinv, Hval.
  destruct fl as [a| |]; simpl.
  - destruct (Hf a (Hval a eq_refl) st1 Hinv) as [Hev' [Hinv' Hval']].
    destruct (f a st1) as [[evs' st2] fl']. simpl in *.
    repeat split; auto. apply Forall_app. split; assumption.
  - repeat split; auto. discriminate.
  - repeat split; auto. discriminate.
Qed.

Lemma triple_weaken {A : Type} (m : Gen A) (Q Q' : A -> Prop) :
  triple I P m Q -> (forall a, Q a -> Q' a) -> triple I P m Q'.
Proof.
  intros Hm Hq st Hst. destruct (Hm st Hst) as [Hev [Hinv Hval]].
  repeat split; auto.
Qed.

Lemma triple_yield (e : Event) : P e -> triple I P (yield e) anything.
Proof.
  intros He st Hst. repeat split; simpl; auto.
  constructor; [exact He|constructor].
Qed.

Lemma triple_get : triple I P get I.
Proof.
  intros st Hst. repeat split; simpl; auto.
  intros a Ha. injection Ha as <-. exact Hst.
Qed.

Lemma triple_modify (f : StreamState -> StreamState) :
  (forall st, I st -> I (f st)) -> triple I P (modify f) anything.
Proof.
  intros Hf st Hst. repeat split; simpl; auto.
  apply Hf, Hst.
Qed.

Lemma triple_raise {A : Type} (Q : A -> Prop) : triple I P raise Q.
Proof. intros st Hst. repeat split; simpl; auto. discriminate. Qed.

Lemma triple_return {A : Type} (Q : A -> Prop) : triple I P return_ Q.
Proof. intros st Hst. repeat split; simpl; auto. discriminate. Qed.

Lemma triple_when (b : bool) (m : Gen unit) :
  triple I P m anything -> triple I P (when_ b m) anything.
Proof.
  intros Hm. destruct b; simpl; [exact Hm|]. now apply triple_ret.
Qed.

Lemma triple_for_each {A : Type} (l : list A) (body : A -> Gen unit) :
  (forall x, triple I P (body x) anything) ->
  triple I P (for_each l body) anything.
Proof.
  intros Hbody. induction l as [|x r IH]; simpl.
  - now apply triple_ret.
  - eapply triple_bind; [apply Hbody|]. intros _ _. exact IH.
Qed.

End GenRules.

Lemma goes_on_ret {A : Type} (a : A) : goes_on (ret a).
Proof. intros st. discriminate. Qed.

Lemma goes_on_bind {A B : Type} (m : Gen A) (f : A -> Gen B) :
  goes_on m -> (forall a, goes_on (f a)) -> goes_on (bind m f).
Proof.
  intros Hm Hf st. unfold bind. specialize (Hm st).
  destruct (m st) as [[evs st1] fl]. simpl in Hm.
  destruct fl as [a| |]; simpl; try discriminate; [|contradiction].
  specialize (Hf a st1). destruct (f a st1) as [[evs' st2] fl']. exact Hf.
Qed.

Lemma goes_on_yield (e : Event) : goes_on (yield e).
Proof. intros st. discriminate. Qed.

Lemma goes_on_get : goes_on get.
Proof. intros st. discriminate. Qed.

Lemma goes_on_modify (f : StreamState -> StreamState) : goes_on (modify f).
Proof. intros st. discriminate. Qed.

Lemma goes_on_raise {A : Type} : goes_on (@raise A).
Proof. intros st. discriminate. Qed.

Lemma goes_on_when (b : bool) (m : Gen unit) : goes_on m -> goes_on (when_ b m).
Proof. intros Hm. destruct b; simpl; [exact Hm|apply goes_on_ret]. Qed.

Lemma goes_on_for_each {A : Type} (l : list A) (body : A -> Gen unit) :
  (forall x, goes_on (body x)) -> goes_on (for_each l body).
Proof.
  intros Hbody. induction l as [|x r IH]; simpl.
  - apply goes_on_ret.
  - apply goes_on_bind; [apply Hbody|]. intros _. exact IH.
Qed.

Lemma triple_seq (I : StreamState -> Prop) (P : Event -> Prop)
  {A : Type} (m : Gen A) (k : Gen unit) :
  triple I P m anything -> triple I P k anything ->
  triple I P (bind m (fun _ => k)) anything.
Proof.
  intros Hm Hk. eapply triple_bind; [exact Hm|]. intros _ _. exact Hk.
Qed.

Lemma triple_bind_get (I : StreamState -> Prop) (P : Event -> Prop)
  {B : Type} (f : StreamState -> Gen B) (R : B -> Prop) :
  (forall st, I st -> triple I P (f st) R) -> triple I P (bind get f) R.
Proof.
  intros Hf. eapply triple_bind; [apply triple_get|]. exact Hf.
Qed.

Lemma anything_holds {A : Type} (a : A) : anything a.
Proof. exact Logic.I. Qed.

(** The rules, applied along the structure of a piece; what is left are
    the events it yields and the assignments it makes. *)
End Transcoder1.

Ltac gen_triple :=
  repeat
    match goal with
    | |- triple _ _ (bind get _) _ => apply triple_bind_get; intros ? ?
    | |- triple _ _ (bind _ (fun _ => _)) _ => apply triple_seq
    | |- triple _ _ (ret _) _ => apply triple_ret, anything_holds
    | |- triple _ _ raise _ => apply triple_raise
    | |- triple _ _ return_ _ => apply triple_return
    | |- triple _ _ (when_ _ _) _ => apply triple_when
    | |- triple _ _ (for_each _ _) _ => apply triple_for_each; intros ?
    | |- triple _ _ (yield _) _ => apply triple_yield
    | |- triple _ _ (modify _) _ => apply triple_modify; intros ? ?
    | |- triple _ _ (if ?b then _ else _) _ => destruct b
    | |- triple _ _ (match ?x with _ => _ end) _ => destruct x
    end.

Ltac gen_goes_on :=
  repeat
    match goal with
    | |- goes_on (bind _ _) => apply goes_on_bind; [|intros ?]
    | |- goes_on (ret _) => apply goes_on_ret
    | |- goes_on raise => apply goes_on_raise
    | |- goes_on get => apply goes_on_get
    | |- goes_on (when_ _ _) => apply goes_on_when
    | |- goes_on (for_each _ _) => apply goes_on_for_each; intros ?
    | |- goes_on (yield _) => apply goes_on_yield
    | |- goes_on (modify _) => apply goes_on_modify
    | |- goes_on (if ?b then _ else _) => destruct b
    | |- goes_on (match ?x with _ => _ end) => destruct x
    end.

(** *** The pieces before the finish reason *)

Section Transcoder2.

Context {L : PyLib}.

Lemma update_usage_goes_on (chunk : Chunk) : goes_on (update_usage chunk).
Proof. unfold update_usage. gen_goes_on. Qed.

Lemma handle_text_goes_on (delta_content : DeltaContent) :
  goes_on (handle_text delta_content).
Proof. unfold handle_text. gen_goes_on. Qed.

Lemma handle_tool_calls_goes_on (delta_tool_calls : list ToolCallDelta) :
  goes_on (handle_tool_calls delta_tool_calls).
Proof.
  unfold handle_tool_calls, close_text_block, handle_tool_call,
    start_tool_block, send_arguments. gen_goes_on.
Qed.

(** Before the finish reason no terminal event is yielded, and
    [has_sent_stop_reason] is not assigned. *)
Lemma update_usage_quiet (chunk : Chunk) :
  triple not_sent not_terminal (update_usage chunk) anything.
Proof. unfold update_usage. gen_triple; assumption. Qed.

Lemma handle_text_quiet (delta_content : DeltaContent) :
  triple not_sent not_terminal (handle_text delta_content) anything.
Proof. unfold handle_text. gen_triple; solve [assumption | reflexivity]. Qed.

Lemma handle_tool_calls_quiet (delta_tool_calls : list ToolCallDelta) :
  triple not_sent not_terminal (handle_tool_calls delta_tool_calls) anything.
Proof.
  unfold handle_tool_calls, close_text_block, handle_tool_call,
    start_tool_block, send_arguments.
  gen_triple; solve [assumption | reflexivity].
Qed.

(** *** Running the pieces *)

Lemma prepend_nil {A : Type} (r : list Event * StreamState * Flow A) :
  prepend [] r = r.
Proof. destruct r as [[evs st] fl]. reflexivity. Qed.

Lemma bind_next {A B : Type} (m : Gen A) (f : A -> Gen B) (st st1 : StreamState)
  (evs : list Event) (a : A) :
  m st = (evs, st1, Next a) -> bind m f st = prepend evs (f a st1).
Proof.
  intros Hm. unfold bind. rewrite Hm.
  destruct (f a st1) as [[evs' st2] fl]. reflexivity.
Qed.

Lemma bind_raised {A B : Type} (m : Gen A) (f : A -> Gen B) (st st1 : StreamState)
  (evs : list Event) :
  m st = (evs, st1, Raised) -> bind m f st = (evs, st1, Raised).
Proof. intros Hm. unfold bind. now rewrite Hm. Qed.

Lemma bind_returned {A B : Type} (m : Gen A) (f : A -> Gen B) (st st1 : StreamState)
  (evs : list Event) :
  m st = (evs, st1, Returned) -> bind m f st = (evs, st1, Returned).
Proof. intros Hm. unfold bind. now rewrite Hm. Qed.

Lemma bind_get {B : Type} (f : StreamState -> Gen B) (st : StreamState) :
  bind get f st = f st st.
Proof. rewrite (bind_next get f st st [] st eq_refl). apply prepend_nil. Qed.

Lemma bind_modify {B : Type} (g : StreamState -> StreamState) (f : unit -> Gen B)
  (st : StreamState) :
  bind (modify g) f st = f tt (g st).
Proof.
  rewrite (bind_next (modify g) f st (g st) [] tt eq_refl).
  apply prepend_nil.
Qed.

Lemma bind_yield {B : Type} (e : Event) (f : unit -> Gen B) (st : StreamState) :
  bind (yield e) f st = prepend [e] (f tt st).
Proof. now apply bind_next. Qed.

Lemma bind_ret {A B : Type} (a : A) (f : A -> Gen B) (st : StreamState) :
  bind (ret a) f st = f a st.
Proof.
  rewrite (bind_next (ret a) f st st [] a eq_refl).
  apply prepend_nil.
Qed.

Lemma prepend_prepend {A : Type} (evs evs' : list Event)
  (r : list Event * StreamState * Flow A) :
  prepend evs (prepend evs' r) = prepend (evs ++ evs') r.
Proof.
  destruct r as [[evs0 st] fl]. unfold prepend, events_of, state_of, flow_of.
  simpl. now rewrite <- app_assoc.
Qed.

Lemma prepend_tuple {A : Type} (evs evs' : list Event) (st : StreamState)
  (fl : Flow A) :
  prepend evs (evs', st, fl) = (evs ++ evs', st, fl).
Proof. reflexivity. Qed.

Lemma yield_run (e : Event) (st : StreamState) : yield e st = ([e], st, Next tt).
Proof. reflexivity. Qed.

Lemma ret_run {A : Type} (a : A) (st : StreamState) : ret a st = ([], st, Next a).
Proof. reflexivity. Qed.

(** The monad laws that evaluate a piece on a state. *)
End Transcoder2.

Ltac gen_run :=
  repeat first
    [ rewrite bind_get
    | rewrite yield_run
    | rewrite ret_run
    | rewrite bind_modify
    | rewrite bind_yield
    | rewrite bind_ret
    | rewrite prepend_prepend
    | rewrite prepend_tuple
    | rewrite prepend_nil ].

(** Lists of events, with their appends to the right and evaluated. *)
Ltac app_norm := repeat rewrite <- app_assoc; simpl; rewrite ?app_nil_r.

(** *** The closing sequences *)

Section Transcoder3.

Context {L : PyLib}.

Lemma for_each_yield {A : Type} (f : A -> Event) (l : list A) (st : StreamState) :
  for_each l (fun x => yield (f x)) st = (map f l, st, Next tt).
Proof.
  induction l as [|x r IH]; simpl; [reflexivity|].
  rewrite bind_yield, IH. reflexivity.
Qed.

Lemma close_tool_blocks_run (st : StreamState) :
  close_tool_blocks st = (tool_stops st, st, Next tt).
Proof.
  unfold close_tool_blocks, tool_stops. rewrite bind_get.
  destruct (is_none (tool_index st)); simpl; [reflexivity|].
  apply for_each_yield.
Qed.

(** A finish reason, the first of the stream: the blocks are closed, the
    stop reason and the terminal events are yielded, and the generator
    returns. *)
Lemma handle_finish_fires (fr : string) (st : StreamState) :
  PyStr.truthy fr = true ->
  has_sent_stop_reason st = false ->
  handle_finish (Some fr) st
  = (tool_stops st ++ text_flush st
       ++ [MessageDelta (stream_stop_reason fr) None (output_tokens st);
           MessageStop; Done],
     set_has_sent_stop_reason true st, Returned).
Proof.
  intros Hfr Hsent. unfold handle_finish.
  rewrite bind_get, Hfr, Hsent. change (true && negb false) with true.
  cbv iota. rewrite bind_modify.
  rewrite (bind_next _ _ _ _ _ _ (close_tool_blocks_run _)).
  assert (Hts : tool_stops (set_has_sent_stop_reason true st) = tool_stops st)
    by reflexivity.
  rewrite Hts. unfold text_flush.
  destruct (text_block_closed st); simpl negb; cbv iota; unfold when_.
  - gen_run. unfold return_. gen_run. app_norm. reflexivity.
  - destruct (PyStr.truthy (accumulated_text st) && negb (text_sent st));
      gen_run; unfold return_; gen_run; app_norm; reflexivity.
Qed.

(** No finish reason, or one that comes after the first: nothing happens. *)
Lemma handle_finish_skips (finish_reason : option string) (st : StreamState) :
  match finish_reason with
  | Some fr => PyStr.truthy fr && negb (has_sent_stop_reason st)
  | None => false
  end = false ->
  handle_finish finish_reason st = ([], st, Next tt).
Proof.
  intros Hskip. unfold handle_finish. rewrite bind_get.
  destruct finish_reason as [fr|]; [|reflexivity].
  rewrite Hskip. reflexivity.
Qed.

(** The end of the downstream iterator without a finish reason. *)
Lemma close_stream_run (st : StreamState) :
  has_sent_stop_reason st = false ->
  close_stream st
  = (tool_stops st
       ++ [ContentBlockStop 0;
           MessageDelta "end_turn" None (output_tokens st);
           MessageStop; Done],
     st, Next tt).
Proof.
  intros Hsent. unfold close_stream.
  rewrite bind_get, Hsent. simpl negb. unfold when_.
  rewrite (bind_next _ _ _ _ _ _ (close_tool_blocks_run _)).
  gen_run. app_norm. reflexivity.
Qed.

(** *** One terminal sequence *)

Lemma terminated_app (evs evs' : list Event) :
  Forall not_terminal evs -> terminated evs' -> terminated (evs ++ evs').
Proof.
  intros Hevs (pre & sr & em & ot & -> & Hpre).
  exists (evs ++ pre), sr, em, ot. split.
  - now rewrite app_assoc.
  - apply Forall_app. split; assumption.
Qed.

Lemma closes_quiet {A : Type} (m : Gen A) :
  triple not_sent not_terminal m anything -> goes_on m ->
  closes_at_most_once m.
Proof.
  intros Hm Hgo st Hst. destruct (Hm st Hst) as [Hev [Hinv _]].
  specialize (Hgo st). destruct (flow_of (m st)); auto. contradiction.
Qed.

Lemma closes_bind {A B : Type} (m : Gen A) (f : A -> Gen B) :
  triple not_sent not_terminal m anything -> goes_on m ->
  (forall a, closes_at_most_once (f a)) ->
  closes_at_most_once (bind m f).
Proof.
  intros Hm Hgo Hf st Hst. destruct (Hm st Hst) as [Hev [Hinv _]].
  specialize (Hgo st). unfold bind.
  destruct (m st) as [[evs st1] fl]. simpl in Hev, Hinv, Hgo.
  destruct fl as [a| |]; simpl; auto; [|contradiction].
  specialize (Hf a st1 Hinv).
  destruct (f a st1) as [[evs' st2] fl']. simpl in *.
  destruct fl'.
  - destruct Hf as [Hev' Hinv']. split; [|exact Hinv'].
    apply Forall_app. split; assumption.
  - destruct Hf as [Hev' Hinv']. split; [|exact Hinv'].
    apply Forall_app. split; assumption.
  - now apply terminated_app.
Qed.

Lemma tool_stops_not_terminal (st : StreamState) :
  Forall not_terminal (tool_stops st).
Proof.
  unfold tool_stops. destruct (is_none (tool_index st)); [constructor|].
  apply Forall_forall. intros e He. apply in_map_iff in He as [i [<- _]].
  reflexivity.
Qed.

Lemma text_flush_not_terminal (st : StreamState) :
  Forall not_terminal (text_flush st).
Proof.
  unfold text_flush. destruct (text_block_closed st); [constructor|].
  destruct (_ && _); repeat constructor.
Qed.

Lemma handle_finish_closes (finish_reason : option string) :
  closes_at_most_once (handle_finish finish_reason).
Proof.
  intros st Hst.
  destruct (match finish_reason with
            | Some fr => PyStr.truthy fr && negb (has_sent_stop_reason st)
            | None => false
            end) eqn:Hfire.
  - destruct finish_reason as [fr|]; [|discriminate].
    apply andb_prop in Hfire as [Hfr _].
    rewrite (handle_finish_fires fr st Hfr Hst). simpl.
    exists (tool_stops st ++ text_flush st), (stream_stop_reason fr), None,
      (output_tokens st).
    split; [now rewrite <- app_assoc|].
    apply Forall_app. split;
      [apply tool_stops_not_terminal|apply text_flush_not_terminal].
  - rewrite (handle_finish_skips finish_reason st Hfire). simpl.
    split; [constructor|exact Hst].
Qed.

Lemma process_chunk_closes (chunk : Chunk) :
  closes_at_most_once (process_chunk chunk).
Proof.
  unfold process_chunk.
  apply closes_bind;
    [apply update_usage_quiet|apply update_usage_goes_on|intros _].
  destruct (ck_choices chunk) as [| |[|choice rest]].
  - apply closes_quiet; [gen_triple|gen_goes_on].
  - apply closes_quiet; [gen_triple|gen_goes_on].
  - apply closes_quiet; [gen_triple|gen_goes_on].
  - apply closes_bind;
      [apply handle_text_quiet|apply handle_text_goes_on|intros _].
    apply closes_bind;
      [apply handle_tool_calls_quiet|apply handle_tool_calls_goes_on|intros _].
    apply handle_finish_closes.
Qed.

Lemma error_events_terminated (e : string) : terminated (error_events e).
Proof.
  exists [], "error", (Some (user_message_of e)), 0%Z. split; [reflexivity|constructor].
Qed.

Lemma consume_terminated (chunks : list Chunk) (finally : StreamEnd) :
  forall st, not_sent st -> terminated (consume chunks finally st).
Proof.
  induction chunks as [|chunk rest IH]; intros st Hst; simpl.
  - destruct finally as [|e]; [|apply error_events_terminated].
    rewrite (close_stream_run st Hst). simpl.
    exists (tool_stops st ++ [ContentBlockStop 0]), "end_turn", None,
      (output_tokens st).
    split; [now rewrite <- app_assoc|].
    apply Forall_app. split; [apply tool_stops_not_terminal|].
    repeat constructor.
  - pose proof (process_chunk_closes chunk st Hst) as Hc.
    destruct (process_chunk chunk st) as [[evs st1] fl]. simpl in Hc.
    destruct fl; [| |exact Hc]; destruct Hc as [Hev Hinv];
      apply terminated_app; auto.
Qed.

Lemma count_app (p : Event -> bool) (evs evs' : list Event) :
  count p (evs ++ evs') = count p evs + count p evs'.
Proof. unfold count. now rewrite filter_app, length_app. Qed.

Lemma count_not_terminal (evs : list Event) :
  Forall not_terminal evs ->
  count is_message_stop evs = 0 /\ count is_done evs = 0.
Proof.
  induction 1 as [|e evs He _ [IH1 IH2]]; [split; reflexivity|].
  unfold not_terminal, is_terminal in He.
  apply orb_false_elim in He as [He1 He2].
  unfold count in *. simpl. rewrite He1, He2. split; assumption.
Qed.

(** C2. Over every sequence of chunks, however the downstream iterator
    ends, the generator yields exactly one [message_stop] and exactly one
    sentinel, and they are its last two events. *)
Theorem single_terminal (chunks : list Chunk) (finally : StreamEnd)
  (original_request : MessagesRequest) :
  count is_message_stop (handle_streaming chunks finally original_request) = 1
  /\ count is_done (handle_streaming chunks finally original_request) = 1
  /\ exists pre,
       handle_streaming chunks finally original_request
       = pre ++ [MessageStop; Done].
Proof.
  unfold handle_streaming.
  destruct (consume_terminated chunks finally initial_state eq_refl)
    as (pre & sr & em & ot & -> & Hpre).
  destruct (count_not_terminal pre Hpre) as [Hstop Hdone].
  rewrite !count_app, Hstop, Hdone. repeat split.
  exists ([MessageStart (model original_request); ContentBlockStart 0 StartText; Ping]
            ++ pre ++ [MessageDelta sr em ot]).
  now rewrite <- !app_assoc.
Qed.

(** *** Text after the first tool call *)

Lemma runs_ret : runs (ret tt).
Proof. intros st. reflexivity. Qed.

Lemma runs_bind (m k : Gen unit) : runs m -> runs k -> runs (bind m (fun _ => k)).
Proof.
  intros Hm Hk st. unfold bind. specialize (Hm st).
  destruct (m st) as [[evs st1] fl]. simpl in Hm. subst fl.
  specialize (Hk st1). destruct (k st1) as [[evs' st2] fl']. exact Hk.
Qed.

Lemma runs_bind_get (f : StreamState -> Gen unit) :
  (forall st, runs (f st)) -> runs (bind get f).
Proof. intros Hf st. rewrite bind_get. apply Hf. Qed.

Lemma runs_yield (e : Event) : runs (yield e).
Proof. intros st. reflexivity. Qed.

Lemma runs_modify (f : StreamState -> StreamState) : runs (modify f).
Proof. intros st. reflexivity. Qed.

Lemma runs_when (b : bool) (m : Gen unit) : runs m -> runs (when_ b m).
Proof. intros Hm. destruct b; [exact Hm|apply runs_ret]. Qed.

End Transcoder3.

Ltac gen_runs :=
  repeat
    match goal with
    | |- runs (bind get _) => apply runs_bind_get; intros ?
    | |- runs (bind _ (fun _ => _)) => apply runs_bind
    | |- runs (ret tt) => apply runs_ret
    | |- runs (when_ _ _) => apply runs_when
    | |- runs (yield _) => apply runs_yield
    | |- runs (modify _) => apply runs_modify
    | |- runs (if ?b then _ else _) => destruct b
    | |- runs (match ?x with _ => _ end) => destruct x
    end.

Section Transcoder4.

Context {L : PyLib}.

Lemma update_usage_runs (chunk : Chunk) : runs (update_usage chunk).
Proof. unfold update_usage. gen_runs. Qed.

Lemma close_text_block_runs : runs close_text_block.
Proof. unfold close_text_block. gen_runs. Qed.

(** A text that is a string, or no text, does not raise. *)
Lemma handle_text_runs (delta_content : DeltaContent) :
  delta_content <> OtherContent -> runs (handle_text delta_content).
Proof.
  intros Hc. unfold handle_text. destruct delta_content; [| |contradiction];
    gen_runs.
Qed.

Lemma bind_runs {B : Type} (m : Gen unit) (f : unit -> Gen B) (st : StreamState) :
  runs m ->
  bind m f st = prepend (events_of (m st)) (f tt (state_of (m st))).
Proof.
  intros Hm. specialize (Hm st).
  destruct (m st) as [[evs st1] fl] eqn:Hrun. simpl in Hm. subst fl.
  now rewrite (bind_next m f st st1 evs tt Hrun).
Qed.

Lemma triple_state {A : Type} (I : StreamState -> Prop) (P : Event -> Prop)
  (m : Gen A) (Q : A -> Prop) (st : StreamState) :
  triple I P m Q -> I st -> I (state_of (m st)).
Proof. intros Hm Hst. apply (Hm st Hst). Qed.

Lemma triple_events {A : Type} (I : StreamState -> Prop) (P : Event -> Prop)
  (m : Gen A) (Q : A -> Prop) (st : StreamState) :
  triple I P m Q -> I st -> Forall P (events_of (m st)).
Proof. intros Hm Hst. apply (Hm st Hst). Qed.

(** The invariant [closed_by_tools] of the loop *)

Lemma update_usage_closed_by_tools (chunk : Chunk) :
  triple closed_by_tools anything (update_usage chunk) anything.
Proof.
  unfold update_usage. gen_triple; solve [assumption | exact Logic.I].
Qed.

Lemma handle_text_closed_by_tools (delta_content : DeltaContent) :
  triple closed_by_tools anything (handle_text delta_content) anything.
Proof.
  unfold handle_text. gen_triple; solve [assumption | exact Logic.I].
Qed.

Lemma handle_finish_closed_by_tools (finish_reason : option string) :
  triple closed_by_tools anything (handle_finish finish_reason) anything.
Proof.
  unfold handle_finish, close_tool_blocks.
  gen_triple; solve [assumption | exact Logic.I].
Qed.

(** The loop over the tool calls keeps the text block closed. *)
Lemma tool_loop_closed (P : Event -> Prop) (delta_tool_calls : list ToolCallDelta) :
  (forall e, is_text_delta e = false -> P e) ->
  triple closed P (for_each delta_tool_calls handle_tool_call) anything.
Proof.
  intros HP. unfold handle_tool_call, start_tool_block, send_arguments.
  gen_triple; solve [assumption | apply HP; reflexivity].
Qed.

(** The first tool call leaves the text block closed. *)
Lemma close_text_block_closes (st : StreamState) :
  closed (state_of (close_text_block st)).
Proof.
  unfold close_text_block. rewrite bind_get.
  destruct (text_sent st && negb (text_block_closed st)).
  { gen_run. reflexivity. }
  destruct (PyStr.truthy (accumulated_text st) && negb (text_sent st)
            && negb (text_block_closed st)).
  { gen_run. reflexivity. }
  destruct (text_block_closed st) eqn:Hc; simpl negb; cbv iota.
  - exact Hc.
  - gen_run. reflexivity.
Qed.

Lemma state_of_prepend {A : Type} (evs : list Event)
  (r : list Event * StreamState * Flow A) :
  state_of (prepend evs r) = state_of r.
Proof. reflexivity. Qed.

Lemma events_of_prepend {A : Type} (evs : list Event)
  (r : list Event * StreamState * Flow A) :
  events_of (prepend evs r) = evs ++ events_of r.
Proof. reflexivity. Qed.

Lemma flow_of_prepend {A : Type} (evs : list Event)
  (r : list Event * StreamState * Flow A) :
  flow_of (prepend evs r) = flow_of r.
Proof. reflexivity. Qed.

(** The tool calls of a chunk leave the text block closed. *)
Lemma handle_tool_calls_closes (tc : ToolCallDelta) (tcs : list ToolCallDelta)
  (st : StreamState) :
  closed_by_tools st ->
  closed (state_of (handle_tool_calls (tc :: tcs) st)).
Proof.
  intros Hinv. unfold handle_tool_calls. rewrite bind_get.
  assert (Hloop : forall st1, closed st1 ->
            closed (state_of (for_each (tc :: tcs) handle_tool_call st1))).
  { intros st1 Hst1.
    apply (triple_state closed anything _ anything st1); [|exact Hst1].
    apply tool_loop_closed. intros e _. exact Logic.I. }
  destruct (is_none (tool_index st)) eqn:Hnone; unfold when_.
  - rewrite (bind_runs _ _ _ close_text_block_runs), state_of_prepend.
    apply Hloop, close_text_block_closes.
  - rewrite bind_ret. apply Hloop, Hinv. exact Hnone.
Qed.

Lemma state_of_bind {A B : Type} (J : StreamState -> Prop) (m : Gen A)
  (f : A -> Gen B) (st : StreamState) :
  J (state_of (m st)) ->
  (forall a st1, J st1 -> J (state_of (f a st1))) ->
  J (state_of (bind m f st)).
Proof.
  intros Hm Hf. unfold bind.
  destruct (m st) as [[evs st1] fl]. simpl in Hm.
  destruct fl as [a| |]; simpl; auto.
  specialize (Hf a st1 Hm). destruct (f a st1) as [[evs' st2] fl']. exact Hf.
Qed.

Lemma closed_is_closed_by_tools (st : StreamState) : closed st -> closed_by_tools st.
Proof. intros Hst _. exact Hst. Qed.

Lemma handle_tool_calls_closed_by_tools (delta_tool_calls : list ToolCallDelta)
  (st : StreamState) :
  closed_by_tools st ->
  closed_by_tools (state_of (handle_tool_calls delta_tool_calls st)).
Proof.
  intros Hinv. destruct delta_tool_calls as [|tc tcs]; [exact Hinv|].
  apply closed_is_closed_by_tools, handle_tool_calls_closes, Hinv.
Qed.

(** [closed_by_tools] is an invariant of the loop over the chunks. *)
Lemma process_chunk_closed_by_tools (chunk : Chunk) (st : StreamState) :
  closed_by_tools st -> closed_by_tools (state_of (process_chunk chunk st)).
Proof.
  intros Hinv. unfold process_chunk.
  apply state_of_bind.
  { apply (triple_state _ _ _ _ st (update_usage_closed_by_tools chunk) Hinv). }
  intros _ st1 Hst1.
  destruct (ck_choices chunk) as [| |[|choice rest]]; try exact Hst1.
  apply state_of_bind.
  { apply (triple_state _ _ _ _ st1 (handle_text_closed_by_tools _) Hst1). }
  intros _ st2 Hst2. apply state_of_bind.
  { apply handle_tool_calls_closed_by_tools, Hst2. }
  intros _ st3 Hst3.
  apply (triple_state _ _ _ _ st3 (handle_finish_closed_by_tools _) Hst3).
Qed.

Lemma state_after_step (chunk : Chunk) (rest : list Chunk) (st st' : StreamState) :
  state_after (chunk :: rest) st = Some st' ->
  state_after rest (state_of (process_chunk chunk st)) = Some st'.
Proof.
  simpl. destruct (process_chunk chunk st) as [[evs st1] fl].
  destruct fl; [trivial|trivial|discriminate].
Qed.

Lemma state_after_closed_by_tools (chunks : list Chunk) :
  forall st st', closed_by_tools st -> state_after chunks st = Some st' ->
                 closed_by_tools st'.
Proof.
  induction chunks as [|chunk rest IH]; intros st st' Hinv Hafter.
  - injection Hafter as <-. exact Hinv.
  - apply state_after_step in Hafter.
    apply (IH _ _ (process_chunk_closed_by_tools chunk st Hinv) Hafter).
Qed.

Lemma state_after_last (before : list Chunk) (chunk : Chunk) :
  forall st st', state_after (before ++ [chunk]) st = Some st' ->
    exists st1, state_after before st = Some st1
                /\ st' = state_of (process_chunk chunk st1).
Proof.
  induction before as [|c rest IH]; intros st st' Hafter.
  - exists st. split; [reflexivity|].
    apply state_after_step in Hafter. now injection Hafter as <-.
  - simpl in Hafter |- *.
    destruct (process_chunk c st) as [[evs st2] fl].
    destruct fl; [apply IH, Hafter|apply IH, Hafter|discriminate].
Qed.

(** A chunk that carries tool calls leaves the text block closed. *)
Lemma process_chunk_closes_text (chunk : Chunk) (st : StreamState) :
  closed_by_tools st -> carries_tool_calls chunk = true ->
  closed (state_of (process_chunk chunk st)).
Proof.
  intros Hinv Hcarries. unfold carries_tool_calls in Hcarries.
  unfold process_chunk.
  destruct (ck_choices chunk) as [| |[|choice rest]]; try discriminate.
  assert (Htext : d_content (sc_delta choice) <> OtherContent).
  { intros Hc. rewrite Hc in Hcarries. discriminate. }
  destruct (d_tool_calls (sc_delta choice)) as [|tc tcs].
  { destruct (d_content (sc_delta choice)); discriminate. }
  rewrite (bind_runs _ _ _ (update_usage_runs chunk)), state_of_prepend.
  pose proof (triple_state _ _ _ _ st (update_usage_closed_by_tools chunk) Hinv)
    as Hinv1.
  set (st1 := state_of (update_usage chunk st)) in *.
  rewrite (bind_runs _ _ _ (handle_text_runs _ Htext)), state_of_prepend.
  pose proof (triple_state _ _ _ _ st1 (handle_text_closed_by_tools
                (d_content (sc_delta choice))) Hinv1) as Hinv2.
  apply state_of_bind.
  - apply handle_tool_calls_closes, Hinv2.
  - intros _ st3 Hst3.
    assert (Hfin : triple closed anything
                     (handle_finish (sc_finish_reason choice)) anything).
    { unfold handle_finish, close_tool_blocks.
      gen_triple; solve [assumption | exact Logic.I]. }
    apply (triple_state _ _ _ _ st3 Hfin Hst3).
Qed.

(** Once the text block is closed, a dead test of [not text_block_closed]
    is evaluated. *)
End Transcoder4.

Ltac closed_dead :=
  match goal with
  | Hst : closed ?st |- context [text_block_closed ?st] =>
      let H := fresh in
      pose proof Hst as H; unfold closed in H; rewrite H; clear H;
      simpl negb; rewrite ?andb_false_r; cbv iota; unfold when_
  end.

Section Transcoder5.

Context {L : PyLib}.

Lemma update_usage_no_text (chunk : Chunk) :
  triple closed not_text_delta (update_usage chunk) anything.
Proof. unfold update_usage. gen_triple; assumption. Qed.

(** With the text block closed, the text of a chunk is not sent. *)
Lemma handle_text_no_text (delta_content : DeltaContent) :
  triple closed not_text_delta (handle_text delta_content) anything.
Proof.
  unfold handle_text. destruct delta_content as [|s|]; [gen_triple| |gen_triple].
  apply triple_when, triple_seq.
  - apply triple_modify. intros st Hst. exact Hst.
  - apply triple_bind_get. intros st Hst. closed_dead. gen_triple.
Qed.

Lemma close_text_block_no_text :
  triple closed not_text_delta close_text_block anything.
Proof.
  unfold close_text_block. apply triple_bind_get. intros st Hst.
  closed_dead. gen_triple.
Qed.

Lemma handle_tool_calls_no_text (delta_tool_calls : list ToolCallDelta) :
  triple closed not_text_delta (handle_tool_calls delta_tool_calls) anything.
Proof.
  unfold handle_tool_calls. destruct delta_tool_calls as [|tc tcs]; [gen_triple|].
  apply triple_bind_get. intros st Hst. apply triple_seq.
  - apply triple_when, close_text_block_no_text.
  - apply tool_loop_closed. intros e He. exact He.
Qed.

(** With the text block closed, the finish reason flushes no text. *)
Lemma handle_finish_no_text (finish_reason : option string) :
  triple closed not_text_delta (handle_finish finish_reason) anything.
Proof.
  unfold handle_finish, close_tool_blocks. apply triple_bind_get. intros st Hst.
  destruct finish_reason as [fr|]; [|gen_triple].
  destruct (PyStr.truthy fr && negb (has_sent_stop_reason st)); [|gen_triple].
  closed_dead. gen_triple; solve [assumption | reflexivity].
Qed.

Lemma process_chunk_no_text (chunk : Chunk) :
  triple closed not_text_delta (process_chunk chunk) anything.
Proof.
  unfold process_chunk. apply triple_seq; [apply update_usage_no_text|].
  destruct (ck_choices chunk) as [| |[|choice rest]]; [gen_triple ..|].
  apply triple_seq; [apply handle_text_no_text|].
  apply triple_seq; [apply handle_tool_calls_no_text|].
  apply handle_finish_no_text.
Qed.

Lemma close_stream_no_text :
  triple closed not_text_delta close_stream anything.
Proof.
  unfold close_stream, close_tool_blocks.
  gen_triple; solve [assumption | reflexivity].
Qed.

(** From a state with the text block closed, no [text_delta] is served. *)
Lemma consume_no_text (chunks : list Chunk) (finally : StreamEnd) :
  forall st, closed st -> Forall not_text_delta (consume chunks finally st).
Proof.
  induction chunks as [|chunk rest IH]; intros st Hst; simpl.
  - destruct finally as [|e].
    + apply (triple_events _ _ _ _ st close_stream_no_text Hst).
    + repeat constructor.
  - pose proof (triple_events _ _ _ _ st (process_chunk_no_text chunk) Hst) as Hev.
    pose proof (triple_state _ _ _ _ st (process_chunk_no_text chunk) Hst) as Hst1.
    destruct (process_chunk chunk st) as [[evs st1] fl]. simpl in Hev, Hst1.
    destruct fl; [| |exact Hev]; apply Forall_app; split; auto.
Qed.

Lemma state_after_closed (chunks : list Chunk) :
  forall st st', closed st -> state_after chunks st = Some st' -> closed st'.
Proof.
  induction chunks as [|chunk rest IH]; intros st st' Hst Hafter.
  - injection Hafter as <-. exact Hst.
  - apply state_after_step in Hafter.
    apply (IH _ _ (triple_state _ _ _ _ st (process_chunk_no_text chunk) Hst) Hafter).
Qed.

(** The pieces other than the text leave [accumulated_text] as it is. *)
Lemma update_usage_keeps_text (x : string) (chunk : Chunk) :
  triple (fun st => accumulated_text st = x) anything (update_usage chunk) anything.
Proof. unfold update_usage. gen_triple; solve [assumption | exact Logic.I]. Qed.

Lemma handle_tool_calls_keeps_text (x : string)
  (delta_tool_calls : list ToolCallDelta) :
  triple (fun st => accumulated_text st = x) anything
    (handle_tool_calls delta_tool_calls) anything.
Proof.
  unfold handle_tool_calls, close_text_block, handle_tool_call,
    start_tool_block, send_arguments.
  gen_triple; solve [assumption | exact Logic.I].
Qed.

Lemma handle_finish_keeps_text (x : string) (finish_reason : option string) :
  triple (fun st => accumulated_text st = x) anything
    (handle_finish finish_reason) anything.
Proof.
  unfold handle_finish, close_tool_blocks.
  gen_triple; solve [assumption | exact Logic.I].
Qed.

(** With the text block closed, the text of a chunk goes to
    [accumulated_text] and nowhere else. *)
Lemma handle_text_closed_run (s : string) (st : StreamState) :
  PyStr.truthy s = true -> closed st ->
  handle_text (StrContent s) st
  = ([], set_accumulated_text (accumulated_text st +++ s) st, Next tt).
Proof.
  intros Hs Hst. unfold handle_text. rewrite Hs. unfold when_.
  rewrite bind_modify, bind_get.
  change (text_block_closed (set_accumulated_text (accumulated_text st +++ s) st))
    with (text_block_closed st).
  unfold closed in Hst. rewrite Hst. simpl negb. rewrite andb_false_r.
  reflexivity.
Qed.

Lemma process_chunk_accumulates (chunk : Chunk) (s : string) (st : StreamState) :
  closed st -> chunk_text chunk = Some s ->
  accumulated_text (state_of (process_chunk chunk st)) = accumulated_text st +++ s.
Proof.
  intros Hst Htext. unfold chunk_text in Htext. unfold process_chunk.
  destruct (ck_choices chunk) as [| |[|choice rest]]; try discriminate.
  destruct (d_content (sc_delta choice)) as [|t|]; try discriminate.
  destruct (PyStr.truthy t) eqn:Ht; [|discriminate]. injection Htext as ->.
  rewrite (bind_runs _ _ _ (update_usage_runs chunk)), state_of_prepend.
  pose proof (triple_state _ _ _ _ st (update_usage_no_text chunk) Hst) as Hst1.
  pose proof (triple_state _ _ _ _ st
                (update_usage_keeps_text (accumulated_text st) chunk) eq_refl)
    as Hacc1.
  simpl in Hacc1.
  set (st1 := state_of (update_usage chunk st)) in *.
  rewrite (bind_next _ _ _ _ _ _ (handle_text_closed_run s st1 Ht Hst1)).
  rewrite state_of_prepend. rewrite <- Hacc1.
  apply (state_of_bind (fun st2 => accumulated_text st2 = accumulated_text st1 +++ s)).
  - apply (triple_state _ _ _ _ _ (handle_tool_calls_keeps_text _ _)). reflexivity.
  - intros _ st3 Hst3.
    apply (triple_state _ _ _ _ _ (handle_finish_keeps_text _ _) Hst3).
Qed.

(** C10. After a chunk that carries tool calls the text block is closed.
    From then on the text of a chunk is appended to [accumulated_text],
    and no event is a [text_delta], whatever chunks follow and however the
    stream ends: neither the loop nor the closing sequence of a finish
    reason serves the text. *)
Theorem late_text_dropped (before : list Chunk) (chunk : Chunk)
  (st : StreamState) :
  state_after (before ++ [chunk]) initial_state = Some st ->
  carries_tool_calls chunk = true ->
  text_block_closed st = true
  /\ (forall later finally,
        Forall not_text_delta (consume later finally st))
  /\ (forall later st1 c s,
        state_after later st = Some st1 ->
        chunk_text c = Some s ->
        accumulated_text (state_of (process_chunk c st1))
        = accumulated_text st1 +++ s
        /\ Forall not_text_delta (events_of (process_chunk c st1))).
Proof.
  intros Hafter Hcarries.
  destruct (state_after_last before chunk _ _ Hafter) as [st0 [Hbefore ->]].
  assert (Hinv : closed_by_tools st0).
  { apply (state_after_closed_by_tools before initial_state st0); [|exact Hbefore].
    intros Hnone. discriminate Hnone. }
  pose proof (process_chunk_closes_text chunk st0 Hinv Hcarries) as Hclosed.
  split; [exact Hclosed|]. split.
  - intros later finally. apply consume_no_text, Hclosed.
  - intros later st1 c s Hlater Htext.
    pose proof (state_after_closed later _ _ Hclosed Hlater) as Hst1.
    split.
    + apply process_chunk_accumulates; assumption.
    + apply (triple_events _ _ _ _ st1 (process_chunk_no_text c) Hst1).
Qed.

End Transcoder5.

(** C10 on a stream: a tool call, then the text ["late"], then the
    finish reason [stop]. *)
Lemma late_text_dropped_witness :
  Forall not_text_delta
    (consume (L := ref_lib) [text_chunk "late"; finish_chunk "stop"] Exhausted
       (state_of (process_chunk (L := ref_lib)
                    (tool_chunk 0 (Given "t1") (Given "search") "{}")
                    initial_state))).
Proof.
  exact (proj1 (proj2 (@late_text_dropped ref_lib []
                         (tool_chunk 0 (Given "t1") (Given "search") "{}")
                         _ eq_refl eq_refl))
           [text_chunk "late"; finish_chunk "stop"] Exhausted).
Defined.

(** The events of that stream: the text ["late"] is in none of them. *)
Example late_text_stream :
  handle_streaming (L := ref_lib)
    [tool_chunk 0 (Given "t1") (Given "search") "{}"; text_chunk "late";
     finish_chunk "stop"]
    Exhausted (request_of "openai/gpt-4o" 1024 [] None)
  = [MessageStart "openai/gpt-4o"; ContentBlockStart 0 StartText; Ping;
     ContentBlockStop 0;
     ContentBlockStart 1 (StartToolUse (GivenId "t1") (Some "search"));
     ContentBlockDelta 1 (InputJsonDelta "{}");
     ContentBlockStop 1;
     MessageDelta "end_turn" None 0; MessageStop; Done].
Proof. reflexivity. Qed.

(** Scenario A: a text in two chunks and the finish reason [stop]. *)
Example scenario_A :
  handle_streaming (L := ref_lib) [text_chunk "Hi"; text_chunk " there"; finish_chunk "stop"]
    Exhausted (request_of "openai/gpt-4o" 1024 [] None)
  = [MessageStart "openai/gpt-4o"; ContentBlockStart 0 StartText; Ping;
     ContentBlockDelta 0 (TextDelta "Hi");
     ContentBlockDelta 0 (TextDelta " there");
     ContentBlockStop 0;
     MessageDelta "end_turn" None 0; MessageStop; Done].
Proof. reflexivity. Qed.

(** Scenario B: a tool call without text, its arguments in two chunks. *)
Example scenario_B :
  handle_streaming (L := ref_lib)
    [tool_chunk 0 (Given "t1") (Given "search") "{q:";
     tool_chunk 0 Null Null "x}";
     finish_chunk "tool_calls"]
    Exhausted (request_of "openai/gpt-4o" 1024 [] None)
  = [MessageStart "openai/gpt-4o"; ContentBlockStart 0 StartText; Ping;
     ContentBlockStop 0;
     ContentBlockStart 1 (StartToolUse (GivenId "t1") (Some "search"));
     ContentBlockDelta 1 (InputJsonDelta "{q:");
     ContentBlockDelta 1 (InputJsonDelta "x}");
     ContentBlockStop 1;
     MessageDelta "tool_use" None 0; MessageStop; Done].
Proof. reflexivity. Qed.

Section Transcoder6.

Context {L : PyLib}.

(** C1, on the stream of one tool call that ends without a finish
    reason. The text block is closed when the tool call starts, and the
    closing sequence after the loop closes it again: block 0 is started
    once and stopped twice, and the stream has two starts and three
    stops. The arguments of the call are served unless [json.loads]
    raises on them an exception other than [json.JSONDecodeError]. *)
Theorem unfinished_tool_stream_closes_text_twice (original_request : MessagesRequest) :
  let evs :=
    handle_streaming [tool_chunk 0 (Given "t1") (Given "search") "{}"]
      Exhausted original_request in
  evs = [MessageStart (model original_request);
         ContentBlockStart 0 StartText; Ping;
         ContentBlockStop 0;
         ContentBlockStart 1 (StartToolUse (GivenId "t1") (Some "search"))]
        ++ match json_loads "{}" with
           | OtherException => []
           | _ => [ContentBlockDelta 1 (InputJsonDelta "{}")]
           end
        ++ [ContentBlockStop 1; ContentBlockStop 0;
            MessageDelta "end_turn" None 0; MessageStop; Done]
  /\ count is_block_start evs = 2
  /\ count is_block_stop evs = 3
  /\ stops_of 0 evs = 2.
Proof.
  cbv -[json_loads model].
  destruct (json_loads "{}"); repeat split.
Qed.

End Transcoder6.

(** The stream of C1 in the reference runtime. *)
Example unfinished_tool_stream :
  handle_streaming (L := ref_lib)
    [tool_chunk 0 (Given "t1") (Given "search") "{}"]
    Exhausted (request_of "openai/gpt-4o" 1024 [] None)
  = [MessageStart "openai/gpt-4o";
     ContentBlockStart 0 StartText; Ping;
     ContentBlockStop 0;
     ContentBlockStart 1 (StartToolUse (GivenId "t1") (Some "search"));
     ContentBlockDelta 1 (InputJsonDelta "{}");
     ContentBlockStop 1; ContentBlockStop 0;
     MessageDelta "end_turn" None 0; MessageStop; Done].
Proof. reflexivity. Qed.

Section Transcoder7.

Context {L : PyLib}.

(** *** The blocks started and stopped *)













End Transcoder7.


Section Transcoder8.

Context {L : PyLib}.



(** A step that is read off the states and the events. *)
End Transcoder8.


Section Transcoder9.

Context {L : PyLib}.




(** *** Every block closed once *)


















End Transcoder9.


(** A tool call with the index [None] and the finish reason
    [tool_calls]: block 1 is started and never stopped. *)
Example tool_block_left_open :
  handle_streaming (L := ref_lib)
    [chunk_of NoContent
       [ {| tcd_index := Null; tcd_id := Given "t1"; tcd_name := Given "search";
            tcd_arguments := Some "{}" |} ]
       (Some "tool_calls")]
    Exhausted (request_of "openai/gpt-4o" 1024 [] None)
  = [MessageStart "openai/gpt-4o"; ContentBlockStart 0 StartText; Ping;
     ContentBlockStop 0;
     ContentBlockStart 1 (StartToolUse (GivenId "t1") (Some "search"));
     ContentBlockDelta 1 (InputJsonDelta "{}");
     MessageDelta "tool_use" None 0; MessageStop; Done].
Proof. reflexivity. Qed.

(** ** Further properties of the mappers *)

Section MapperProperties.

Context {L : PyLib}.

Lemma add_newline_not_str (v : pyval) : is_str v = false -> add_newline v = Raise.
Proof. destruct v; simpl; try reflexivity. discriminate. Qed.

Lemma normalize_item_raises (item : pyval) :
  item_ok item = false -> normalize_item item = Raise.
Proof.
  destruct item as [| b | z | r | s | l | d | o]; simpl; try discriminate.
  destruct (type_is_text d); simpl.
  - apply add_newline_not_str.
  - destruct (dict_has d "text"); simpl; [apply add_newline_not_str|].
    unfold printable, is_some, is_none.
    destruct (json_dumps (PDict d)); [discriminate|].
    destruct (py_str (PDict d)); [discriminate|reflexivity].
Qed.

Lemma normalize_items_raises (l : list pyval) :
  forallb item_ok l = false -> forall acc, normalize_items l acc = Raise.
Proof.
  induction l as [|item rest IH]; simpl; intros Hok acc; [discriminate|].
  destruct (item_ok item) eqn:Hitem; simpl in Hok.
  - destruct (normalize_item item); [apply IH, Hok|reflexivity].
  - now rewrite (normalize_item_raises item Hitem).
Qed.

(** The contents of [normalizable] are all the contents on which the
    normalizer returns a string: on any other it raises, or returns a
    value that is no string. *)
Theorem parse_tool_result_content_string_only (content : pyval) (s : string) :
  parse_tool_result_content content = Return (PStr s) ->
  normalizable content = true.
Proof.
  destruct (normalizable content) eqn:Hn; [reflexivity|]. intros Hs. exfalso.
  destruct content as [| b | z | r | t | l | d | o]; simpl in Hn;
    try discriminate; simpl in Hs.
  - now rewrite (normalize_items_raises l Hn EmptyString) in Hs.
  - destruct (type_is_text d).
    + unfold text_is_str in Hn. injection Hs as Hs. rewrite Hs in Hn.
      discriminate.
    + unfold printable, is_some, is_none in Hn.
      destruct (json_dumps (PDict d)); [discriminate|].
      destruct (py_str (PDict d)); discriminate.
Qed.

(** The content of a response is never empty. *)
Theorem response_content_not_empty (resp : LiteLLMResponse)
  (req : MessagesRequest) (out : MessagesResponse) :
  convert_litellm_to_anthropic resp req = Return out -> mr_content out <> [].
Proof.
  unfold convert_litellm_to_anthropic.
  destruct (extract resp) as [[[content_text tool_calls] finish_reason]|];
    [|discriminate].
  destruct (response_content _ content_text tool_calls) as [content0|];
    [|discriminate].
  destruct (valid_id _ && forallb valid_block _); [|discriminate].
  intros Hout. injection Hout as <-. simpl.
  destruct content0; discriminate.
Qed.

Lemma processed_block_part (block : ContentBlock) (part : pyval) :
  processed_block block = Return part -> part_for block part.
Proof.
  destruct block as [text|source|id name input|tool_use_id block_content];
    cbn [processed_block]; intros H.
  - injection H as <-. eexists; split; reflexivity.
  - injection H as <-. eexists; split; reflexivity.
  - injection H as <-. eexists; split; reflexivity.
  - destruct block_content;
      try (destruct (py_str _); [|discriminate H]);
      injection H as <-; eexists; split; reflexivity.
Qed.

Lemma processed_blocks_parts (blocks : list ContentBlock) :
  forall acc parts,
    processed_blocks blocks acc = Return parts ->
    exists added, parts = acc ++ added /\ Forall2 part_for blocks added.
Proof.
  induction blocks as [|block rest IH]; cbn [processed_blocks];
    intros acc parts H.
  - injection H as <-. exists []. split; [now rewrite app_nil_r|constructor].
  - destruct (processed_block block) as [part|] eqn:Hp; [|discriminate H].
    destruct (IH _ _ H) as (added & -> & Hall).
    exists (part :: added). split; [now rewrite <- app_assoc|].
    constructor; [apply processed_block_part, Hp|exact Hall].
Qed.

(** One message of the request adds one downstream message, its own. *)
Lemma convert_message_converted (msgs msgs' : list OutMessage) (msg : Message) :
  convert_message msgs msg = Return msgs' ->
  exists out, msgs' = msgs ++ [out] /\ converted msg out.
Proof.
  unfold convert_message, converted. intros H.
  assert (Hparts : forall blocks,
            match processed_blocks blocks [] with
            | Return parts =>
                Return (msgs ++ [ {| out_role := role_name (role msg);
                                     out_content := OutParts parts |} ])
            | Raise => Raise
            end = Return msgs' ->
            exists out,
              msgs' = msgs ++ [out]
              /\ out_role out = role_name (role msg)
              /\ exists parts, out_content out = OutParts parts
                               /\ Forall2 part_for blocks parts).
  { intros blocks Hb.
    destruct (processed_blocks blocks []) as [parts|] eqn:Hp; [|discriminate Hb].
    injection Hb as <-.
    destruct (processed_blocks_parts blocks [] parts Hp) as (added & -> & Hall).
    eexists. split; [reflexivity|]. split; [reflexivity|].
    exists added. split; [reflexivity|exact Hall]. }
  destruct (content msg) as [s|blocks].
  - injection H as <-. eexists. split; [reflexivity|]. split; reflexivity.
  - destruct (role msg) eqn:Hrole.
    + destruct (existsb is_tool_result blocks).
      * rewrite tool_result_text_rendered in H.
        destruct (rendered_blocks blocks) as [text|]; [|discriminate H].
        injection H as <-. eexists. split; [reflexivity|].
        split; [reflexivity|]. exists text. split; reflexivity.
      * destruct (Hparts blocks H) as (out & -> & Hr & Hp).
        exists out. split; [reflexivity|]. split; assumption.
    + destruct (Hparts blocks H) as (out & -> & Hr & Hp).
      exists out. split; [reflexivity|]. split; [exact Hr|].
      destruct (existsb is_tool_result blocks); exact Hp.
Qed.

Lemma convert_messages_converted (l : list Message) :
  forall msgs msgs',
    convert_messages l msgs = Return msgs' ->
    exists added, msgs' = msgs ++ added /\ Forall2 converted l added.
Proof.
  induction l as [|msg rest IH]; simpl; intros msgs msgs' Hc.
  - injection Hc as <-. exists []. split; [now rewrite app_nil_r|constructor].
  - destruct (convert_message msgs msg) as [msgs1|] eqn:Hm; [|discriminate].
    destruct (convert_message_converted _ _ _ Hm) as (out & -> & Hout).
    destruct (IH _ _ Hc) as (added & -> & Hall).
    exists (out :: added). split; [now rewrite <- app_assoc|].
    constructor; assumption.
Qed.

(** The messages of the downstream request: the system message, if
    there is one, and then exactly one message for each message of the
    request, in the order of the request: it has the role of its
    message; a string content is passed on; the blocks of a user
    message with a tool result become one string; any other blocks
    become one part for each block, of the type of the block. *)
Theorem convert_messages_one_each (USE_OPENAI_MODELS : bool)
  (anthropic_request : MessagesRequest) (out : LiteLLMRequest) :
  convert_anthropic_to_litellm USE_OPENAI_MODELS anthropic_request = Return out ->
  exists added,
    lr_messages out = system_messages (system anthropic_request) ++ added
    /\ Forall2 converted (messages anthropic_request) added
    /\ length (system_messages (system anthropic_request)) <= 1.
Proof.
  unfold convert_anthropic_to_litellm. intros H.
  destruct (convert_messages (messages anthropic_request)
              (system_messages (system anthropic_request)))
    as [msgs|] eqn:Hm; [|discriminate H].
  injection H as <-. cbn [lr_messages].
  destruct (convert_messages_converted _ _ _ Hm) as (added & -> & Hall).
  exists added. split; [reflexivity|]. split; [exact Hall|].
  unfold system_messages.
  destruct (system anthropic_request) as [[sys|texts]|]; cbn;
    try (destruct (PyStr.truthy _); cbn); lia.
Qed.

End MapperProperties.

(** The inline rendering of a tool result in the request mapper is not
    the normalizer: a list of strings gives the empty text there. *)
Example result_content_is_not_the_normalizer :
  result_content (L := ref_lib) (PList [PStr "x"]) = Return (PStr EmptyString)
  /\ parse_tool_result_content (L := ref_lib) (PList [PStr "x"]) = Return (PStr "x")
  /\ result_content (L := ref_lib) PNone = Return (PStr "None")
  /\ parse_tool_result_content (L := ref_lib) PNone
     = Return (PStr "No content provided").
Proof. repeat split. Qed.

(** A request with a system prompt, a user message and an assistant
    message of a text block and a tool use. *)
Lemma convert_messages_one_each_witness :
  exists added,
    [ {| out_role := "system"; out_content := OutStr "Be brief." |};
      user_text "Hi";
      {| out_role := "assistant";
         out_content :=
           OutParts [text_part (PStr "Looking.");
                     PDict [("type", PStr "tool_use"); ("id", PStr "t1");
                            ("name", PStr "search");
                            ("input", PDict [("q", PStr "x")])]] |} ]
    = [ {| out_role := "system"; out_content := OutStr "Be brief." |} ] ++ added
    /\ Forall2 (converted (L := ref_lib))
         [ {| role := user; content := ContentStr "Hi" |};
           {| role := assistant;
              content :=
                ContentBlocks
                  [ContentBlockText "Looking.";
                   ContentBlockToolUse "t1" "search"
                     (PDict [("q", PStr "x")])] |} ]
         added
    /\ 1 <= 1.
Proof.
  exact (@convert_messages_one_each ref_lib true
           {| model := "openai/gpt-4o";
              max_tokens := 1024;
              messages :=
                [ {| role := user; content := ContentStr "Hi" |};
                  {| role := assistant;
                     content :=
                       ContentBlocks
                         [ContentBlockText "Looking.";
                          ContentBlockToolUse "t1" "search"
                            (PDict [("q", PStr "x")])] |} ];
              system := Some (SystemStr "Be brief.");
              stop_sequences := None;
              stream := None;
              temperature := None;
              top_p := None;
              top_k := None;
              tools := None;
              tool_choice := None;
              reasoning_effort := None |}
           _ eq_refl).
Defined.

(** ** Model selection, the endpoints and the text served *)

(** ** Model selection *)

Lemma startswith_append (p s : string) : PyStr.startswith (p +++ s) p = true.
Proof.
  unfold PyStr.startswith. induction p as [|c p IH]; simpl.
  - destruct s; reflexivity.
  - destruct (ascii_dec c c) as [_|N]; [exact IH|elim N; reflexivity].
Qed.

Lemma startswith_drop (p s : string) :
  PyStr.startswith s p = true -> s = p +++ PyStr.drop (String.length p) s.
Proof.
  unfold PyStr.startswith. revert s.
  induction p as [|c p IH]; intros s H; simpl.
  - reflexivity.
  - destruct s as [|d s]; simpl in H; [discriminate|].
    destruct (ascii_dec c d) as [E|_]; [|discriminate].
    subst d. simpl. f_equal. apply IH, H.
Qed.

Lemma lower_append (a b : string) :
  PyStr.lower (a +++ b) = PyStr.lower a +++ PyStr.lower b.
Proof.
  induction a as [|c a IH]; simpl; [reflexivity|]. rewrite IH. reflexivity.
Qed.

Lemma startswith_empty_prefix (s : string) : PyStr.startswith s "" = true.
Proof. destruct s; reflexivity. Qed.

(** The model name [validate_model] returns carries a provider prefix. *)
Lemma validate_model_prefixed (cfg : Settings) (v : string) :
  let m := MessagesRequest_validate_model cfg v in
  PyStr.startswith m "openai/" = true \/ PyStr.startswith m "anthropic/" = true.
Proof.
  unfold MessagesRequest_validate_model.
  destruct (USE_OPENAI_MODELS cfg).
  - set (w := if PyStr.startswith v "anthropic/" then PyStr.drop 10 v else v).
    destruct (PyStr.contains "haiku" (PyStr.lower w)).
    + destruct (PyStr.startswith (SMALL_MODEL cfg) "claude").
      * destruct (PyStr.startswith v "anthropic/") eqn:Hv; cbn [negb].
        -- right. exact Hv.
        -- right. apply startswith_append.
      * left. apply startswith_append.
    + destruct (PyStr.contains "sonnet" (PyStr.lower w)).
      * destruct (PyStr.startswith (BIG_MODEL cfg) "claude").
        -- destruct (PyStr.startswith v "anthropic/") eqn:Hv; cbn [negb].
           ++ right. exact Hv.
           ++ right. apply startswith_append.
        -- left. apply startswith_append.
      * destruct (PyStr.startswith w "openai/") eqn:Ho; cbn [negb andb].
        -- left. exact Ho.
        -- destruct (PyStr.startswith w "anthropic/") eqn:Ha; cbn [negb].
           ++ right. exact Ha.
           ++ left. apply startswith_append.
  - destruct (PyStr.startswith v "anthropic/") eqn:Hv; cbn [negb].
    + right. exact Hv.
    + right. apply startswith_append.
Qed.

Lemma anthropic_prefix (s : string) :
  PyStr.startswith s "anthropic/" = true -> s = "anthropic/" +++ PyStr.drop 10 s.
Proof. exact (startswith_drop "anthropic/" s). Qed.

Lemma lower_openai (s : string) :
  PyStr.lower ("openai/" +++ s) = "openai/" +++ PyStr.lower s.
Proof. rewrite lower_append. reflexivity. Qed.

Lemma haiku_openai (s : string) :
  PyStr.contains "haiku" ("openai/" +++ s) = PyStr.contains "haiku" s.
Proof. reflexivity. Qed.

Lemma sonnet_openai (s : string) :
  PyStr.contains "sonnet" ("openai/" +++ s) = PyStr.contains "sonnet" s.
Proof. reflexivity. Qed.

(** The six ways through the validator when models are swapped, [w] being
    the name without its first [anthropic/]. *)
Lemma validate_model_cases (cfg : Settings) (v : string) :
  USE_OPENAI_MODELS cfg = true ->
  let w := if PyStr.startswith v "anthropic/" then PyStr.drop 10 v else v in
  let m := MessagesRequest_validate_model cfg v in
  (PyStr.contains "haiku" (PyStr.lower w) = true
   /\ PyStr.startswith (SMALL_MODEL cfg) "claude" = true
   /\ m = "anthropic/" +++ w)
  \/ (PyStr.contains "haiku" (PyStr.lower w) = true
      /\ PyStr.startswith (SMALL_MODEL cfg) "claude" = false
      /\ m = "openai/" +++ SMALL_MODEL cfg)
  \/ (PyStr.contains "haiku" (PyStr.lower w) = false
      /\ PyStr.contains "sonnet" (PyStr.lower w) = true
      /\ PyStr.startswith (BIG_MODEL cfg) "claude" = true
      /\ m = "anthropic/" +++ w)
  \/ (PyStr.contains "haiku" (PyStr.lower w) = false
      /\ PyStr.contains "sonnet" (PyStr.lower w) = true
      /\ PyStr.startswith (BIG_MODEL cfg) "claude" = false
      /\ m = "openai/" +++ BIG_MODEL cfg)
  \/ (PyStr.contains "haiku" (PyStr.lower w) = false
      /\ PyStr.contains "sonnet" (PyStr.lower w) = false
      /\ PyStr.startswith w "openai/" = false
      /\ PyStr.startswith w "anthropic/" = false
      /\ m = "openai/" +++ w)
  \/ (PyStr.contains "haiku" (PyStr.lower w) = false
      /\ PyStr.contains "sonnet" (PyStr.lower w) = false
      /\ (PyStr.startswith w "openai/" = true
          \/ PyStr.startswith w "anthropic/" = true)
      /\ m = w).
Proof.
  intros Huse w m. subst m. unfold MessagesRequest_validate_model.
  rewrite Huse. fold w.
  assert (Hw : (if negb (PyStr.startswith v "anthropic/")
                then "anthropic/" +++ w else v) = "anthropic/" +++ w).
  { subst w. destruct (PyStr.startswith v "anthropic/") eqn:E; cbn [negb];
      [apply (anthropic_prefix v E)|reflexivity]. }
  rewrite Hw. clearbody w.
  destruct (PyStr.contains "haiku" (PyStr.lower w)).
  - destruct (PyStr.startswith (SMALL_MODEL cfg) "claude"); tauto.
  - destruct (PyStr.contains "sonnet" (PyStr.lower w)).
    + destruct (PyStr.startswith (BIG_MODEL cfg) "claude"); tauto.
    + destruct (PyStr.startswith w "openai/"), (PyStr.startswith w "anthropic/");
        cbn [negb andb]; tauto.
Qed.

Lemma validate_model_twice (cfg : Settings) (v : string) :
  USE_OPENAI_MODELS cfg = false
  \/ (resolved (SMALL_MODEL cfg) = true
      /\ resolved (BIG_MODEL cfg) = true
      /\ PyStr.startswith v "anthropic/anthropic/" = false) ->
  MessagesRequest_validate_model cfg (MessagesRequest_validate_model cfg v)
  = MessagesRequest_validate_model cfg v.
Proof.
  intros H. destruct (USE_OPENAI_MODELS cfg) eqn:Huse.
  - destruct H as [H|[Hs [Hb Hv]]]; [discriminate|].
    pose proof (validate_model_cases cfg v Huse) as Hcases. cbv zeta in Hcases.
    remember (if PyStr.startswith v "anthropic/" then PyStr.drop 10 v else v)
      as w eqn:Ew.
    assert (Hwa : PyStr.startswith w "anthropic/" = false).
    { subst w. destruct (PyStr.startswith v "anthropic/") eqn:E; [|exact E].
      destruct (PyStr.startswith (PyStr.drop 10 v) "anthropic/") eqn:E2; [|reflexivity].
      rewrite (anthropic_prefix v E), (anthropic_prefix _ E2) in Hv.
      exfalso. revert Hv. clear.
      generalize (PyStr.drop 10 (PyStr.drop 10 v)). intros s.
      change ("anthropic/" +++ "anthropic/" +++ s) with ("anthropic/anthropic/" +++ s).
      rewrite startswith_append. discriminate. }
    clear Ew Hv.
    assert (Hopenai : forall s,
      PyStr.contains "haiku" (PyStr.lower s) = false ->
      PyStr.contains "sonnet" (PyStr.lower s) = false ->
      MessagesRequest_validate_model cfg ("openai/" +++ s) = "openai/" +++ s).
    { intros s H1 H2. unfold MessagesRequest_validate_model. rewrite Huse.
      change (PyStr.startswith ("openai/" +++ s) "anthropic/") with false.
      cbv iota. rewrite lower_openai, haiku_openai, sonnet_openai, H1, H2.
      rewrite startswith_append. reflexivity. }
    assert (Hanthropic : forall b : bool,
      (if b then PyStr.contains "haiku" (PyStr.lower w) = true
               /\ PyStr.startswith (SMALL_MODEL cfg) "claude" = true
       else PyStr.contains "haiku" (PyStr.lower w) = false
            /\ PyStr.contains "sonnet" (PyStr.lower w) = true
            /\ PyStr.startswith (BIG_MODEL cfg) "claude" = true) ->
      MessagesRequest_validate_model cfg ("anthropic/" +++ w) = "anthropic/" +++ w).
    { intros b Hb'. unfold MessagesRequest_validate_model. rewrite Huse.
      rewrite startswith_append.
      change (PyStr.drop 10 ("anthropic/" +++ w)) with w. cbn [negb].
      destruct b.
      - destruct Hb' as [H1 H2]. rewrite H1, H2. reflexivity.
      - destruct Hb' as [H1 [H2 H3]]. rewrite H1, H2, H3. reflexivity. }
    unfold resolved in Hs, Hb.
    destruct Hcases as [[Hh [Hc Hm]]|[[Hh [Hc Hm]]|[[Hh [Hso [Hc Hm]]]|
      [[Hh [Hso [Hc Hm]]]|[[Hh [Hso [Ho [Ha Hm]]]]|[Hh [Hso [Hp Hm]]]]]]]];
      rewrite Hm.
    + apply (Hanthropic true). split; assumption.
    + rewrite Hc in Hs. cbn [orb] in Hs.
      apply negb_true_iff, orb_false_iff in Hs as [Hs1 Hs2].
      apply Hopenai; assumption.
    + apply (Hanthropic false). repeat split; assumption.
    + rewrite Hc in Hb. cbn [orb] in Hb.
      apply negb_true_iff, orb_false_iff in Hb as [Hb1 Hb2].
      apply Hopenai; assumption.
    + apply Hopenai; assumption.
    + destruct Hp as [Hp|Hp]; [|congruence].
      unfold MessagesRequest_validate_model. rewrite Huse, Hwa, Hh, Hso, Hp.
      reflexivity.
  - unfold MessagesRequest_validate_model. rewrite Huse.
    destruct (PyStr.startswith v "anthropic/") eqn:Hv; cbn [negb].
    + rewrite Hv. reflexivity.
    + rewrite startswith_append. reflexivity.
Qed.

Lemma use_openai_models_negb (big small : string) :
  use_openai_models big small
  = negb (PyStr.contains "claude" (PyStr.lower big)
          && PyStr.contains "claude" (PyStr.lower small)).
Proof.
  unfold use_openai_models.
  destruct (PyStr.contains "claude" (PyStr.lower big)
            && PyStr.contains "claude" (PyStr.lower small)); reflexivity.
Qed.

Lemma update_models_keeps (env : Environment) (cfg : Settings) (big small : string) :
  USE_OPENAI_MODELS cfg = negb (both_claude cfg) ->
  USE_OPENAI_MODELS (fst (update_models env cfg big small))
  = negb (both_claude (fst (update_models env cfg big small))).
Proof.
  intros H. unfold update_models.
  destruct ((PyStr.contains "claude" (PyStr.lower big)
             || PyStr.contains "claude" (PyStr.lower small))
            && key_missing (ANTHROPIC_API_KEY env)); [exact H|].
  destruct ((PyStr.startswith big "openai/" || PyStr.startswith small "openai/"
             || negb (PyStr.startswith big "anthropic/")
             || negb (PyStr.startswith small "anthropic/"))
            && key_missing (OPENAI_API_KEY env)); [exact H|].
  cbn [fst USE_OPENAI_MODELS]. apply use_openai_models_negb.
Qed.

(** Models are swapped exactly when the two configured models are not
    both Claude models: this holds when the module is loaded and after
    every sequence of calls of [update_models], accepted or refused. *)
Theorem settings_consistent (env : Environment) (forms : list (string * string)) :
  USE_OPENAI_MODELS (settings_after env forms)
  = negb (both_claude (settings_after env forms)).
Proof.
  unfold settings_after.
  assert (H0 : USE_OPENAI_MODELS initial_settings = negb (both_claude initial_settings))
    by reflexivity.
  revert H0. generalize initial_settings.
  induction forms as [|form rest IH]; intros cfg H; simpl.
  - exact H.
  - apply IH. unfold submit. apply update_models_keeps, H.
Qed.

Lemma startswith_anthropic_not_openai (m : string) :
  PyStr.startswith m "anthropic/" = true -> PyStr.startswith m "openai/" = false.
Proof.
  intros H. rewrite (anthropic_prefix m H). reflexivity.
Qed.

(** Without an OpenAI key, [update_models] refuses every pair of models
    that are not both written with the prefix [anthropic/], two Claude
    models included, and leaves the settings as they are. *)
Theorem update_models_without_openai_key (env : Environment) (cfg : Settings)
  (big_model small_model : string) :
  key_missing (OPENAI_API_KEY env) = true ->
  PyStr.startswith big_model "anthropic/"
  && PyStr.startswith small_model "anthropic/" = false ->
  exists message,
    update_models env cfg big_model small_model = (cfg, UpdateError message).
Proof.
  intros Hkey Hprefix. unfold update_models.
  destruct ((PyStr.contains "claude" (PyStr.lower big_model)
             || PyStr.contains "claude" (PyStr.lower small_model))
            && key_missing (ANTHROPIC_API_KEY env)); [eexists; reflexivity|].
  rewrite Hkey.
  assert (E : PyStr.startswith big_model "openai/"
              || PyStr.startswith small_model "openai/"
              || negb (PyStr.startswith big_model "anthropic/")
              || negb (PyStr.startswith small_model "anthropic/") = true).
  { destruct (PyStr.startswith big_model "anthropic/"),
             (PyStr.startswith small_model "anthropic/");
      try discriminate; cbn [negb];
      rewrite ?orb_true_r; reflexivity. }
  rewrite E. eexists; reflexivity.
Qed.

Lemma update_models_without_openai_key_witness :
  exists message,
    update_models {| ANTHROPIC_API_KEY := Some "sk-ant"; OPENAI_API_KEY := None |}
      initial_settings "claude-3-7-sonnet-20250219" "claude-3-haiku-20240307"
    = (initial_settings, UpdateError message).
Proof.
  apply (update_models_without_openai_key
           {| ANTHROPIC_API_KEY := Some "sk-ant"; OPENAI_API_KEY := None |}
           initial_settings "claude-3-7-sonnet-20250219" "claude-3-haiku-20240307");
    reflexivity.
Defined.

(** ** The request history *)

Lemma record_request_firstn {A : Type} (request_info : A) (history : list A) :
  record_request request_info history
  = firstn MAX_HISTORY (request_info :: history).
Proof.
  unfold record_request.
  destruct (MAX_HISTORY <? length (request_info :: history))%nat eqn:E;
    [reflexivity|].
  apply Nat.ltb_ge in E. symmetry. apply firstn_all2. exact E.
Qed.

Lemma firstn_cons_firstn {A : Type} (n : nat) (a : A) (l : list A) :
  firstn n (a :: firstn n l) = firstn n (a :: l).
Proof.
  destruct n as [|n]; [reflexivity|].
  rewrite !firstn_cons. f_equal. rewrite firstn_firstn.
  f_equal. lia.
Qed.

Lemma history_from {A : Type} (infos history : list A) :
  fold_left (fun history request_info => record_request request_info history)
    infos (firstn MAX_HISTORY history)
  = firstn MAX_HISTORY (rev infos ++ history).
Proof.
  revert history. induction infos as [|info rest IH]; intros history.
  - reflexivity.
  - cbn [fold_left rev]. rewrite record_request_firstn, firstn_cons_firstn.
    rewrite (IH (info :: history)). rewrite <- app_assoc. reflexivity.
Qed.

(** The history holds the [MAX_HISTORY] requests recorded last, the newest
    first. *)
Theorem history_newest_first (A : Type) (infos : list A) :
  history_after infos = firstn MAX_HISTORY (rev infos)
  /\ (length (history_after infos) <= MAX_HISTORY)%nat.
Proof.
  assert (E : history_after infos = firstn MAX_HISTORY (rev infos)).
  { unfold history_after.
    change (@nil A) with (firstn MAX_HISTORY (@nil A)).
    rewrite history_from, app_nil_r. reflexivity. }
  split; [exact E|]. rewrite E. apply firstn_le_length.
Qed.

(** ** The endpoints *)

Lemma validate_model_claude_only (cfg : Settings) (v : string) :
  USE_OPENAI_MODELS cfg = false ->
  PyStr.startswith (MessagesRequest_validate_model cfg v) "anthropic/" = true.
Proof.
  intros H. unfold MessagesRequest_validate_model. rewrite H.
  destruct (PyStr.startswith v "anthropic/") eqn:Hv; cbn [negb];
    [exact Hv|apply startswith_append].
Qed.

Lemma update_models_claude_only (env : Environment) (cfg cfg' : Settings)
  (big_model small_model b s : string) :
  update_models env cfg big_model small_model = (cfg', UpdateSuccess b s false) ->
  USE_OPENAI_MODELS cfg' = false /\ key_missing (ANTHROPIC_API_KEY env) = false.
Proof.
  unfold update_models.
  destruct ((PyStr.contains "claude" (PyStr.lower big_model)
             || PyStr.contains "claude" (PyStr.lower small_model))
            && key_missing (ANTHROPIC_API_KEY env)) eqn:E1; [discriminate|].
  destruct ((PyStr.startswith big_model "openai/" || PyStr.startswith small_model "openai/"
             || negb (PyStr.startswith big_model "anthropic/")
             || negb (PyStr.startswith small_model "anthropic/"))
            && key_missing (OPENAI_API_KEY env)); [discriminate|].
  cbn [BIG_MODEL SMALL_MODEL USE_OPENAI_MODELS]. intros H.
  injection H as Hcfg _ _ Huse. subst cfg'. split; [exact Huse|].
  rewrite use_openai_models_negb in Huse.
  apply negb_false_iff, andb_prop in Huse as [Hb _].
  rewrite Hb in E1. exact E1.
Qed.

Section EndpointProperties.

Context {L : PyLib}.

(** Once [update_models] has accepted two Claude models, [create_message]
    refuses no request for a missing API key, and every call of the
    downstream carries the Anthropic key. *)
Theorem claude_only_uses_anthropic_key (env : Environment) (cfg cfg' : Settings)
  (big_model small_model b s v : string) (request : MessagesRequest) :
  update_models env cfg big_model small_model = (cfg', UpdateSuccess b s false) ->
  model request = MessagesRequest_validate_model cfg' v ->
  match create_message (USE_OPENAI_MODELS cfg') env request with
  | HTTPException _ _ => False
  | Exception => True
  | Completion api_key _ => ANTHROPIC_API_KEY env = Some api_key
  end.
Proof.
  intros Hup Hmodel.
  destruct (update_models_claude_only env cfg cfg' big_model small_model b s Hup)
    as [Huse Hkey].
  pose proof (validate_model_claude_only cfg' v Huse) as Hpre.
  rewrite <- Hmodel in Hpre.
  unfold create_message.
  destruct (convert_anthropic_to_litellm (USE_OPENAI_MODELS cfg') request)
    as [litellm_request|]; [|exact I].
  rewrite (startswith_anthropic_not_openai _ Hpre).
  unfold key_missing in Hkey.
  destruct (ANTHROPIC_API_KEY env) as [api_key|]; [|discriminate].
  rewrite Hkey.
  destruct (PyStr.contains "openai" (lr_model litellm_request)); [|reflexivity].
  destruct (openai_messages (lr_messages litellm_request)); [reflexivity|exact I].
Qed.

Lemma convert_messages_only (USE_OPENAI_MODELS use' : bool)
  (req req' : MessagesRequest) (out : LiteLLMRequest) :
  messages req' = messages req ->
  system req' = system req ->
  convert_anthropic_to_litellm USE_OPENAI_MODELS req = Return out ->
  exists out',
    convert_anthropic_to_litellm use' req' = Return out'
    /\ lr_model out' = model req'
    /\ lr_messages out' = lr_messages out.
Proof.
  intros Hm Hs. unfold convert_anthropic_to_litellm. rewrite Hm, Hs.
  destruct (convert_messages (messages req) (system_messages (system req)))
    as [msgs|]; [|discriminate].
  intros H. injection H as H. subst out. eexists. split; [reflexivity|].
  split; reflexivity.
Qed.

End EndpointProperties.

Section OpenAIProperties.

Context {L : PyLib}.

Lemma placeholder_or_stripped (t : string) :
  let r := if PyStr.truthy (PyStr.strip t) then PyStr.strip t else "..." in
  PyStr.truthy r = true
  /\ PyStr.starts_with_space r = false
  /\ PyStr.ends_with_space r = false.
Proof.
  cbv zeta. destruct (PyStr.truthy (PyStr.strip t)) eqn:E.
  - split; [exact E|]. split;
      [apply strip_no_leading_space|apply strip_no_trailing_space].
  - repeat split.
Qed.

Lemma strip_placeholder (t : string) :
  PyStr.strip (if negb (PyStr.truthy (PyStr.strip t)) then "..." else t)
  = if PyStr.truthy (PyStr.strip t) then PyStr.strip t else "...".
Proof.
  destruct (PyStr.truthy (PyStr.strip t)); reflexivity.
Qed.

Lemma openai_message_flattened (m o : OutMessage) :
  openai_message m = Return o -> flattened m o.
Proof.
  unfold openai_message, flattened.
  destruct (out_content m) as [s|parts] eqn:Hc.
  - intros H. injection H as H. subst o. rewrite Hc. split; reflexivity.
  - destruct (forallb is_tool_result_part parts && (0 <? length parts)%nat).
    + destruct (append_each only_tool_result_block parts "") as [t|];
        [|discriminate].
      intros H. injection H as H. subst o. cbn [out_role out_content].
      split; [reflexivity|]. eexists. split; [reflexivity|].
      apply placeholder_or_stripped.
    + destruct (append_each openai_block_text parts "") as [t|];
        [|discriminate].
      intros H. injection H as H. subst o. cbn [out_role out_content].
      split; [reflexivity|]. eexists. split; [reflexivity|].
      rewrite strip_placeholder. apply placeholder_or_stripped.
Qed.

Lemma flattened_is_text (m o : OutMessage) :
  flattened m o -> is_text_content o = true.
Proof.
  unfold flattened, is_text_content. intros [_ H].
  destruct (out_content m).
  - rewrite H. reflexivity.
  - destruct H as [t [H _]]. rewrite H. reflexivity.
Qed.

Lemma map_result_Forall2 {A B : Type} (f : A -> result B) (R : A -> B -> Prop) :
  (forall a b, f a = Return b -> R a b) ->
  forall l out, map_result f l = Return out -> Forall2 R l out.
Proof.
  intros Hf. induction l as [|a l IH]; intros out; simpl.
  - intros H. injection H as H. subst out. constructor.
  - destruct (f a) as [b|] eqn:Ha; [|discriminate].
    destruct (map_result f l) as [bs|]; [|discriminate].
    intros H. injection H as H. subst out. constructor.
    + apply Hf, Ha.
    + apply IH. reflexivity.
Qed.

Lemma final_validation_idle (msgs : list OutMessage) :
  forallb is_text_content msgs = true ->
  map_result final_validation msgs = Return msgs.
Proof.
  induction msgs as [|m msgs IH]; simpl; [reflexivity|].
  intros H. apply andb_prop in H as [Hm Hrest].
  unfold final_validation at 1. unfold is_text_content in Hm.
  destruct (out_content m); [|discriminate].
  rewrite (IH Hrest). reflexivity.
Qed.

Lemma Forall2_text (msgs out : list OutMessage) :
  Forall2 flattened msgs out -> forallb is_text_content out = true.
Proof.
  induction 1 as [|m o msgs out H _ IH]; simpl; [reflexivity|].
  rewrite (flattened_is_text m o H). exact IH.
Qed.

(** The last loop of the processing for OpenAI models finds nothing to
    do: after the first loop no content is a list. *)
Theorem final_validation_never_fires (msgs : list OutMessage) :
  openai_messages msgs = map_result openai_message msgs.
Proof.
  unfold openai_messages.
  destruct (map_result openai_message msgs) as [out|] eqn:H; [|reflexivity].
  apply final_validation_idle.
  apply (Forall2_text msgs out).
  apply (map_result_Forall2 openai_message flattened openai_message_flattened msgs out H).
Qed.

Lemma openai_messages_Forall2 (msgs out : list OutMessage) :
  openai_messages msgs = Return out -> Forall2 flattened msgs out.
Proof.
  unfold openai_messages.
  destruct (map_result openai_message msgs) as [out'|] eqn:H; [|discriminate].
  pose proof (map_result_Forall2 openai_message flattened
                openai_message_flattened msgs out' H) as HF.
  rewrite (final_validation_idle out' (Forall2_text msgs out' HF)).
  intros E. injection E as E. subst out'. exact HF.
Qed.

(** The messages a model with [openai] in its name receives: one for each
    message, with the same role; a content that was a string is passed on
    as it is, and a content that was a list of blocks becomes a string
    that is not empty and has no white space at either end. *)
Theorem openai_messages_flattened (msgs out : list OutMessage) :
  openai_messages msgs = Return out ->
  length out = length msgs /\ Forall2 flattened msgs out.
Proof.
  intros H. pose proof (openai_messages_Forall2 msgs out H) as HF.
  split; [|exact HF]. symmetry. exact (Forall2_length HF).
Qed.

End OpenAIProperties.

Section Pipeline.

Context {L : PyLib}.

Lemma processed_block_plain (block : ContentBlock) :
  is_tool_result block = false ->
  processed_block block = Return (part_of block)
  /\ is_tool_result_part (part_of block) = false
  /\ openai_block_text (part_of block) = openai_rendering block.
Proof.
  destruct block as [text|source|id name input|tool_use_id c]; simpl;
    intros H; try discriminate.
  - repeat split.
  - repeat split.
  - split; [reflexivity|]. split; [reflexivity|].
    unfold part_of, openai_block_text. simpl.
    change (dict_get [("type", PStr "tool_use"); ("id", PStr id);
                      ("name", PStr name); ("input", input)] "input" (PDict []))
      with input.
    destruct (json_dumps input); reflexivity.
Qed.

Lemma processed_blocks_plain (blocks : list ContentBlock) :
  existsb is_tool_result blocks = false ->
  forall acc, processed_blocks blocks acc = Return (acc ++ map part_of blocks).
Proof.
  induction blocks as [|b blocks IH]; simpl; intros H acc.
  - rewrite app_nil_r. reflexivity.
  - apply orb_false_iff in H as [Hb Hrest].
    destruct (processed_block_plain b Hb) as [E _]. rewrite E.
    rewrite (IH Hrest). rewrite <- app_assoc. reflexivity.
Qed.

Lemma parts_plain (blocks : list ContentBlock) :
  existsb is_tool_result blocks = false ->
  existsb is_tool_result_part (map part_of blocks) = false.
Proof.
  induction blocks as [|b blocks IH]; simpl; intros H; [reflexivity|].
  apply orb_false_iff in H as [Hb Hrest].
  destruct (processed_block_plain b Hb) as [_ [E _]]. rewrite E.
  apply IH, Hrest.
Qed.

Lemma append_each_parts (blocks : list ContentBlock) :
  existsb is_tool_result blocks = false ->
  forall text,
    append_each openai_block_text (map part_of blocks) text
    = append_each openai_rendering blocks text.
Proof.
  induction blocks as [|b blocks IH]; simpl; intros H text; [reflexivity|].
  apply orb_false_iff in H as [Hb Hrest].
  destruct (processed_block_plain b Hb) as [_ [_ E]]. rewrite E.
  destruct (openai_rendering b); [apply IH, Hrest|reflexivity].
Qed.

Lemma not_only_tool_results (parts : list pyval) :
  existsb is_tool_result_part parts = false ->
  forallb is_tool_result_part parts && (0 <? length parts)%nat = false.
Proof.
  destruct parts as [|p parts]; simpl; [reflexivity|].
  intros H. apply orb_false_iff in H as [Hp _]. rewrite Hp. reflexivity.
Qed.

Lemma convert_message_plain (msgs : list OutMessage) (msg : Message)
  (blocks : list ContentBlock) :
  content msg = ContentBlocks blocks ->
  existsb is_tool_result blocks = false ->
  convert_message msgs msg
  = Return (msgs ++ [ {| out_role := role_name (role msg);
                         out_content := OutParts (map part_of blocks) |} ]).
Proof.
  intros Hc Hb. unfold convert_message. rewrite Hc, Hb.
  rewrite (processed_blocks_plain blocks Hb []). simpl.
  destruct (role msg); reflexivity.
Qed.

(** A message of blocks without a tool result, for a model with [openai]
    in its name: the request mapper and the processing for OpenAI models
    together give one message whose content is the texts of the blocks,
    each followed by a line feed, a tool use as
    ["[Tool: name (ID: id)]\nInput: json\n\n"] and an image as a fixed
    line, the whole stripped, and ["..."] when nothing is left; the
    exception of [json.dumps] on the input of a tool use is the only
    one. *)
Theorem blocks_for_openai (msgs : list OutMessage) (msg : Message)
  (blocks : list ContentBlock) :
  content msg = ContentBlocks blocks ->
  existsb is_tool_result blocks = false ->
  exists m,
    convert_message msgs msg = Return (msgs ++ [m])
    /\ openai_message m
       = match append_each openai_rendering blocks EmptyString with
         | Return text =>
             Return {| out_role := role_name (role msg);
                       out_content :=
                         OutStr (if PyStr.truthy (PyStr.strip text)
                                 then PyStr.strip text else "...") |}
         | Raise => Raise
         end.
Proof.
  intros Hc Hb. eexists. split; [apply (convert_message_plain msgs msg blocks Hc Hb)|].
  unfold openai_message. cbn [out_content out_role].
  rewrite (not_only_tool_results _ (parts_plain blocks Hb)).
  rewrite (append_each_parts blocks Hb).
  destruct (append_each openai_rendering blocks "") as [text|]; [|reflexivity].
  rewrite strip_placeholder. reflexivity.
Qed.

(** The tool results of a user message never reach the processing for
    OpenAI models as blocks: the request mapper has made a string of the
    message, or its list of parts holds no [tool_result]. *)
Theorem user_tool_results_are_text (msgs out : list OutMessage) (msg : Message) :
  role msg = user ->
  convert_message msgs msg = Return out ->
  exists m,
    out = msgs ++ [m]
    /\ match out_content m with
       | OutStr _ => True
       | OutParts parts => existsb is_tool_result_part parts = false
       end.
Proof.
  intros Hr. unfold convert_message. rewrite Hr.
  destruct (content msg) as [s|blocks].
  - intros H. injection H as H. subst out. eexists. split; [reflexivity|exact I].
  - destruct (existsb is_tool_result blocks) eqn:Hb.
    + destruct (tool_result_text blocks ""); [|discriminate].
      intros H. injection H as H. subst out. eexists. split; [reflexivity|exact I].
    + rewrite (processed_blocks_plain blocks Hb []).
      intros H. injection H as H. subst out. eexists. split; [reflexivity|].
      apply (parts_plain blocks Hb).
Qed.

End Pipeline.

(** The two copies of the validator agree. *)
Theorem validators_agree (cfg : Settings) (v : string) :
  TokenCountRequest_validate_model cfg v = MessagesRequest_validate_model cfg v.
Proof. reflexivity. Qed.

(** The name the validator returns starts with a provider prefix,
    [openai/] or [anthropic/], followed by the name the mappers test
    ([clean_model]); without model swapping the prefix is [anthropic/]. *)
Theorem validate_model_provider (cfg : Settings) (v : string) :
  let m := MessagesRequest_validate_model cfg v in
  (m = "openai/" +++ clean_model_of m \/ m = "anthropic/" +++ clean_model_of m)
  /\ (USE_OPENAI_MODELS cfg = false -> PyStr.startswith m "anthropic/" = true).
Proof.
  cbv zeta. split; [|apply validate_model_claude_only].
  unfold clean_model_of.
  destruct (validate_model_prefixed cfg v) as [H|H].
  - destruct (PyStr.startswith (MessagesRequest_validate_model cfg v) "anthropic/")
      eqn:Ha.
    + right. apply (startswith_drop "anthropic/" _ Ha).
    + rewrite H. left. apply (startswith_drop "openai/" _ H).
  - rewrite H. right. apply (startswith_drop "anthropic/" _ H).
Qed.

(** Validating a validated name changes nothing, without model swapping
    and, with it, when each configured model either starts with [claude]
    or names neither [haiku] nor [sonnet], and the name does not start
    with two prefixes [anthropic/]. *)
Theorem validate_model_idempotent (cfg : Settings) (v : string) :
  USE_OPENAI_MODELS cfg = false
  \/ (resolved (SMALL_MODEL cfg) = true
      /\ resolved (BIG_MODEL cfg) = true
      /\ PyStr.startswith v "anthropic/anthropic/" = false) ->
  MessagesRequest_validate_model cfg (MessagesRequest_validate_model cfg v)
  = MessagesRequest_validate_model cfg v.
Proof. exact (validate_model_twice cfg v). Qed.

Lemma validate_model_idempotent_witness :
  MessagesRequest_validate_model initial_settings
    (MessagesRequest_validate_model initial_settings "claude-3-5-haiku-20241022")
  = MessagesRequest_validate_model initial_settings "claude-3-5-haiku-20241022".
Proof.
  apply (validate_model_idempotent initial_settings "claude-3-5-haiku-20241022").
  right. repeat split.
Defined.

Section CountTokens.

Context {L : PyLib}.

(** [count_tokens] hands to [token_counter] the model and the messages
    that [convert_anthropic_to_litellm] gives [create_message] for the
    same model name, messages and system prompt, whatever the other
    fields of the request, when validating the name twice changes
    nothing; for a model with [openai] in its name these are the messages
    before they are made strings. *)
Theorem count_tokens_as_create_message (cfg : Settings) (v : string)
  (request : MessagesRequest) :
  MessagesRequest_validate_model cfg (MessagesRequest_validate_model cfg v)
  = MessagesRequest_validate_model cfg v ->
  model request = MessagesRequest_validate_model cfg v ->
  count_tokens cfg
    {| tc_model := TokenCountRequest_validate_model cfg v;
       tc_messages := messages request;
       tc_system := system request;
       tc_tools := tools request;
       tc_tool_choice := tool_choice request |}
  = match convert_anthropic_to_litellm (USE_OPENAI_MODELS cfg) request with
    | Return litellm_request =>
        Return (lr_model litellm_request, lr_messages litellm_request)
    | Raise => Raise
    end.
Proof.
  intros H Hm. unfold count_tokens. cbn [tc_model tc_messages tc_system tc_tools tc_tool_choice].
  change (TokenCountRequest_validate_model cfg v)
    with (MessagesRequest_validate_model cfg v).
  rewrite H.
  unfold convert_anthropic_to_litellm. cbn [messages system model].
  destruct (convert_messages (messages request) (system_messages (system request)));
    [|reflexivity].
  cbn [lr_model lr_messages]. rewrite Hm. reflexivity.
Qed.

End CountTokens.

Section TextServed.

Context {L : PyLib}.













End TextServed.

Section MoreResponse.

Context {L : PyLib}.


(** For a model that is no Claude model, the response holds exactly one
    block, a text block: tool calls are written into the text. *)
Theorem other_models_get_text (resp : LiteLLMResponse) (req : MessagesRequest)
  (out : MessagesResponse) :
  PyStr.startswith (clean_model_of (model req)) "claude-" = false ->
  convert_litellm_to_anthropic resp req = Return out ->
  exists text, mr_content out = [TextBlock text].
Proof.
  intros Hother. unfold convert_litellm_to_anthropic. rewrite Hother.
  destruct (extract resp) as [[[content_text tool_calls] finish_reason]|];
    [|discriminate].
  unfold response_content. fold (leading_text content_text).
  assert (Hlead : leading_text content_text = []
                  \/ exists t, leading_text content_text = [TextBlock t]).
  { destruct content_text as [t|]; simpl; [|left; reflexivity].
    destruct (PyStr.truthy t); [right; eexists; reflexivity|left; reflexivity]. }
  destruct tool_calls as [|tc tcs].
  - destruct Hlead as [->|[t ->]]; simpl;
      (destruct (valid_id _); [|discriminate]);
      intros H; injection H as <-; eexists; reflexivity.
  - destruct (tool_text_of (tc :: tcs) _) as [tool_text|]; [|discriminate].
    destruct Hlead as [->|[t ->]]; simpl;
      (destruct (valid_id _); [|discriminate]);
      intros H; injection H as <-; eexists; reflexivity.
Qed.

End MoreResponse.

Section MoreRequest.

Context {L : PyLib}.

Lemma result_content_item_raises (item : pyval) :
  text_not_str item = true -> result_content_item item = Raise.
Proof.
  destruct item as [| | | | | |d|]; simpl; try discriminate.
  intros H. apply andb_prop in H as [Hk Hs]. apply negb_true_iff in Hs.
  destruct (type_is_text d); simpl in Hk.
  - apply add_newline_not_str, Hs.
  - rewrite Hk. apply add_newline_not_str, Hs.
Qed.

Lemma result_content_items_raises (items : list pyval) :
  existsb text_not_str items = true ->
  forall acc, result_content_items items acc = Raise.
Proof.
  induction items as [|item rest IH]; simpl; intros H acc; [discriminate|].
  destruct (text_not_str item) eqn:Hitem; simpl in H.
  - rewrite (result_content_item_raises item Hitem). reflexivity.
  - destruct (result_content_item item); [apply IH, H|reflexivity].
Qed.

Lemma tool_result_text_bad (blocks : list ContentBlock) :
  existsb bad_tool_result blocks = true ->
  forall acc, tool_result_text blocks acc = Raise.
Proof.
  induction blocks as [|b rest IH]; simpl; intros H acc; [discriminate|].
  destruct (bad_tool_result b) eqn:Hb; simpl in H.
  - destruct b as [| | |id c]; try discriminate. destruct c; try discriminate.
    simpl. simpl in Hb. rewrite (result_content_items_raises l Hb). reflexivity.
  - destruct (tool_result_fragment b); [apply IH, H|reflexivity].
Qed.

Lemma bad_is_tool_result (blocks : list ContentBlock) :
  existsb bad_tool_result blocks = true -> existsb is_tool_result blocks = true.
Proof.
  induction blocks as [|b rest IH]; simpl; intros H; [discriminate|].
  destruct (bad_tool_result b) eqn:Hb; simpl in H.
  - destruct b; try discriminate. reflexivity.
  - rewrite (IH H). apply orb_true_r.
Qed.

Lemma convert_message_bad (msgs : list OutMessage) (msg : Message) :
  bad_user_message msg = true -> convert_message msgs msg = Raise.
Proof.
  unfold bad_user_message, convert_message.
  destruct (role msg); [|discriminate].
  destruct (content msg) as [s|blocks]; [discriminate|].
  intros H. rewrite (bad_is_tool_result blocks H).
  rewrite (tool_result_text_bad blocks H). reflexivity.
Qed.

Lemma convert_messages_bad (l : list Message) :
  existsb bad_user_message l = true ->
  forall msgs, convert_messages l msgs = Raise.
Proof.
  induction l as [|msg rest IH]; simpl; intros H msgs; [discriminate|].
  destruct (bad_user_message msg) eqn:Hm; simpl in H.
  - rewrite (convert_message_bad msgs msg Hm). reflexivity.
  - destruct (convert_message msgs msg); [apply IH, H|reflexivity].
Qed.

(** A tool result of a user message whose list content holds a dict with
    a [text] that is no string makes the request mapper raise: the
    [TypeError] of [text + "\n"] is not caught, and [create_message]
    ends in its exception handler, whatever the model and the keys. *)
Theorem non_string_text_fails_request (USE_OPENAI_MODELS : bool)
  (anthropic_request : MessagesRequest) :
  existsb bad_user_message (messages anthropic_request) = true ->
  convert_anthropic_to_litellm USE_OPENAI_MODELS anthropic_request = Raise
  /\ forall env,
       create_message USE_OPENAI_MODELS env anthropic_request = Exception.
Proof.
  intros H.
  assert (E : convert_anthropic_to_litellm USE_OPENAI_MODELS anthropic_request
              = Raise).
  { unfold convert_anthropic_to_litellm.
    rewrite (convert_messages_bad (messages anthropic_request) H). reflexivity. }
  split; [exact E|]. intros env. unfold create_message. rewrite E. reflexivity.
Qed.

End MoreRequest.

(** *** The theorems on concrete inputs *)

(** Two Claude models written with their prefix, and the Anthropic key
    only: a request for a haiku model is sent with that key. *)
Lemma claude_only_uses_anthropic_key_witness :
  match
    create_message (L := ref_lib) false
      {| ANTHROPIC_API_KEY := Some "sk-ant"; OPENAI_API_KEY := None |}
      (request_of "anthropic/claude-3-haiku-20240307" 1024 [] None)
  with
  | HTTPException _ _ => False
  | Exception => True
  | Completion api_key _ => Some "sk-ant" = Some api_key
  end.
Proof.
  exact (@claude_only_uses_anthropic_key ref_lib
           {| ANTHROPIC_API_KEY := Some "sk-ant"; OPENAI_API_KEY := None |}
           initial_settings
           {| BIG_MODEL := "anthropic/claude-3-7-sonnet-20250219";
              SMALL_MODEL := "anthropic/claude-3-haiku-20240307";
              USE_OPENAI_MODELS := false |}
           "anthropic/claude-3-7-sonnet-20250219"
           "anthropic/claude-3-haiku-20240307"
           "anthropic/claude-3-7-sonnet-20250219"
           "anthropic/claude-3-haiku-20240307"
           "claude-3-haiku-20240307"
           (request_of "anthropic/claude-3-haiku-20240307" 1024 [] None)
           eq_refl eq_refl).
Defined.

(** An assistant message of one text block, for an OpenAI model. *)
Lemma openai_messages_flattened_witness :
  length [ {| out_role := "assistant"; out_content := OutStr "hi" |} ]
  = length [ {| out_role := "assistant";
                out_content := OutParts [text_part (PStr "hi")] |} ]
  /\ Forall2 flattened
       [ {| out_role := "assistant";
            out_content := OutParts [text_part (PStr "hi")] |} ]
       [ {| out_role := "assistant"; out_content := OutStr "hi" |} ].
Proof.
  exact (@openai_messages_flattened ref_lib
           [ {| out_role := "assistant";
                out_content := OutParts [text_part (PStr "hi")] |} ]
           [ {| out_role := "assistant"; out_content := OutStr "hi" |} ]
           eq_refl).
Defined.

(** An assistant message with a text and a tool use. *)
Lemma blocks_for_openai_witness :
  exists m,
    convert_message (L := ref_lib) []
      {| role := assistant;
         content := ContentBlocks
                      [ContentBlockText "Let me look.";
                       ContentBlockToolUse "t1" "search"
                         (PDict [("q", PStr "x")])] |}
    = Return ([] ++ [m])
    /\ openai_message (L := ref_lib) m
       = match
           append_each (openai_rendering (L := ref_lib))
             [ContentBlockText "Let me look.";
              ContentBlockToolUse "t1" "search" (PDict [("q", PStr "x")])]
             EmptyString
         with
         | Return text =>
             Return {| out_role := "assistant";
                       out_content :=
                         OutStr (if PyStr.truthy (PyStr.strip text)
                                 then PyStr.strip text else "...") |}
         | Raise => Raise
         end.
Proof.
  exact (@blocks_for_openai ref_lib []
           {| role := assistant;
              content := ContentBlocks
                           [ContentBlockText "Let me look.";
                            ContentBlockToolUse "t1" "search"
                              (PDict [("q", PStr "x")])] |}
           [ContentBlockText "Let me look.";
            ContentBlockToolUse "t1" "search" (PDict [("q", PStr "x")])]
           eq_refl eq_refl).
Defined.

(** The user message of the tool result [42]. *)
Lemma user_tool_results_are_text_witness :
  exists m,
    [user_text ("Tool result for t1:" +++ NL +++ "42")] = [] ++ [m]
    /\ match out_content m with
       | OutStr _ => True
       | OutParts parts => existsb is_tool_result_part parts = false
       end.
Proof.
  exact (@user_tool_results_are_text ref_lib []
           [user_text ("Tool result for t1:" +++ NL +++ "42")]
           tool_result_42 eq_refl eq_refl).
Defined.

(** Counting the tokens of the tool result [42] for a haiku model, with
    the settings the module starts with. *)
Lemma count_tokens_as_create_message_witness :
  count_tokens (L := ref_lib) initial_settings
    {| tc_model :=
         TokenCountRequest_validate_model initial_settings
           "claude-3-5-haiku-20241022";
       tc_messages := [tool_result_42];
       tc_system := None;
       tc_tools := None;
       tc_tool_choice := None |}
  = match
      convert_anthropic_to_litellm (L := ref_lib) true
        (request_of "anthropic/claude-3-5-haiku-20241022" 1024
           [tool_result_42] None)
    with
    | Return litellm_request =>
        Return (lr_model litellm_request, lr_messages litellm_request)
    | Raise => Raise
    end.
Proof.
  exact (@count_tokens_as_create_message ref_lib initial_settings
           "claude-3-5-haiku-20241022"
           (request_of "anthropic/claude-3-5-haiku-20241022" 1024
              [tool_result_42] None)
           eq_refl eq_refl).
Defined.


(** The tool call of scenario E, for a model of OpenAI. *)
Lemma other_models_get_text_witness :
  exists text,
    [TextBlock ("Let me look." +++ NL +++ NL +++ "Tool usage:" +++ NL
                +++ "Tool: search" +++ NL +++ "Arguments: {bad json"
                +++ NL +++ NL)]
    = [TextBlock text].
Proof.
  exact (@other_models_get_text ref_lib
           (response_of (Some "Let me look.") [bad_json_call] (Some "tool_calls"))
           (request_of "openai/gpt-4o" 1024 [] None)
           _ eq_refl eq_refl).
Defined.

(** A tool result whose text is the number 42. *)
Lemma non_string_text_fails_request_witness :
  convert_anthropic_to_litellm (L := ref_lib) true
    (request_of "openai/gpt-4o" 1024
       [ {| role := user;
            content := ContentBlocks
                         [ContentBlockToolResult "t1"
                            (PList [PDict [("type", PStr "text");
                                           ("text", PInt 42)]])] |} ]
       None)
  = Raise.
Proof.
  exact (proj1
           (@non_string_text_fails_request ref_lib true
              (request_of "openai/gpt-4o" 1024
                 [ {| role := user;
                      content := ContentBlocks
                                   [ContentBlockToolResult "t1"
                                      (PList [PDict [("type", PStr "text");
                                                     ("text", PInt 42)]])] |} ]
                 None)
              eq_refl)).
Defined.

(** ** The protocol of the content blocks *)

(** *** The protocol of the content blocks *)

Section Stream1.

Context {L : PyLib}.

Lemma run_app (evs evs' : list Event) :
  forall blocks,
    run blocks (evs ++ evs')
    = match run blocks evs with
      | Some blocks' => run blocks' evs'
      | None => None
      end.
Proof.
  induction evs as [|e evs IH]; intros [next open]; [reflexivity|].
  cbn [app run].
  destruct e as [m|i b| |i d|i|sr em ot| |]; try apply IH.
  - destruct (Nat.eqb i next); [apply IH|reflexivity].
  - destruct (is_open i (kind_of_delta d) open); [apply IH|reflexivity].
  - destruct (has_index i open); [apply IH|reflexivity].
  - destruct open; [apply IH|reflexivity].
Qed.

Section FollowsRules.

Variable J : StreamState -> Prop.

Lemma follows_ret {A : Type} (a : A) : follows J (ret a).
Proof. intros st Hst. split; [reflexivity|exact Hst]. Qed.



Lemma follows_when (b : bool) (m : Gen unit) :
  follows J m -> follows J (when_ b m).
Proof. destruct b; [intros H; exact H|intros _; apply follows_ret]. Qed.


End FollowsRules.





Lemma close_text_block_follows (st : StreamState) :
  between st ->
  follows_at st (close_text_block st) /\ in_tools (state_of (close_text_block st)).
Proof.
  intros Hst. pose proof Hst as [(Hopen & Hanth & Htool & Hsent) Hclosed].
  destruct (text_block_closed st) eqn:Hc.
  - assert (E : close_text_block st = ([], st, Next tt)).
    { unfold close_text_block. rewrite bind_get, Hc. cbn [negb].
      rewrite !andb_false_r. reflexivity. }
    rewrite E. split; [reflexivity|]. split; [exact (proj1 Hst)|exact Hc].
  - destruct (Hopen eq_refl) as [Hnone Hl].
    assert (Hin : forall st', tool_index st' = tool_index st ->
                    last_tool_index st' = last_tool_index st ->
                    has_sent_stop_reason st' = has_sent_stop_reason st ->
                    text_block_closed st' = true -> in_tools st').
    { intros st' H1 H2 H4 H5. split; [|exact H5].
      unfold agree. rewrite H1, H2, H4, H5, Hl, Hnone.
      split; [intros X; discriminate X|].
      split; [intros X; inversion X|].
      split; [intros X; discriminate X|exact Hsent]. }
    unfold close_text_block. rewrite bind_get, Hc. cbn [negb].
    rewrite !andb_true_r.
    unfold follows_at, blocks_of.
    destruct (text_sent st).
    + gen_run. unfold events_of, state_of. cbn [fst snd].
      split; [|apply Hin; reflexivity].
      cbn [last_tool_index text_block_closed set_text_block_closed].
      rewrite Hc, Hl. reflexivity.
    + cbn [negb andb]. rewrite andb_true_r.
      destruct (PyStr.truthy (accumulated_text st)).
      * gen_run. unfold events_of, state_of. cbn [fst snd].
        split; [|apply Hin; reflexivity].
        cbn [last_tool_index text_block_closed set_text_block_closed set_text_sent].
        rewrite Hc, Hl. reflexivity.
      * gen_run. unfold events_of, state_of. cbn [fst snd].
        split; [|apply Hin; reflexivity].
        cbn [last_tool_index text_block_closed set_text_block_closed].
        rewrite Hc, Hl. reflexivity.
Qed.

Lemma tool_blocks_S (n : nat) :
  tool_blocks (S n) = tool_blocks n ++ [(S n, ToolKind)].
Proof. unfold tool_blocks. rewrite seq_S, map_app. reflexivity. Qed.

Lemma is_open_last (i : nat) (k : Kind) (open : list (nat * Kind)) :
  is_open i k (open ++ [(i, k)]) = true.
Proof.
  unfold is_open. rewrite existsb_app. cbn. rewrite Nat.eqb_refl.
  destruct k; cbn; apply orb_true_r.
Qed.

Lemma is_open_tool (i n : nat) :
  1 <= i <= n -> is_open i ToolKind (tool_blocks n) = true.
Proof.
  intros Hi. unfold is_open, tool_blocks. apply existsb_exists.
  exists (i, ToolKind). split.
  - apply in_map_iff. exists i. split; [reflexivity|]. apply in_seq. lia.
  - cbn. rewrite Nat.eqb_refl. reflexivity.
Qed.

(** The block a tool call starts is the [started_block] of the call. *)
Lemma started_block_eq (tool_call : ToolCallDelta) :
  StartToolUse (ident_or_fresh "toolu_" (tcd_id tool_call))
    (name_or_empty (tcd_name tool_call))
  = started_block tool_call.
Proof.
  unfold started_block, ident_or_fresh, name_or_empty.
  destruct (tcd_id tool_call), (tcd_name tool_call); reflexivity.
Qed.

Lemma start_tool_block_run (tool_call : ToolCallDelta) (st : StreamState) :
  start_tool_block tool_call (index_of tool_call) st
  = ([ContentBlockStart (S (last_tool_index st)) (started_block tool_call)],
     started tool_call st, Next tt).
Proof.
  unfold start_tool_block. rewrite started_block_eq.
  gen_run. unfold modify. reflexivity.
Qed.

Lemma append_arguments_run (arguments : string) (st : StreamState) (i : nat) :
  anthropic_tool_index st = Some i ->
  bind (modify (fun st => set_tool_content (tool_content st +++ arguments) st))
    (fun _ =>
     bind get
       (fun st2 =>
        match anthropic_tool_index st2 with
        | Some i => yield (ContentBlockDelta i (InputJsonDelta arguments))
        | None => raise
        end)) st
  = ([ContentBlockDelta i (InputJsonDelta arguments)],
     set_tool_content (tool_content st +++ arguments) st, Next tt).
Proof.
  intros H. gen_run.
  change (anthropic_tool_index
            (set_tool_content (tool_content st +++ arguments) st))
    with (anthropic_tool_index st).
  rewrite H. reflexivity.
Qed.

(** What [send_arguments] does, by the arguments of the call: nothing
    without arguments; an exception when the call [breaks]; otherwise a
    delta to the block of [anthropic_tool_index]. *)
Lemma send_arguments_run (tool_call : ToolCallDelta) (st : StreamState) (i : nat) :
  anthropic_tool_index st = Some i ->
  send_arguments tool_call st
  = match tcd_arguments tool_call with
    | Some arguments =>
        if PyStr.truthy arguments then
          if breaks tool_call then ([], st, Raised)
          else ([ContentBlockDelta i (InputJsonDelta arguments)],
                set_tool_content (tool_content st +++ arguments) st, Next tt)
        else ([], st, Next tt)
    | None => ([], st, Next tt)
    end.
Proof.
  intros Hi. unfold send_arguments, breaks.
  destruct (tcd_arguments tool_call) as [arguments|]; [|reflexivity].
  destruct (PyStr.truthy arguments); [|reflexivity].
  unfold when_. cbn [andb].
  destruct (json_loads arguments).
  - rewrite bind_ret. apply append_arguments_run, Hi.
  - rewrite bind_ret. apply append_arguments_run, Hi.
  - reflexivity.
Qed.

Lemma send_arguments_follows (tool_call : ToolCallDelta) (st : StreamState) :
  in_call st ->
  follows_at st (send_arguments tool_call st)
  /\ in_call (state_of (send_arguments tool_call st)).
Proof.
  intros Hst. pose proof Hst as [[(_ & Hanth & _ & _) Hc] Hge].
  rewrite (send_arguments_run tool_call st _ (Hanth Hge)).
  destruct (tcd_arguments tool_call) as [arguments|];
    [|split; [reflexivity|exact Hst]].
  destruct (PyStr.truthy arguments); [|split; [reflexivity|exact Hst]].
  destruct (breaks tool_call); [split; [reflexivity|exact Hst]|].
  split; [|exact Hst].
  unfold follows_at, events_of, state_of, blocks_of. cbn [fst snd].
  cbn [last_tool_index text_block_closed set_tool_content].
  rewrite Hc. cbn [app run kind_of_delta].
  rewrite (is_open_tool (last_tool_index st) (last_tool_index st));
    [reflexivity|lia].
Qed.

Lemma handle_tool_call_follows (tool_call : ToolCallDelta) (st : StreamState) :
  in_tools st ->
  follows_at st (handle_tool_call tool_call st)
  /\ in_call (state_of (handle_tool_call tool_call st)).
Proof.
  intros Hst. pose proof Hst as [(Hopen & Hanth & Htool & Hsent) Hclosed].
  assert (Hstarted : in_call (started tool_call st)).
  { assert (Hge : 1 <= last_tool_index (started tool_call st)).
    { cbn [last_tool_index started set_tool_content set_current_tool_call
           set_anthropic_tool_index set_last_tool_index set_tool_index]. lia. }
    split; [split; [|exact Hclosed]|exact Hge].
    split; [intros X; change (text_block_closed st = false) in X;
            rewrite Hclosed in X; discriminate X|].
    split; [intros _; reflexivity|].
    split; [intros _; exact Hge|exact Hsent]. }
  assert (Hblocks : run (blocks_of st)
            [ContentBlockStart (S (last_tool_index st)) (started_block tool_call)]
          = Some (blocks_of (started tool_call st))).
  { unfold blocks_of.
    cbn [last_tool_index text_block_closed started set_tool_content
         set_current_tool_call set_anthropic_tool_index
         set_last_tool_index set_tool_index].
    rewrite Hclosed. cbn [app run]. rewrite Nat.eqb_refl.
    unfold started_block. cbn [kind_of_block]. rewrite tool_blocks_S.
    reflexivity. }
  unfold handle_tool_call. rewrite bind_get. unfold follows_at.
  destruct (is_new_tool (tool_index st) (index_of tool_call)) eqn:Hcond;
    unfold when_.
  - rewrite (bind_next _ _ _ _ _ _ (start_tool_block_run tool_call st)).
    rewrite events_of_prepend, state_of_prepend.
    destruct (send_arguments_follows tool_call _ Hstarted) as [Hrun Hin].
    split; [|exact Hin].
    rewrite run_app, Hblocks. exact Hrun.
  - assert (Hsome : is_none (tool_index st) = false).
    { destruct (tool_index st); [reflexivity|discriminate Hcond]. }
    rewrite bind_ret.
    exact (send_arguments_follows tool_call st (conj Hst (Htool Hsome))).
Qed.


Lemma in_call_between (st : StreamState) : in_call st -> between st.
Proof. intros [[Ha _] Hs]. split; [exact Ha|intros _; exact Hs]. Qed.














Lemma between_initial : between initial_state.
Proof.
  split; [|intros X; discriminate X].
  split; [intros _; split; reflexivity|]. split; [intros X; inversion X|].
  split; [intros X; discriminate X|reflexivity].
Qed.


(** ** The tool calls of a stream *)


Lemma routing_app (calls calls' : list ToolCallDelta) :
  forall current n,
    routing current n (calls ++ calls')
    = routing (fst (routing current n calls)) (snd (routing current n calls))
        calls'.
Proof.
  induction calls as [|tc calls IH]; intros current n; [reflexivity|].
  cbn [app routing]. apply IH.
Qed.

Lemma changes_new_tool (current : option Z) (tool_call : ToolCallDelta) :
  is_new_tool current (index_of tool_call) = changes current tool_call.
Proof.
  unfold is_new_tool, changes, index_of, call_index.
  destruct current, (tcd_index tool_call); reflexivity.
Qed.

Lemma call_index_of (tool_call : ToolCallDelta) :
  index_of tool_call = call_index tool_call.
Proof. reflexivity. Qed.

(** One tool call, in the loop over the tool calls: its events are those
    of [routed], and it raises when the call [breaks]. *)
Lemma handle_tool_call_run (tool_call : ToolCallDelta) (st : StreamState) :
  in_tools st ->
  exists st',
    handle_tool_call tool_call st
    = (routed (tool_index st) (last_tool_index st) [tool_call], st',
       if breaks tool_call then Raised else Next tt)
    /\ in_call st'
    /\ routed_to st' (routing (tool_index st) (last_tool_index st) [tool_call]).
Proof.
  intros Hst.
  destruct (handle_tool_call_follows tool_call st Hst) as [_ Hin].
  pose proof Hst as [(Hopen & Hanth & Htool & Hsent) Hclosed].
  assert (Hsend : forall st0 i,
            anthropic_tool_index st0 = Some i ->
            exists st1,
              send_arguments tool_call st0
              = (match tcd_arguments tool_call with
                 | Some arguments =>
                     if PyStr.truthy arguments && negb (breaks tool_call)
                     then [ContentBlockDelta i (InputJsonDelta arguments)]
                     else []
                 | None => []
                 end, st1, if breaks tool_call then Raised else Next tt)
              /\ tool_index st1 = tool_index st0
              /\ last_tool_index st1 = last_tool_index st0).
  { intros st0 i Hi. rewrite (send_arguments_run tool_call st0 i Hi).
    unfold breaks.
    destruct (tcd_arguments tool_call) as [arguments|];
      [|exists st0; repeat split].
    destruct (PyStr.truthy arguments); cbn [andb]; [|exists st0; repeat split].
    destruct (json_loads arguments); cbn [negb];
      eexists; repeat split. }
  revert Hin. unfold handle_tool_call. rewrite bind_get.
  cbn [routed routing]. rewrite changes_new_tool, call_index_of.
  destruct (changes (tool_index st) tool_call) eqn:Hcond; cbn [when_].
  - rewrite (bind_next _ _ _ _ _ _ (start_tool_block_run tool_call st)).
    destruct (Hsend (started tool_call st) (S (last_tool_index st)) eq_refl)
      as (st1 & Hrun & Hi & Hl).
    rewrite Hrun, prepend_tuple. rewrite app_nil_r.
    unfold state_of. cbn [fst snd]. intros Hin.
    exists st1. split; [reflexivity|]. split; [exact Hin|].
    unfold routed_to. rewrite Hi, Hl. reflexivity.
  - assert (Hsome : is_none (tool_index st) = false).
    { unfold changes in Hcond.
      destruct (tool_index st); [reflexivity|discriminate Hcond]. }
    rewrite bind_ret.
    destruct (Hsend st (last_tool_index st) (Hanth (Htool Hsome)))
      as (st1 & Hrun & Hi & Hl).
    rewrite Hrun, app_nil_r. unfold state_of. cbn [fst snd]. intros Hin.
    exists st1. split; [reflexivity|]. split; [exact Hin|].
    unfold routed_to. rewrite Hi, Hl.
    unfold changes in Hcond.
    destruct (tool_index st) as [i|]; [|discriminate Hsome].
    destruct (call_index tool_call) as [j|]; [|discriminate Hcond].
    apply negb_false_iff, Z.eqb_eq in Hcond. rewrite Hcond. reflexivity.
Qed.

Lemma in_call_in_tools (st : StreamState) : in_call st -> in_tools st.
Proof. intros [H _]. exact H. Qed.

(** The loop over the tool calls of a chunk: it handles the calls that
    are [reached], and raises when one of them [breaks]. *)
Lemma tool_loop_run (calls : list ToolCallDelta) :
  forall st, in_tools st ->
    exists st',
      for_each calls handle_tool_call st
      = (routed (tool_index st) (last_tool_index st) (reached calls), st',
         if existsb breaks calls then Raised else Next tt)
      /\ in_tools st'
      /\ routed_to st'
           (routing (tool_index st) (last_tool_index st) (reached calls))
      /\ (calls <> [] -> in_call st').
Proof.
  induction calls as [|tc calls IH]; intros st Hst.
  - exists st. split; [reflexivity|]. split; [exact Hst|].
    split; [reflexivity|]. intros H. elim H. reflexivity.
  - destruct (handle_tool_call_run tc st Hst) as (st1 & Hrun & Hin & Hto).
    cbn [for_each reached existsb].
    destruct (breaks tc) eqn:Hb; cbn [orb].
    + exists st1. rewrite (bind_raised _ _ _ _ _ Hrun).
      split; [reflexivity|]. split; [apply in_call_in_tools, Hin|].
      split; [exact Hto|]. intros _. exact Hin.
    + destruct (IH st1 (in_call_in_tools st1 Hin))
        as (st2 & Hrun' & Hin' & Hto' & Hne).
      exists st2.
      rewrite (bind_next _ _ _ _ _ _ Hrun), Hrun', prepend_tuple.
      unfold routed_to in Hto. cbn [routing] in Hto.
      injection Hto as Hi Hl.
      split.
      { f_equal. f_equal. cbn [routed]. rewrite app_nil_r, <- app_assoc.
        rewrite Hi, Hl. reflexivity. }
      split; [exact Hin'|]. split.
      { unfold routed_to in *. cbn [routing]. rewrite <- Hi, <- Hl. exact Hto'. }
      intros _. destruct calls as [|tc' calls'].
      * cbn in Hrun'. unfold ret in Hrun'. injection Hrun' as <-. exact Hin.
      * apply Hne. discriminate.
Qed.

Lemma no_tool_event_stops (l : list nat) :
  filter is_tool_event (map ContentBlockStop l) = [].
Proof. induction l as [|i l IH]; [reflexivity|exact IH]. Qed.

Lemma close_text_block_run (st : StreamState) :
  between st ->
  exists evs st',
    close_text_block st = (evs, st', Next tt)
    /\ filter is_tool_event evs = []
    /\ in_tools st'
    /\ tool_index st' = tool_index st
    /\ last_tool_index st' = last_tool_index st.
Proof.
  intros Hst.
  destruct (close_text_block_follows st Hst) as [_ Hin].
  revert Hin. unfold close_text_block. rewrite bind_get.
  destruct (text_block_closed st) eqn:Hc; cbn [negb].
  - rewrite !andb_false_r. unfold state_of, ret. cbn [fst snd]. intros Hin.
    eexists _, _. split; [reflexivity|]. split; [reflexivity|].
    split; [exact Hin|]. split; reflexivity.
  - rewrite !andb_true_r.
    destruct (text_sent st).
    + gen_run. unfold state_of. cbn [fst snd]. intros Hin.
      eexists _, _. split; [reflexivity|]. split; [reflexivity|].
      split; [exact Hin|]. split; reflexivity.
    + cbn [negb andb]. rewrite andb_true_r.
      destruct (PyStr.truthy (accumulated_text st)); gen_run;
        unfold state_of; cbn [fst snd]; intros Hin;
        (eexists _, _; split; [reflexivity|]; split; [reflexivity|];
         split; [exact Hin|]; split; reflexivity).
Qed.

Lemma routed_tool_events (calls : list ToolCallDelta) :
  forall current n,
    filter is_tool_event (routed current n calls) = routed current n calls.
Proof.
  induction calls as [|c calls IH]; intros current n; [reflexivity|].
  cbn [routed]. rewrite !filter_app, IH.
  destruct (changes current c);
    destruct (tcd_arguments c) as [a|];
    try destruct (PyStr.truthy a && negb (breaks c));
    reflexivity.
Qed.

Lemma handle_tool_calls_run (calls : list ToolCallDelta) (st : StreamState) :
  between st ->
  exists evs st',
    handle_tool_calls calls st
    = (evs, st', if existsb breaks calls then Raised else Next tt)
    /\ filter is_tool_event evs
       = routed (tool_index st) (last_tool_index st) (reached calls)
    /\ between st'
    /\ routed_to st'
         (routing (tool_index st) (last_tool_index st) (reached calls)).
Proof.
  intros Hst. unfold handle_tool_calls.
  destruct calls as [|tc tcs].
  { exists [], st. split; [reflexivity|]. split; [reflexivity|].
    split; [exact Hst|reflexivity]. }
  assert (Htools : forall st0 : StreamState,
            in_tools st0 ->
            exists st',
              for_each (tc :: tcs) handle_tool_call st0
              = (routed (tool_index st0) (last_tool_index st0)
                   (reached (tc :: tcs)),
                 st', if existsb breaks (tc :: tcs) then Raised else Next tt)
              /\ between st'
              /\ routed_to st'
                   (routing (tool_index st0) (last_tool_index st0)
                      (reached (tc :: tcs)))).
  { intros st0 Hst0.
    destruct (tool_loop_run (tc :: tcs) st0 Hst0) as (st' & Hrun & _ & Hto & Hne).
    exists st'. split; [exact Hrun|]. split; [|exact Hto].
    apply in_call_between, Hne. discriminate. }
  rewrite bind_get.
  destruct (is_none (tool_index st)) eqn:Hnone; unfold when_.
  - destruct (close_text_block_run st Hst)
      as (evs0 & st0 & Hrun0 & Hev0 & Hin0 & Hi & Hl).
    destruct (Htools st0 Hin0) as (st' & Hrun & Hb & Hto).
    rewrite (bind_next _ _ _ _ _ _ Hrun0), Hrun, prepend_tuple.
    exists (evs0 ++ routed (tool_index st0) (last_tool_index st0)
                      (reached (tc :: tcs))), st'.
    split; [reflexivity|]. rewrite filter_app, Hev0, routed_tool_events.
    rewrite Hi, Hl in *. split; [reflexivity|]. split; assumption.
  - rewrite bind_ret.
    assert (Hin : in_tools st).
    { destruct Hst as [Ha _]. split; [exact Ha|].
      destruct Ha as (Hopen & _).
      destruct (text_block_closed st); [reflexivity|].
      destruct (Hopen eq_refl) as [Hn _]. rewrite Hn in Hnone. discriminate. }
    destruct (Htools st Hin) as (st' & Hrun & Hb & Hto).
    exists (routed (tool_index st) (last_tool_index st) (reached (tc :: tcs))), st'.
    rewrite routed_tool_events. split; [exact Hrun|]. split; [reflexivity|].
    split; assumption.
Qed.

Lemma update_usage_run (chunk : Chunk) (st : StreamState) :
  between st ->
  exists st',
    update_usage chunk st = ([], st', Next tt)
    /\ between st'
    /\ tool_index st' = tool_index st
    /\ last_tool_index st' = last_tool_index st.
Proof.
  intros Hst. unfold update_usage.
  destruct (ck_usage chunk) as [u|];
    [|exists st; split; [reflexivity|]; split; [exact Hst|];
      split; reflexivity].
  destruct (prompt_tokens u), (completion_tokens u); gen_run;
    unfold modify, ret; eexists; (split; [reflexivity|]);
    (split; [exact Hst|]); split; reflexivity.
Qed.

Lemma handle_text_run (delta_content : DeltaContent) (st : StreamState) :
  between st ->
  exists evs st' fl,
    handle_text delta_content st = (evs, st', fl)
    /\ filter is_tool_event evs = []
    /\ between st'
    /\ tool_index st' = tool_index st
    /\ last_tool_index st' = last_tool_index st
    /\ fl = match delta_content with OtherContent => Raised | _ => Next tt end.
Proof.
  intros Hst. unfold handle_text.
  assert (Hidle : forall fl : Flow unit,
            exists evs st' fl',
              ([] : list Event, st, fl) = (evs, st', fl')
              /\ filter is_tool_event evs = []
              /\ between st'
              /\ tool_index st' = tool_index st
              /\ last_tool_index st' = last_tool_index st
              /\ fl' = fl).
  { intros fl. exists [], st, fl. split; [reflexivity|].
    split; [reflexivity|]. split; [exact Hst|]. repeat split. }
  destruct delta_content as [|s|]; try apply Hidle.
  destruct (PyStr.truthy s); [|apply Hidle].
  unfold when_. gen_run.
  change (tool_index (set_accumulated_text (accumulated_text st +++ s) st))
    with (tool_index st).
  change (text_block_closed (set_accumulated_text (accumulated_text st +++ s) st))
    with (text_block_closed st).
  destruct (is_none (tool_index st) && negb (text_block_closed st)); gen_run;
    unfold modify;
    eexists _, _, _; (split; [reflexivity|]); (split; [reflexivity|]);
    (split; [exact Hst|]); repeat split.
Qed.

Lemma no_tool_event_closing (st : StreamState) (rest : list Event) :
  filter is_tool_event (tool_stops st ++ text_flush st ++ rest)
  = filter is_tool_event rest.
Proof.
  rewrite !filter_app. unfold tool_stops, text_flush.
  assert (H1 : filter is_tool_event
                 (if is_none (tool_index st) then []
                  else map ContentBlockStop (seq 1 (last_tool_index st))) = []).
  { destruct (is_none (tool_index st)); [reflexivity|apply no_tool_event_stops]. }
  rewrite H1.
  destruct (text_block_closed st); [reflexivity|].
  destruct (PyStr.truthy (accumulated_text st) && negb (text_sent st));
    reflexivity.
Qed.

(** [finishes], unfolded. *)
Lemma finishes_eq (chunk : Chunk) :
  finishes chunk
  = match ck_choices chunk with
    | ChoicesList (choice :: _) =>
        match d_content (sc_delta choice) with
        | OtherContent => false
        | _ =>
            match sc_finish_reason choice with
            | Some fr =>
                PyStr.truthy fr
                && negb (existsb breaks (d_tool_calls (sc_delta choice)))
            | None => false
            end
        end
    | _ => false
    end.
Proof.
  unfold finishes, chunk_finish_reason.
  destruct (ck_choices chunk) as [| |[|choice rest]]; try reflexivity.
  destruct (d_content (sc_delta choice)); try reflexivity;
    (destruct (sc_finish_reason choice) as [fr|]; [|reflexivity];
     destruct (PyStr.truthy fr && _); reflexivity).
Qed.

(** One chunk, between two chunks: it handles the [chunk_calls], and it
    returns exactly when the chunk [finishes]. *)
Lemma process_chunk_calls (chunk : Chunk) (st : StreamState) :
  between st ->
  filter is_tool_event (events_of (process_chunk chunk st))
  = routed (tool_index st) (last_tool_index st) (chunk_calls chunk)
  /\ routed_to (state_of (process_chunk chunk st))
       (routing (tool_index st) (last_tool_index st) (chunk_calls chunk))
  /\ if finishes chunk
     then flow_of (process_chunk chunk st) = Returned
     else flow_of (process_chunk chunk st) <> Returned
          /\ between (state_of (process_chunk chunk st)).
Proof.
  intros Hst. rewrite finishes_eq. unfold process_chunk, chunk_calls.
  destruct (update_usage_run chunk st Hst) as (st1 & Hu & Hst1 & Hi1 & Hl1).
  rewrite (bind_next _ _ _ _ _ _ Hu), prepend_nil. rewrite <- Hi1, <- Hl1.
  clear Hu Hi1 Hl1 Hst st. rename st1 into st. rename Hst1 into Hst.
  assert (Hidle : forall fl : Flow unit, fl <> Returned ->
    filter is_tool_event (events_of ([] : list Event, st, fl)) = []
    /\ routed_to (state_of ([] : list Event, st, fl))
         (tool_index st, last_tool_index st)
    /\ (flow_of ([] : list Event, st, fl) <> Returned
        /\ between (state_of ([] : list Event, st, fl)))).
  { intros fl Hfl. split; [reflexivity|]. split; [reflexivity|].
    split; [exact Hfl|exact Hst]. }
  destruct (ck_choices chunk) as [| |[|choice rest]];
    try (apply Hidle; discriminate).
  destruct (handle_text_run (d_content (sc_delta choice)) st Hst)
    as (evs1 & st1 & fl1 & Ht & Hev1 & Hst1 & Hi1 & Hl1 & Hfl1).
  destruct (handle_tool_calls_run (d_tool_calls (sc_delta choice)) st1 Hst1)
    as (evs2 & st2 & Hc & Hev2 & Hst2 & Hto2).
  rewrite Hi1, Hl1 in Hev2, Hto2.
  assert (Hrest :
    let r := bind (handle_tool_calls (d_tool_calls (sc_delta choice)))
               (fun _ => handle_finish (sc_finish_reason choice)) st1 in
    filter is_tool_event (events_of r)
    = routed (tool_index st) (last_tool_index st)
        (reached (d_tool_calls (sc_delta choice)))
    /\ routed_to (state_of r)
         (routing (tool_index st) (last_tool_index st)
            (reached (d_tool_calls (sc_delta choice))))
    /\ if match sc_finish_reason choice with
          | Some fr =>
              PyStr.truthy fr
              && negb (existsb breaks (d_tool_calls (sc_delta choice)))
          | None => false
          end
       then flow_of r = Returned
       else flow_of r <> Returned /\ between (state_of r)).
  { cbv zeta.
    destruct (existsb breaks (d_tool_calls (sc_delta choice))) eqn:Hb.
    - rewrite (bind_raised _ _ _ _ _ Hc).
      unfold events_of, flow_of, state_of. cbn [fst snd].
      split; [exact Hev2|]. split; [exact Hto2|].
      assert (Hnone : match sc_finish_reason choice with
                      | Some fr => PyStr.truthy fr && negb true
                      | None => false
                      end = false).
      { destruct (sc_finish_reason choice) as [fr|]; [|reflexivity].
        apply andb_false_r. }
      rewrite Hnone. split; [discriminate|exact Hst2].
    - rewrite (bind_next _ _ _ _ _ _ Hc).
      rewrite events_of_prepend, flow_of_prepend, state_of_prepend.
      pose proof Hst2 as [(_ & _ & _ & Hsent) _].
      cbn [negb].
      destruct (sc_finish_reason choice) as [fr|].
      + rewrite andb_true_r. destruct (PyStr.truthy fr) eqn:Hfr.
        * rewrite (handle_finish_fires fr st2 Hfr Hsent).
          unfold events_of, flow_of, state_of. cbn [fst snd].
          split; [rewrite filter_app, Hev2, no_tool_event_closing; cbn;
                  apply app_nil_r|].
          split; [exact Hto2|reflexivity].
        * rewrite (handle_finish_skips (Some fr) st2);
            [|rewrite Hfr; reflexivity].
          unfold events_of, flow_of, state_of. cbn [fst snd].
          rewrite app_nil_r. split; [exact Hev2|]. split; [exact Hto2|].
          split; [discriminate|exact Hst2].
      + rewrite (handle_finish_skips None st2 eq_refl).
        unfold events_of, flow_of, state_of. cbn [fst snd].
        rewrite app_nil_r. split; [exact Hev2|]. split; [exact Hto2|].
        split; [discriminate|exact Hst2]. }
  cbv zeta in Hrest.
  destruct (d_content (sc_delta choice)) as [|s|]; subst fl1.
  - rewrite (bind_next _ _ _ _ _ _ Ht).
    rewrite events_of_prepend, flow_of_prepend, state_of_prepend.
    rewrite filter_app, Hev1. exact Hrest.
  - rewrite (bind_next _ _ _ _ _ _ Ht).
    rewrite events_of_prepend, flow_of_prepend, state_of_prepend.
    rewrite filter_app, Hev1. exact Hrest.
  - rewrite (bind_raised _ _ _ _ _ Ht).
    unfold events_of, flow_of, state_of. cbn [fst snd].
    split; [exact Hev1|].
    split; [unfold routed_to; rewrite Hi1, Hl1; reflexivity|].
    split; [discriminate|exact Hst1].
Qed.

Lemma finishes_returns (chunk : Chunk) (st : StreamState) :
  between st ->
  if finishes chunk
  then flow_of (process_chunk chunk st) = Returned
  else flow_of (process_chunk chunk st) <> Returned
       /\ between (state_of (process_chunk chunk st)).
Proof.
  intros Hst. exact (proj2 (proj2 (process_chunk_calls chunk st Hst))).
Qed.


(** The variables of the loop when it is left: [tool_index] is the index
    of the tool call handled last, and [last_tool_index] the number of
    tool blocks started. *)
Lemma final_state_routing (chunks : list Chunk) :
  forall st, between st ->
    routed_to (final_state chunks st)
      (routing (tool_index st) (last_tool_index st) (calls_received chunks)).
Proof.
  induction chunks as [|chunk rest IH]; intros st Hst; [reflexivity|].
  destruct (process_chunk_calls chunk st Hst) as (_ & Hto & _).
  pose proof (finishes_returns chunk st Hst) as Hflow.
  cbn [final_state calls_received].
  destruct (process_chunk chunk st) as [[evs st1] fl].
  unfold flow_of, state_of in Hflow, Hto. cbn [fst snd] in Hflow, Hto.
  destruct (finishes chunk).
  - subst fl. rewrite app_nil_r. exact Hto.
  - destruct Hflow as (Hfl & Hst1).
    assert (E : routed_to (final_state rest st1)
                  (routing (tool_index st) (last_tool_index st)
                     (chunk_calls chunk ++ calls_received rest))).
    { rewrite routing_app. unfold routed_to in Hto. rewrite <- Hto.
      apply IH, Hst1. }
    destruct fl as [[]| |]; [exact E|exact E|elim Hfl; reflexivity].
Qed.


(** The loop over the chunks goes on until a chunk [finishes]. *)
Lemma state_after_finishes (chunks : list Chunk) :
  forall st, between st ->
    match state_after chunks st with
    | Some st' =>
        between st' /\ st' = final_state chunks st
        /\ existsb finishes chunks = false
    | None => existsb finishes chunks = true
    end.
Proof.
  induction chunks as [|chunk rest IH]; intros st Hst.
  - cbn. split; [exact Hst|]. split; reflexivity.
  - pose proof (finishes_returns chunk st Hst) as Hflow.
    cbn [state_after final_state existsb].
    destruct (process_chunk chunk st) as [[evs st1] fl].
    unfold flow_of, state_of in Hflow. cbn [fst snd] in Hflow.
    destruct (finishes chunk); cbn [orb].
    + subst fl. reflexivity.
    + destruct Hflow as (Hfl & Hst1).
      destruct fl as [[]| |]; [apply IH, Hst1|apply IH, Hst1|
                                elim Hfl; reflexivity].
Qed.

Lemma routing_count (calls : list ToolCallDelta) :
  forall current n, n <= snd (routing current n calls).
Proof.
  induction calls as [|tc calls IH]; intros current n; cbn [routing snd];
    [lia|].
  specialize (IH (call_index tc) (if changes current tc then S n else n)).
  destruct (changes current tc); lia.
Qed.

(** The variables of the loop, by the tool calls received. When the
    loop is left, [tool_index] is the index of the tool call handled
    last and [last_tool_index] is the number of tool blocks started:
    the closing sequence stops the tool blocks unless that index is
    [None]. The generator returns in the loop exactly when a chunk
    [finishes]; and a stream without a finish reason reached stops
    block 0 a second time exactly when it has received a tool call. *)
Theorem loop_variables_of_calls (chunks : list Chunk) :
  routed_to (final_state chunks initial_state)
    (routing None 0 (calls_received chunks))
  /\ stops_tools chunks initial_state
     = is_some (fst (routing None 0 (calls_received chunks)))
  /\ is_none (state_after chunks initial_state) = existsb finishes chunks
  /\ closes_text_twice chunks initial_state
     = negb (existsb finishes chunks)
       && match calls_received chunks with
          | [] => false
          | _ :: _ => true
          end.
Proof.
  pose proof (final_state_routing chunks initial_state between_initial) as Hto.
  pose proof (state_after_finishes chunks initial_state between_initial) as Hafter.
  split; [exact Hto|]. split; [|split].
  - unfold stops_tools, is_some. unfold routed_to in Hto.
    change (tool_index initial_state) with (@None Z) in Hto.
    change (last_tool_index initial_state) with 0 in Hto.
    rewrite <- Hto. reflexivity.
  - destruct (state_after chunks initial_state) as [st'|].
    + destruct Hafter as (_ & _ & ->). reflexivity.
    + rewrite Hafter. reflexivity.
  - unfold closes_text_twice.
    destruct (state_after chunks initial_state) as [st'|];
      [|rewrite Hafter; reflexivity].
    destruct Hafter as (Hb & -> & ->). cbn [negb andb].
    unfold routed_to in Hto.
    change (tool_index initial_state) with (@None Z) in Hto.
    change (last_tool_index initial_state) with 0 in Hto.
    destruct Hb as [(Hopen & _) Hclosed].
    destruct (calls_received chunks) as [|tc calls].
    + cbn [routing] in Hto. injection Hto as _ Hl.
      destruct (text_block_closed (final_state chunks initial_state));
        [|reflexivity].
      specialize (Hclosed eq_refl). lia.
    + cbn [routing changes] in Hto.
      pose proof (routing_count calls (call_index tc) 1) as Hn.
      rewrite <- Hto in Hn. cbn [snd] in Hn.
      destruct (text_block_closed (final_state chunks initial_state));
        [reflexivity|].
      destruct (Hopen eq_refl) as [_ Hz]. lia.
Qed.

End Stream1.

(** Calls with the indices 0, 1 and 0 again: three tool blocks, the
    third for the call that comes back to index 0, under its [id] and
    [name], which are [None]. *)
Example interleaved_calls :
  filter is_tool_event
    (handle_streaming (L := ref_lib)
       [tool_chunk 0 (Given "a") (Given "f") "{";
        tool_chunk 1 (Given "b") (Given "g") "{}";
        tool_chunk 0 Null Null "}";
        finish_chunk "tool_calls"]
       Exhausted (request_of "openai/gpt-4o" 1024 [] None))
  = [ContentBlockStart 1 (StartToolUse (GivenId "a") (Some "f"));
     ContentBlockDelta 1 (InputJsonDelta "{");
     ContentBlockStart 2 (StartToolUse (GivenId "b") (Some "g"));
     ContentBlockDelta 2 (InputJsonDelta "{}");
     ContentBlockStart 3 (StartToolUse NoneId None);
     ContentBlockDelta 3 (InputJsonDelta "}")].
Proof. reflexivity. Qed.

(** A chunk whose tool call has 1000 opening brackets for arguments, and
    the finish reason [tool_calls]: the block of the call is started,
    the chunk is left, and the stream ends as one without a finish
    reason. *)
Example deep_arguments_stream :
  handle_streaming (L := ref_lib)
    [chunk_of NoContent
       [ {| tcd_index := Given 0%Z; tcd_id := Given "t1";
            tcd_name := Given "search";
            tcd_arguments := Some (repeat_char "["%char 1000) |} ]
       (Some "tool_calls")]
    Exhausted (request_of "openai/gpt-4o" 1024 [] None)
  = [MessageStart "openai/gpt-4o"; ContentBlockStart 0 StartText; Ping;
     ContentBlockStop 0;
     ContentBlockStart 1 (StartToolUse (GivenId "t1") (Some "search"));
     ContentBlockStop 1; ContentBlockStop 0;
     MessageDelta "end_turn" None 0; MessageStop; Done].
Proof. vm_compute. reflexivity. Qed.

Section Stream2.

Context {L : PyLib}.

(** ** The usage of a stream *)










(** ** The stop reason of a stream *)









End Stream2.

(** C3, as stated, fails on a finish reason in a chunk that an exception
    ends. The chunk holds a text that is no string and the finish reason
    [length]: the addition to [accumulated_text] raises, the chunk is
    left, and the stream ends with [end_turn], not [max_tokens]. *)
Lemma finish_reason_of_skipped_chunk_lost :
  stop_reasons
    (handle_streaming (L := ref_lib)
       [chunk_of OtherContent [] (Some "length")]
       Exhausted (request_of "openai/gpt-4o" 1024 [] None))
  = ["end_turn"]
  /\ finish_reason_table "length" = "max_tokens"
  /\ ~ (forall (L : PyLib) (chunk : Chunk) (choice : StreamChoice)
               (rest : list StreamChoice) (fr : string)
               (original_request : MessagesRequest),
          ck_choices chunk = ChoicesList (choice :: rest) ->
          sc_finish_reason choice = Some fr ->
          PyStr.truthy fr = true ->
          stop_reasons (handle_streaming [chunk] Exhausted original_request)
          = [finish_reason_table fr]).
Proof.
  split; [reflexivity|]. split; [reflexivity|].
  intros Hall.
  specialize (Hall ref_lib (chunk_of OtherContent [] (Some "length")) _ []
                "length" (request_of "openai/gpt-4o" 1024 [] None)
                eq_refl eq_refl eq_refl).
  discriminate Hall.
Qed.

